(** * run_spec.py: the spec-file parser, the case runner and the report

    A shallow embedding of [src/run_spec.py] (the conformance test runner of
    zigsh) and the properties of it that the specification states.

    Modelling conventions.
    - A Python [str] is a Rocq [string]; the text is read as ASCII.  The
      character classes [\s], [\w] and [\d] below are Python's on the code
      points under 128 (Python's [\s] also holds of the separators
      0x1c-0x1f); a character above 127 belongs to none of them.
    - [lines[i]] with its index [i] is the list of the lines not yet read:
      [i < len(lines)] is "the list is not empty", [lines[i]] its head and
      [i += 1] its tail.
    - A [while] loop whose index can be moved by an inner loop takes a fuel
      argument; the theorems show that the fuel the parser is started with
      is always enough.
    - [int] is CPython's of version 3.11 and later: a numeral of more than
      4300 digits is refused with a [ValueError].
    - [open(path)] and [f.readlines()] give the text of the file (in text
      mode, after the translation of line ends), or raise: [OSError] when
      the file cannot be opened or read, [ValueError] when the path holds
      a NUL character or the bytes of the file do not decode
      ([UnicodeDecodeError] is a [ValueError]).  [readlines] splits the
      text after each newline.
    - The standard output of the program can be written and flushed: an
      interpreter that cannot flush it when it exits ends with the status
      120, and that is outside the model.
    - What the standard library decides ([json.loads], [repr], decoding the
      captured bytes) is a section variable: the statements hold for every
      such function.  [Std] has them for ASCII texts, for the examples. *)

From Stdlib Require Import String Ascii List ZArith Lia Bool Arith.
From Stdlib Require Import DecimalString.
Import ListNotations.

Set Warnings "-comment-terminator-in-string".
Local Open Scope list_scope.
Local Open Scope string_scope.

(* ================================================================= *)
(** ** Python strings *)

Module Py.

Definition nl_char : ascii := "010"%char.
Definition nl : string := String nl_char EmptyString.
Definition dquote_char : ascii := "034"%char.
Definition dquote : string := String dquote_char EmptyString.

(** [s.startswith(p)] *)
Definition startswith (s p : string) : bool := String.prefix p s.

(** [s[n:]] *)
Fixpoint drop (n : nat) (s : string) : string :=
  match n, s with
  | O, _ => s
  | S _, EmptyString => EmptyString
  | S n', String _ s' => drop n' s'
  end.

(** [str.isspace] on one character (ASCII). *)
Definition is_space (c : ascii) : bool :=
  let n := nat_of_ascii c in
  (((9 <=? n) && (n <=? 13)) || ((28 <=? n) && (n <=? 32)))%nat.

Definition is_digit (c : ascii) : bool :=
  let n := nat_of_ascii c in ((48 <=? n) && (n <=? 57))%nat.

Definition is_word (c : ascii) : bool :=
  let n := nat_of_ascii c in
  is_digit c
  || (((65 <=? n) && (n <=? 90)) || ((97 <=? n) && (n <=? 122)) || (n =? 95))%nat.

(** [s.rstrip(chars)]: the characters of the class [p] are removed at the
    end. *)
Fixpoint rstrip_by (p : ascii -> bool) (s : string) : string :=
  match s with
  | EmptyString => EmptyString
  | String c s' =>
      match rstrip_by p s' with
      | EmptyString => if p c then EmptyString else String c EmptyString
      | t => String c t
      end
  end.

Fixpoint lstrip_by (p : ascii -> bool) (s : string) : string :=
  match s with
  | EmptyString => EmptyString
  | String c s' => if p c then lstrip_by p s' else s
  end.

(** [s.rstrip("\n")] *)
Definition rstrip_nl (s : string) : string := rstrip_by (Ascii.eqb nl_char) s.

(** [s.strip()] *)
Definition strip (s : string) : string := rstrip_by is_space (lstrip_by is_space s).

(** [sep.join(parts)] *)
Fixpoint join (sep : string) (parts : list string) : string :=
  match parts with
  | [] => EmptyString
  | [x] => x
  | x :: rest => x ++ sep ++ join sep rest
  end.

(** ["".join(parts)] *)
Definition concat (parts : list string) : string := String.concat EmptyString parts.

Fixpoint all_chars (p : ascii -> bool) (s : string) : bool :=
  match s with
  | EmptyString => true
  | String c s' => p c && all_chars p s'
  end.

Definition digit_value (c : ascii) : Z := Z.of_nat (nat_of_ascii c) - 48.

Fixpoint int_digits (acc : Z) (s : string) : Z :=
  match s with
  | EmptyString => acc
  | String c s' => int_digits (10 * acc + digit_value c) s'
  end.

(** [sys.int_info.default_max_str_digits]: since CPython 3.11 [int] refuses
    a numeral of more digits (leading zeros count) with a [ValueError]. *)
Definition int_max_str_digits : nat := 4300.

(** [int(s)] on a decimal numeral; [None] stands for [ValueError].  (Python
    also reads signs, blanks and underscores; a [\d+] group has none.) *)
Definition int (s : string) : option Z :=
  match s with
  | EmptyString => None
  | _ =>
      if all_chars is_digit s && (String.length s <=? int_max_str_digits)%nat
      then Some (int_digits 0 s) else None
  end.

(** [str(n)] of an integer. *)
Definition str_of_int (n : Z) : string := NilZero.string_of_int (Z.to_int n).

Fixpoint has_char (a : ascii) (s : string) : bool :=
  match s with
  | EmptyString => false
  | String c s' => Ascii.eqb a c || has_char a s'
  end.

(** [os.path.basename(p)]: what follows the last slash. *)
Fixpoint basename (p : string) : string :=
  match p with
  | EmptyString => EmptyString
  | String c p' =>
      if has_char "/" p' then basename p'
      else if Ascii.eqb c "/" then p' else p
  end.

(** [f.readlines()]: the lines of a text, each with the newline that ends
    it (the last one may have none). *)
Fixpoint readlines (s : string) : list string :=
  match s with
  | EmptyString => []
  | String c s' =>
      if Ascii.eqb c nl_char then String c EmptyString :: readlines s'
      else
        match readlines s' with
        | [] => [String c EmptyString]
        | l :: ls => String c l :: ls
        end
  end.

(** [s * n] *)
Fixpoint repeat (s : string) (n : nat) : string :=
  match n with
  | O => EmptyString
  | S n' => s ++ repeat s n'
  end.

(** A line of a file as [readlines] returns it. *)
Definition line (s : string) : string := s ++ nl.

End Py.

(* ================================================================= *)
(** ** Regular expressions

    The patterns of the parser are written as terms of [regex] and run by a
    backtracking matcher with the priorities of Python's [re]: alternatives
    left to right, repetition greedy, the match anchored at the start of
    the string ([re.match]).  One group of a pattern can be marked [Cap]:
    the group whose text the parser reads. *)

Module Re.

Inductive regex : Type :=
| Lit (s : string)             (* the text itself *)
| Cls (p : ascii -> bool)      (* one character of a class *)
| Seq (r1 r2 : regex)
| Alt (r1 r2 : regex)
| Star (r : regex)             (* r*, greedy *)
| Cap (r : regex)              (* the group read with m.group *)
| Eol                          (* $ *)
| Wb.                          (* \b *)

(** [r+] *)
Definition Plus (r : regex) : regex := Seq r (Star r).

(** The state of a match: the character before the position (for [\b]),
    the text from the position on, and the captured group. *)
Record mstate : Type :=
  MState { m_prev : option ascii; m_rest : string; m_group : option string }.

Fixpoint match_lit (p : string) (prev : option ascii) (s : string)
  : option (option ascii * string) :=
  match p with
  | EmptyString => Some (prev, s)
  | String a p' =>
      match s with
      | String b s' => if Ascii.eqb a b then match_lit p' (Some b) s' else None
      | EmptyString => None
      end
  end.

(** [$]: the end of the string, or just before a newline that ends it. *)
Definition at_eol (s : string) : bool :=
  match s with
  | EmptyString => true
  | String c EmptyString => Ascii.eqb c Py.nl_char
  | _ => false
  end.

Definition word_before (st : mstate) : bool :=
  match m_prev st with Some c => Py.is_word c | None => false end.

Definition word_after (st : mstate) : bool :=
  match m_rest st with String c _ => Py.is_word c | EmptyString => false end.

(** The text between two positions, the second reached from the first. *)
Definition consumed (from to : string) : string :=
  substring 0 (String.length from - String.length to) from.

(** The iterations of a star: one more round of the body when it matches
    and moves on, the continuation otherwise; [n] bounds the rounds by the
    length of the text. *)
Fixpoint star_iter (n : nat)
    (body : mstate -> (mstate -> option mstate) -> option mstate)
    (st : mstate) (k : mstate -> option mstate) : option mstate :=
  match n with
  | O => k st
  | S n' =>
      match body st (fun st' =>
               if (String.length (m_rest st') <? String.length (m_rest st))%nat
               then star_iter n' body st' k else None) with
      | Some r => Some r
      | None => k st
      end
  end.

Fixpoint rx (r : regex) (st : mstate) (k : mstate -> option mstate)
  : option mstate :=
  match r with
  | Lit p =>
      match match_lit p (m_prev st) (m_rest st) with
      | Some (pv, s') => k (MState pv s' (m_group st))
      | None => None
      end
  | Cls p =>
      match m_rest st with
      | String c s' => if p c then k (MState (Some c) s' (m_group st)) else None
      | EmptyString => None
      end
  | Seq r1 r2 => rx r1 st (fun st1 => rx r2 st1 k)
  | Alt r1 r2 =>
      match rx r1 st k with
      | Some x => Some x
      | None => rx r2 st k
      end
  | Star r1 => star_iter (String.length (m_rest st)) (rx r1) st k
  | Cap r1 =>
      rx r1 st (fun st' =>
        k (MState (m_prev st') (m_rest st')
             (Some (consumed (m_rest st) (m_rest st')))))
  | Eol => if at_eol (m_rest st) then k st else None
  | Wb => if xorb (word_before st) (word_after st) then k st else None
  end.

(** [re.match(r, s)] *)
Definition re_match (r : regex) (s : string) : option mstate :=
  rx r (MState None s None) Some.

(** [re.match(r, s)] read as a truth value. *)
Definition matches (r : regex) (s : string) : bool :=
  match re_match r s with Some _ => true | None => false end.

(** [m = re.match(r, s)] followed by [m.group(...)] of the marked group;
    [None] when there is no match. *)
Definition group (r : regex) (s : string) : option string :=
  match re_match r s with
  | Some st => m_group st
  | None => None
  end.

(** A pattern written as the list of its parts, and a choice as the list
    of its alternatives. *)
Fixpoint seq (rs : list regex) : regex :=
  match rs with
  | [] => Lit EmptyString
  | [r] => r
  | r :: rs' => Seq r (seq rs')
  end.

Fixpoint alt (rs : list regex) : regex :=
  match rs with
  | [] => Cls (fun _ => false)
  | [r] => r
  | r :: rs' => Alt r (alt rs')
  end.

(** [\S], [\w], [\d] and [.] *)
Definition nonspace : regex := Cls (fun c => negb (Py.is_space c)).
Definition word : regex := Cls Py.is_word.
Definition digit : regex := Cls Py.is_digit.
Definition dot : regex := Cls (fun c => negb (Ascii.eqb c Py.nl_char)).

End Re.

(* ================================================================= *)
(** ** The patterns of [parse_spec_file]

    Each pattern is the source's, part by part; the source's text stands
    above it. *)

Module Pat.
Import Re.

(** "dash(/\w+)*" *)
Definition dash : regex :=
  seq [Lit "dash"; Star (seq [Lit "/"; Plus word])].

(** "(OK|BUG\S*|N-I)" *)
Definition any_tag : regex :=
  alt [Lit "OK"; seq [Lit "BUG"; Star nonspace]; Lit "N-I"].

(** "^## (OK|BUG\S*|N-I) " (with the blank that ends it) *)
Definition outcome_tag : regex := seq [Lit "## "; any_tag; Lit " "].

(** "^## (OK|BUG) dash(/\w+)* STDOUT:" *)
Definition dash_block : regex :=
  seq [Lit "## "; alt [Lit "OK"; Lit "BUG"]; Lit " "; dash; Lit " STDOUT:"].

(** "^## N-I dash(/\w+)* STDOUT:" *)
Definition ni_block : regex := seq [Lit "## N-I "; dash; Lit " STDOUT:"].

(** "^## (OK|BUG\S*|N-I) \S+ STDOUT:" *)
Definition any_block : regex :=
  seq [Lit "## "; any_tag; Lit " "; Plus nonspace; Lit " STDOUT:"].

(** "^## (OK|BUG|N-I) dash(/\w+)* STDOUT:" *)
Definition target_block : regex :=
  seq [Lit "## "; alt [Lit "OK"; Lit "BUG"; Lit "N-I"]; Lit " "; dash;
       Lit " STDOUT:"].

(** "^## N-I dash(/\w+)*\b" *)
Definition ni_marker : regex := seq [Lit "## N-I "; dash; Wb].

(** "^## code: (.*)$" *)
Definition code : regex := seq [Lit "## code: "; Cap (Star dot); Eol].

(** "^## stdout: (.*)$" *)
Definition stdout : regex := seq [Lit "## stdout: "; Cap (Star dot); Eol].

(** "^## stdout-json: Q(.*)Q$" (Q: the double quote) *)
Definition stdout_json : regex :=
  seq [Lit "## stdout-json: "; Lit Py.dquote; Cap (Star dot); Lit Py.dquote;
       Eol].

(** "^## status: (\d+)$" *)
Definition status : regex := seq [Lit "## status: "; Cap (Plus digit); Eol].

(** "^## BUG (bash|mksh|zsh|dash(/\w+)*)" *)
Definition bug : regex :=
  seq [Lit "## BUG "; alt [Lit "bash"; Lit "mksh"; Lit "zsh"; dash]].

(** "^## BUG dash(/\w+)* stdout: (.*)$", read with [group(2)] *)
Definition bug_stdout : regex :=
  seq [Lit "## BUG "; dash; Lit " stdout: "; Cap (Star dot); Eol].

(** "^## BUG dash(/\w+)* stdout-json: Q(.*)Q$", read with [group(2)] (Q: the double quote) *)
Definition bug_stdout_json : regex :=
  seq [Lit "## BUG "; dash; Lit " stdout-json: "; Lit Py.dquote;
       Cap (Star dot); Lit Py.dquote; Eol].

(** "^## BUG dash(/\w+)* status: (\d+)$", read with [group(2)] *)
Definition bug_status : regex :=
  seq [Lit "## BUG "; dash; Lit " status: "; Cap (Plus digit); Eol].

(** "^## OK dash(/\w+)* stdout" *)
Definition ok_stdout_any : regex := seq [Lit "## OK "; dash; Lit " stdout"].

(** "^## OK dash(/\w+)* stdout: (.*)$", read with [group(2)] *)
Definition ok_stdout : regex :=
  seq [Lit "## OK "; dash; Lit " stdout: "; Cap (Star dot); Eol].

(** "^## OK dash(/\w+)* stdout-json: Q(.*)Q$", read with [group(2)] (Q: the double quote) *)
Definition ok_stdout_json : regex :=
  seq [Lit "## OK "; dash; Lit " stdout-json: "; Lit Py.dquote;
       Cap (Star dot); Lit Py.dquote; Eol].

(** "^## OK dash(/\w+)* status: (\d+)$", read with [group(2)] *)
Definition ok_status : regex :=
  seq [Lit "## OK "; dash; Lit " status: "; Cap (Plus digit); Eol].

(** "^## N-I dash(/\w+)* status: (\d+)$" *)
Definition ni_status : regex :=
  seq [Lit "## N-I "; dash; Lit " status: "; Cap (Plus digit); Eol].

End Pat.

(* ================================================================= *)
(** ** Results of code that can raise *)

(** The exceptions that can leave the program: [ValueError] from [int]
    and from reading a file that does not decode, [OSError] from [open],
    [SystemExit] from [sys.exit]. *)
Inductive exn : Type :=
| ValueError
| OSError
| SystemExit (status : Z).

Inductive res (A : Type) : Type :=
| Ok (a : A)
| Raise (e : exn)
| OutOfFuel.

Arguments Ok {A} a.
Arguments Raise {A} e.
Arguments OutOfFuel {A}.

Definition bind {A B : Type} (m : res A) (f : A -> res B) : res B :=
  match m with
  | Ok a => f a
  | Raise e => Raise e
  | OutOfFuel => OutOfFuel
  end.

Notation "x <- m ;; k" := (bind m (fun x => k))
  (at level 61, m at next level, right associativity).
Notation "' p <- m ;; k" := (bind m (fun x => let p := x in k))
  (at level 61, p pattern, m at next level, right associativity).

(** [int(g)] inside the parser: a [ValueError] would leave it. *)
Definition int_of (g : string) : res Z :=
  match Py.int g with
  | Some n => Ok n
  | None => Raise ValueError
  end.

(** [lines] up to the first one that fails [p], and the lines from it on:
    [while i < len(lines) and p(lines[i]): ...; i += 1]. *)
Fixpoint span {A : Type} (p : A -> bool) (l : list A) : list A * list A :=
  match l with
  | [] => ([], [])
  | x :: l' =>
      if p x then let (a, b) := span p l' in (x :: a, b) else ([], l)
  end.

(* ================================================================= *)
(** ** [parse_spec_file] *)

(** The local variables of one case while its annotations are read
    (lines 31-37; [is_bash_only] and [stdout_block] are never read). *)
Module Var.

Record t : Type := Make {
  code : string;
  expect_stdout : option string;
  expect_stdout_json : option string;
  expect_status : Z;
  n_i_dash : bool
}.

Definition set_code (v : string) (s : t) : t :=
  Make v (expect_stdout s) (expect_stdout_json s) (expect_status s) (n_i_dash s).
Definition set_expect_stdout (v : option string) (s : t) : t :=
  Make (code s) v (expect_stdout_json s) (expect_status s) (n_i_dash s).
Definition set_expect_stdout_json (v : option string) (s : t) : t :=
  Make (code s) (expect_stdout s) v (expect_status s) (n_i_dash s).
Definition set_expect_status (v : Z) (s : t) : t :=
  Make (code s) (expect_stdout s) (expect_stdout_json s) v (n_i_dash s).
Definition set_n_i_dash (v : bool) (s : t) : t :=
  Make (code s) (expect_stdout s) (expect_stdout_json s) (expect_status s) v.

(** Lines 31-36, with the body of the case as [code] (line 47). *)
Definition init (body : string) : t := Make body None None 0%Z false.

End Var.

(** The dictionary appended to [cases] (lines 143-149). *)
Record case : Type := Case {
  name : string;
  code : string;
  expect_stdout : option string;
  expect_status : Z;
  n_i_dash : bool
}.

(** What lines 13-14 give for a path: the text of the file, or one of
    the exceptions of [open] and [readlines]. *)
Inductive read_result : Type :=
| Text (text : string)
| NotOpened      (* OSError: no such file, no permission, a directory *)
| NotDecoded.    (* ValueError: a NUL in the path, bytes that do not decode *)

Section ParseSpecFile.

(** [json.loads] on a text; [None] when it raises. *)
Variable json_loads : string -> option string.

(** The test of the four block loops (lines 56, 66, 75, 83):
    [not lines[i].startswith("## END") and not re.match(outcome_tag, lines[i])]. *)
Definition in_block (l : string) : bool :=
  negb (Py.startswith l "## END") && negb (Re.matches Pat.outcome_tag l).

(** The block loop: the lines of the block, and the lines from the one
    that stopped it. *)
Definition read_block (ls : list string) : list string * list string :=
  span in_block ls.

(** [if i < len(lines) and lines[i].startswith("## END"): i += 1] *)
Definition skip_end (ls : list string) : list string :=
  match ls with
  | l :: rest => if Py.startswith l "## END" then rest else ls
  | [] => []
  end.

(** [json.loads('"' + g + '"')] *)
Definition loads_quoted (g : string) : option string :=
  json_loads (Py.dquote ++ g ++ Py.dquote).

(** Line 88-89. *)
Definition on_ni_marker (ln : string) (s : Var.t) : Var.t :=
  if Re.matches Pat.ni_marker ln then Var.set_n_i_dash true s else s.

(** Lines 90-92. *)
Definition on_code (ln : string) (s : Var.t) : Var.t :=
  match Re.group Pat.code ln with
  | Some g => Var.set_code (g ++ Py.nl) s
  | None => s
  end.

(** Lines 93-96. *)
Definition on_stdout (ln : string) (s : Var.t) : Var.t :=
  match Re.group Pat.stdout ln with
  | Some g =>
      match Var.expect_stdout s with
      | None => Var.set_expect_stdout (Some (g ++ Py.nl)) s
      | Some _ => s
      end
  | None => s
  end.

(** Lines 97-103. *)
Definition on_stdout_json (ln : string) (s : Var.t) : Var.t :=
  match Re.group Pat.stdout_json ln with
  | Some g =>
      match Var.expect_stdout s with
      | None =>
          match loads_quoted g with
          | Some v => Var.set_expect_stdout_json (Some v) s
          | None => s
          end
      | Some _ => s
      end
  | None => s
  end.

(** [m = re.match(p, ln)] and [if m: expect_status = int(m.group(..))]:
    lines 104-106, 118-120 and 132-134. *)
Definition on_status_of (p : Re.regex) (ln : string) (s : Var.t) : res Var.t :=
  match Re.group p ln with
  | Some g => n <- int_of g ;; Ok (Var.set_expect_status n s)
  | None => Ok s
  end.

(** [m = re.match(p, ln)] and [if m: expect_stdout = m.group(2) + "\n"]:
    lines 108-110 and 122-124. *)
Definition on_dash_stdout_of (p : Re.regex) (ln : string) (s : Var.t) : Var.t :=
  match Re.group p ln with
  | Some g => Var.set_expect_stdout (Some (g ++ Py.nl)) s
  | None => s
  end.

(** Lines 111-117 and 125-131: both assignments are made when
    [json.loads] returns, none when it raises. *)
Definition on_dash_stdout_json_of (p : Re.regex) (ln : string) (s : Var.t)
  : Var.t :=
  match Re.group p ln with
  | Some g =>
      match loads_quoted g with
      | Some v => Var.set_expect_stdout None (Var.set_expect_stdout_json (Some v) s)
      | None => s
      end
  | None => s
  end.

(** Lines 107-120. *)
Definition on_bug (ln : string) (s : Var.t) : res Var.t :=
  if Re.matches Pat.bug ln then
    let s := on_dash_stdout_of Pat.bug_stdout ln s in
    let s := on_dash_stdout_json_of Pat.bug_stdout_json ln s in
    on_status_of Pat.bug_status ln s
  else Ok s.

(** Lines 121-131. *)
Definition on_ok_stdout (ln : string) (s : Var.t) : Var.t :=
  if Re.matches Pat.ok_stdout_any ln then
    let s := on_dash_stdout_of Pat.ok_stdout ln s in
    on_dash_stdout_json_of Pat.ok_stdout_json ln s
  else s.

(** Lines 135-137. *)
Definition on_ni_status (ln : string) (s : Var.t) : Var.t :=
  match Re.group Pat.ni_status ln with
  | Some _ => Var.set_n_i_dash true s
  | None => s
  end.

(** Lines 88-137: what one line that opens no block does to the
    variables. *)
Definition annot_inline (ln : string) (s : Var.t) : res Var.t :=
  let s := on_ni_marker ln s in
  let s := on_code ln s in
  let s := on_stdout ln s in
  let s := on_stdout_json ln s in
  s <- on_status_of Pat.status ln s ;;
  s <- on_bug ln s ;;
  let s := on_ok_stdout ln s in
  s <- on_status_of Pat.ok_status ln s ;;
  Ok (on_ni_status ln s).

(** The test of line 81. *)
Definition other_block (ln : string) : bool :=
  Re.matches Pat.any_block ln && negb (Re.matches Pat.target_block ln).

(** Lines 49-138: the loop over the annotations of a case, from the
    variables [s] and the lines [ls] not yet read; it returns the variables
    and the lines left when it stops. *)
Fixpoint annot_loop (fuel : nat) (s : Var.t) (ls : list string)
  : res (Var.t * list string) :=
  match fuel with
  | O => OutOfFuel
  | S fuel' =>
      match ls with
      | [] => Ok (s, [])
      | l :: rest =>
          let ln := Py.rstrip_nl l in
          if Py.startswith ln "#### " then Ok (s, ls)
          else if Py.startswith ln "## STDOUT:" then
            let (stdout_lines, r) := read_block rest in
            annot_loop fuel'
              (Var.set_expect_stdout (Some (Py.concat stdout_lines)) s)
              (skip_end r)
          else if Re.matches Pat.dash_block ln then
            let (stdout_lines, r) := read_block rest in
            annot_loop fuel'
              (Var.set_expect_stdout (Some (Py.concat stdout_lines)) s)
              (skip_end r)
          else if Re.matches Pat.ni_block ln then
            let (_, r) := read_block rest in
            annot_loop fuel' (Var.set_n_i_dash true s) (skip_end r)
          else if other_block ln then
            let (_, r) := read_block rest in
            annot_loop fuel' s (skip_end r)
          else
            s' <- annot_inline ln s ;;
            annot_loop fuel' s' rest
      end
  end.

(** Line 24: [not lines[i].startswith("## ")]. *)
Definition not_annotation (l : string) : bool := negb (Py.startswith l "## ").

(** Lines 140-149: the case made of the variables. *)
Definition make_case (nm : string) (s : Var.t) : case :=
  let expect_stdout :=
    match Var.expect_stdout_json s, Var.expect_stdout s with
    | Some j, None => Some j
    | _, e => e
    end in
  Case nm (Var.code s) expect_stdout (Var.expect_status s) (Var.n_i_dash s).

(** Lines 21-149: one case, from the lines after its header; it returns
    the case and the lines left. *)
Definition parse_case (fuel : nat) (line : string) (ls : list string)
  : res (case * list string) :=
  let nm := Py.strip (Py.drop 5 line) in
  (* lines 22-29 *)
  let (code_lines, r1) := span not_annotation ls in
  (* lines 39-47 *)
  let (real_code_lines, _) := span not_annotation code_lines in
  let body := Py.concat real_code_lines in
  ' (s, r2) <- annot_loop fuel (Var.init body) r1 ;;
  Ok (make_case nm s, r2).

(** Lines 18-151: the loop over the lines of the file. *)
Fixpoint cases_loop (fuel : nat) (cases : list case) (ls : list string)
  : res (list case) :=
  match fuel with
  | O => OutOfFuel
  | S fuel' =>
      match ls with
      | [] => Ok cases
      | line :: rest =>
          if Py.startswith line "#### " then
            ' (c, r) <- parse_case fuel' line rest ;;
            cases_loop fuel' (cases ++ [c]) r
          else cases_loop fuel' cases rest
      end
  end.

(** [parse_spec_file], from the lines that [f.readlines()] returned. *)
Definition parse_lines (lines : list string) : res (list case) :=
  cases_loop (S (List.length lines)) [] lines.

(** Lines 12-14: [fs] maps a path to what [open] and [readlines] give
    for it; an exception of theirs leaves [parse_spec_file]. *)
Definition parse_spec_file (fs : string -> read_result) (path : string)
  : res (list case) :=
  match fs path with
  | Text text => parse_lines (Py.readlines text)
  | NotOpened => Raise OSError
  | NotDecoded => Raise ValueError
  end.

End ParseSpecFile.

(* ================================================================= *)
(** ** [run_case] *)

(** The first component of what [run_case] returns. *)
Inductive outcome : Type := PASS | NI | TIMEOUT | ERROR | FAIL.

(** What [subprocess.run] does with a script: it returns the captured
    output and the exit status, or raises [TimeoutExpired], or raises
    another exception ([e] is [str(e)]). *)
Inductive run_result : Type :=
| Completed (stdout : string) (returncode : Z)
| TimeoutExpired
| Failed (e : string).

(** What [run_case] does to the world around it, in order. *)
Inductive event : Type :=
| WriteScript (text : string)   (* lines 158-161 *)
| RunShell (text : string)      (* lines 164-176 *)
| Unlink.                       (* line 184 *)

Section Execution.

(** The shell under test, from the text of the script to what running it
    gives. *)
Variable shell : string -> run_result.
(** [bytes.decode("utf-8", errors="replace")] *)
Variable decode : string -> string.
(** [repr] of a string (the [!r] of the f-strings). *)
Variable repr : string -> string.

(** Line 192. *)
Definition stdout_error (expected actual : string) : string :=
  "stdout: expected " ++ repr expected ++ ", got " ++ repr actual.

(** Line 194. *)
Definition status_error (expected actual : Z) : string :=
  "status: expected " ++ Py.str_of_int expected ++ ", got "
  ++ Py.str_of_int actual.

(** Lines 189-194: the list [errors]. *)
Definition compare (c : case) (stdout : string) (status : Z) : list string :=
  let errors : list string := [] in
  let errors :=
    match expect_stdout c with
    | Some e =>
        if String.eqb stdout e then errors
        else (errors ++ [stdout_error e stdout])%list
    | None => errors
    end in
  if Z.eqb status (expect_status c) then errors
  else (errors ++ [status_error (expect_status c) status])%list.

(** [run_case]: the pair it returns, and the events on the way.  The
    script is written, run and (in the [finally]) removed on every path. *)
Definition run_case (c : case) : (outcome * string) * list event :=
  let trace := [WriteScript (code c); RunShell (code c); Unlink] in
  match shell (code c) with
  | TimeoutExpired => ((TIMEOUT, "timed out"), trace)
  | Failed e => ((ERROR, e), trace)
  | Completed out status =>
      let stdout := decode out in
      if n_i_dash c then ((NI, "not implemented in dash"), trace)
      else
        match compare c stdout status with
        | [] => ((PASS, EmptyString), trace)
        | errors => ((FAIL, Py.join "; " errors), trace)
        end
  end.

(* ================================================================= *)
(** ** [main] *)

(** The counters of [main] (lines 210-215). *)
Record tally : Type := Tally {
  passed : Z;
  failed : Z;
  ni : Z;
  errors : Z;
  timeouts : Z;
  failures : list (string * string)
}.

(** Lines 218-231: one round of the loop over the cases. *)
Definition count (t : tally) (c : case) : tally :=
  let '(result, msg) := fst (run_case c) in
  match result with
  | PASS => Tally (passed t + 1) (failed t) (ni t) (errors t) (timeouts t) (failures t)
  | NI => Tally (passed t) (failed t) (ni t + 1) (errors t) (timeouts t) (failures t)
  | TIMEOUT =>
      Tally (passed t) (failed t) (ni t) (errors t) (timeouts t + 1)
        (failures t ++ [(name c, msg)])%list
  | ERROR =>
      Tally (passed t) (failed t) (ni t) (errors t + 1) (timeouts t)
        (failures t ++ [(name c, msg)])%list
  | FAIL =>
      Tally (passed t) (failed t + 1) (ni t) (errors t) (timeouts t)
        (failures t ++ [(name c, msg)])%list
  end.

Definition tally_of (cases : list case) : tally :=
  fold_left count cases (Tally 0 0 0 0 0 []).

(** Line 233. *)
Definition total (t : tally) : Z :=
  passed t + failed t + ni t + errors t + timeouts t.

(** Line 234. *)
Definition summary (spec_file : string) (t : tally) : string :=
  Py.basename spec_file ++ ": " ++ Py.str_of_int (passed t) ++ "/"
  ++ Py.str_of_int (total t) ++ " passed, " ++ Py.str_of_int (failed t)
  ++ " failed, " ++ Py.str_of_int (ni t) ++ " N-I, "
  ++ Py.str_of_int (errors t) ++ " errors, "
  ++ Py.str_of_int (timeouts t) ++ " timeouts".

(** Lines 238 and 242. *)
Definition failure_line (f : string * string) : string :=
  "  FAIL: " ++ fst f ++ ": " ++ snd f.

(** Line 244: the value [main] returns. *)
Definition return_value (t : tally) : Z :=
  if Z.eqb (failed t) 0 && Z.eqb (errors t) 0 && Z.eqb (timeouts t) 0
  then 0%Z else 1%Z.

Variable json_loads : string -> option string.
Variable fs : string -> read_result.

(** [main]: the lines it prints, and how it ends. *)
Definition main (argv : list string) : list string * res Z :=
  match argv with
  | _ :: spec_file :: _ =>
      let only_failures := existsb (String.eqb "--only-failures") argv in
      match parse_spec_file json_loads fs spec_file with
      | Ok cases =>
          let t := tally_of cases in
          let out := [summary spec_file t] in
          let out :=
            match failures t with
            | [] => out
            | _ => if only_failures then out
                   else (out ++ map failure_line (failures t))%list
            end in
          let out :=
            if only_failures then (out ++ map failure_line (failures t))%list
            else out in
          (out, Ok (return_value t))
      | Raise e => ([], Raise e)
      | OutOfFuel => ([], OutOfFuel)
      end
  | _ => (["Usage: run_spec.py <spec-file> [--only-failures]"],
          Raise (SystemExit 1))
  end.

(** Lines 247-248: the program calls [main()] and drops what it returns.
    The exit status of the process is 0 when the call returns, the
    argument of [sys.exit] when that was called, and 1 when another
    exception leaves the program. *)
Definition exit_status (argv : list string) : option Z :=
  match snd (main argv) with
  | Ok _ => Some 0%Z
  | Raise (SystemExit n) => Some n
  | Raise _ => Some 1%Z
  | OutOfFuel => None
  end.

End Execution.

(* ================================================================= *)
(** ** The standard library on ASCII texts

    The functions that the sections above take as variables, written out
    for the texts of the examples: a JSON string literal whose escapes
    name characters under 256, [repr] of such a string, and the decoding
    of ASCII bytes. *)

Module Std.

Definition hex_value (c : ascii) : option nat :=
  let n := nat_of_ascii c in
  if ((48 <=? n) && (n <=? 57))%nat then Some (n - 48)
  else if ((97 <=? n) && (n <=? 102))%nat then Some (n - 87)
  else if ((65 <=? n) && (n <=? 70))%nat then Some (n - 55)
  else None.

Definition hex4 (a b c d : ascii) : option nat :=
  match hex_value a, hex_value b, hex_value c, hex_value d with
  | Some x, Some y, Some z, Some w => Some (((x * 16 + y) * 16 + z) * 16 + w)
  | _, _, _, _ => None
  end.

(** The character an escape names: the eight one-letter escapes of JSON. *)
Definition simple_escape (e : ascii) : option ascii :=
  if Ascii.eqb e Py.dquote_char then Some Py.dquote_char
  else if Ascii.eqb e "\" then Some "\"%char
  else if Ascii.eqb e "/" then Some "/"%char
  else if Ascii.eqb e "b" then Some "008"%char
  else if Ascii.eqb e "f" then Some "012"%char
  else if Ascii.eqb e "n" then Some "010"%char
  else if Ascii.eqb e "r" then Some "013"%char
  else if Ascii.eqb e "t" then Some "009"%char
  else None.

Definition push (c : ascii) (r : option (string * string))
  : option (string * string) :=
  match r with
  | Some (v, rest) => Some (String c v, rest)
  | None => None
  end.

(** The text of a JSON string from after its opening quote: the decoded
    string and what follows the closing quote. *)
Fixpoint scanstring (s : string) : option (string * string) :=
  match s with
  | EmptyString => None
  | String c s' =>
      if Ascii.eqb c Py.dquote_char then Some (EmptyString, s')
      else if Ascii.eqb c "\" then
        match s' with
        | String e s'' =>
            if Ascii.eqb e "u" then
              match s'' with
              | String h1 (String h2 (String h3 (String h4 r))) =>
                  match hex4 h1 h2 h3 h4 with
                  | Some n =>
                      if (n <? 256)%nat then push (ascii_of_nat n) (scanstring r)
                      else None
                  | None => None
                  end
              | _ => None
              end
            else
              match simple_escape e with
              | Some ch => push ch (scanstring s'')
              | None => None
              end
        | EmptyString => None
        end
      else if (nat_of_ascii c <? 32)%nat then None
      else push c (scanstring s')
  end.

Definition json_blank (c : ascii) : bool :=
  Ascii.eqb c " " || Ascii.eqb c "009" || Ascii.eqb c "010" || Ascii.eqb c "013".

(** [json.loads] of a text that is one string literal. *)
Definition json_loads (text : string) : option string :=
  match text with
  | String q body =>
      if Ascii.eqb q Py.dquote_char then
        match scanstring body with
        | Some (v, rest) => if Py.all_chars json_blank rest then Some v else None
        | None => None
        end
      else None
  | EmptyString => None
  end.

Definition hex_digit (n : nat) : ascii :=
  if (n <? 10)%nat then ascii_of_nat (48 + n) else ascii_of_nat (87 + n).

Definition repr_char (q c : ascii) : string :=
  let n := nat_of_ascii c in
  if Ascii.eqb c q || Ascii.eqb c "\" then String "\" (String c EmptyString)
  else if Ascii.eqb c "009" then "\t"
  else if Ascii.eqb c "010" then "\n"
  else if Ascii.eqb c "013" then "\r"
  else if ((n <? 32) || (127 <=? n))%nat then
    String "\" (String "x" (String (hex_digit (n / 16))
                              (String (hex_digit (n mod 16)) EmptyString)))
  else String c EmptyString.

Fixpoint repr_body (q : ascii) (s : string) : string :=
  match s with
  | EmptyString => EmptyString
  | String c s' => repr_char q c ++ repr_body q s'
  end.

(** [repr] of a string: in single quotes, or in double quotes when it has
    a single quote and no double one. *)
Definition repr (s : string) : string :=
  let q := if Py.has_char "'" s && negb (Py.has_char Py.dquote_char s)
           then Py.dquote_char else "'"%char in
  String q (repr_body q s ++ String q EmptyString).

(** Decoding ASCII bytes gives the same characters. *)
Definition decode (bytes : string) : string := bytes.

End Std.

(* ================================================================= *)
(** * Vocabulary of the statements *)

(** No status annotation of the line has more digits than [int] reads. *)
Definition status_ok (ln : string) : bool :=
  forallb
    (fun p =>
       match Re.group p ln with
       | Some g => (String.length g <=? Py.int_max_str_digits)%nat
       | None => true
       end)
    [Pat.status; Pat.bug_status; Pat.ok_status].

Definition lines_ok (ls : list string) : Prop :=
  Forall (fun l => status_ok (Py.rstrip_nl l) = true) ls.

(** [rest] is what is left of [ls] after some of its first lines. *)
Definition suffix (rest ls : list string) : Prop :=
  exists pre, ls = (pre ++ rest)%list.

(** The line has none of the forms that the loop over the annotations
    knows: it is no header, it opens no block, and no pattern that changes
    a variable matches it. *)
Definition unrecognised (ln : string) : bool :=
  negb (Py.startswith ln "#### ") && negb (Py.startswith ln "## STDOUT:")
  && forallb (fun p => negb (Re.matches p ln))
       [Pat.dash_block; Pat.ni_block; Pat.any_block; Pat.ni_marker;
        Pat.code; Pat.stdout; Pat.stdout_json; Pat.status;
        Pat.bug_stdout; Pat.bug_stdout_json; Pat.bug_status;
        Pat.ok_stdout; Pat.ok_stdout_json; Pat.ok_status; Pat.ni_status].

(** The decoded output differs from the expected one of the case. *)
Definition stdout_mismatch (c : case) (stdout : string) : Prop :=
  exists e, expect_stdout c = Some e /\ stdout <> e.

(** The parts of the diagnostic of a comparison: one for the output when
    it is checked and differs, one for the status when it differs. *)
Definition mismatches (repr : string -> string) (c : case)
    (stdout : string) (status : Z) : list string :=
  let stdout_part : list string :=
    match expect_stdout c with
    | Some e =>
        if String.eqb stdout e then []
        else ["stdout: expected " ++ repr e ++ ", got " ++ repr stdout]
    | None => []
    end in
  let status_part : list string :=
    if Z.eqb status (expect_status c) then []
    else ["status: expected " ++ Py.str_of_int (expect_status c) ++ ", got "
          ++ Py.str_of_int status] in
  (stdout_part ++ status_part)%list.

(** The lines that start a case (line 20). *)
Definition is_header (l : string) : bool := Py.startswith l "#### ".

Definition count_headers (lines : list string) : nat :=
  List.length (filter is_header lines).

(** A file system with one file, and shells that do the same with every
    script. *)
Definition one_file (path text : string) : string -> read_result :=
  fun p => if String.eqb p path then Text text else NotOpened.

Definition text_of (lines : list string) : string :=
  Py.concat (map Py.line lines).

Definition shell_returning (out : string) (status : Z) : string -> run_result :=
  fun _ => Completed out status.

Definition shell_hanging : string -> run_result := fun _ => TimeoutExpired.

(** The outcome of a case is one of the two that [main] does not count as
    a failure. *)
Definition accepted (o : outcome) : Prop := o = PASS \/ o = NI.

Definition outcome_of (shell : string -> run_result)
    (decode repr : string -> string) (c : case) : outcome :=
  fst (fst (run_case shell decode repr c)).

Definition nonneg (t : tally) : Prop :=
  (0 <= failed t /\ 0 <= errors t /\ 0 <= timeouts t)%Z.

Definition clean (t : tally) : Prop :=
  (failed t = 0 /\ errors t = 0 /\ timeouts t = 0)%Z.

(** The lines that the loop over the annotations reads one by one (lines
    88-138), in order: the lines of [ls], up to the next header that the
    loop sees, that are in no block; each without the newline that ends
    it. *)
Fixpoint inline_lines (fuel : nat) (ls : list string) : list string :=
  match fuel with
  | O => []
  | S fuel' =>
      match ls with
      | [] => []
      | l :: rest =>
          let ln := Py.rstrip_nl l in
          if Py.startswith ln "#### " then []
          else if Py.startswith ln "## STDOUT:" then
            inline_lines fuel' (skip_end (snd (read_block rest)))
          else if Re.matches Pat.dash_block ln then
            inline_lines fuel' (skip_end (snd (read_block rest)))
          else if Re.matches Pat.ni_block ln then
            inline_lines fuel' (skip_end (snd (read_block rest)))
          else if other_block ln then
            inline_lines fuel' (skip_end (snd (read_block rest)))
          else ln :: inline_lines fuel' rest
      end
  end.

(** The annotations of the case whose header is followed by the lines
    [ls]: the body of the case ends where the first annotation starts,
    and the loop has fuel for all the lines after it. *)
Definition annotations (ls : list string) : list string :=
  let r := snd (span not_annotation ls) in
  inline_lines (S (List.length r)) r.

(** What a line read by the loop does to [code] (lines 90-92). *)
Definition code_step (code : string) (ln : string) : string :=
  match Re.group Pat.code ln with
  | Some g => g ++ Py.nl
  | None => code
  end.

(** The argument of the last [code:] annotation among the lines. *)
Definition last_code_argument (lns : list string) : option string :=
  fold_left
    (fun found ln =>
       match Re.group Pat.code ln with
       | Some g => Some g
       | None => found
       end)
    lns None.

(* ================================================================= *)
(** * Vocabulary of the further statements *)

Definition outcome_eqb (a b : outcome) : bool :=
  match a, b with
  | PASS, PASS | NI, NI | TIMEOUT, TIMEOUT | ERROR, ERROR | FAIL, FAIL => true
  | _, _ => false
  end.

(** The cases of a list that end with the outcome [o], and their number. *)
Definition with_outcome (shell : string -> run_result)
    (decode repr : string -> string) (o : outcome) (cases : list case)
  : list case :=
  filter (fun c => outcome_eqb (outcome_of shell decode repr c) o) cases.

Definition number_of (shell : string -> run_result)
    (decode repr : string -> string) (o : outcome) (cases : list case) : Z :=
  Z.of_nat (List.length (with_outcome shell decode repr o cases)).

(** The outcome is one of the three that [main] reports as a failure. *)
Definition reported (o : outcome) : bool :=
  match o with
  | PASS | NI => false
  | TIMEOUT | ERROR | FAIL => true
  end.

(** The pair that [main] keeps of a case it reports: its name and the
    message of [run_case]. *)
Definition report_of (shell : string -> run_result)
    (decode repr : string -> string) (c : case) : string * string :=
  (name c, snd (fst (run_case shell decode repr c))).

(** The four tests with which the loop over the annotations finds the
    opening of a block (lines 53, 63, 73 and 81). *)
Definition opens_block (ln : string) : bool :=
  Py.startswith ln "## STDOUT:" || Re.matches Pat.dash_block ln
  || Re.matches Pat.ni_block ln || other_block ln.

(** The loop sees a header in the line (line 51). *)
Definition seen_as_header (l : string) : bool :=
  Py.startswith (Py.rstrip_nl l) "#### ".

(** A line that the loop reads on its own, and a line that opens a
    block. *)
Definition plain (l : string) : bool :=
  negb (seen_as_header l) && negb (opens_block (Py.rstrip_nl l)).

Definition opener (l : string) : bool :=
  negb (seen_as_header l) && opens_block (Py.rstrip_nl l).

(** Annotations in which every block is closed by an end marker: lines
    read on their own, and blocks made of an opening line, lines that the
    block loop takes, and a line that starts with "## END". *)
Inductive closed : list string -> Prop :=
| closed_nil : closed []
| closed_plain l ann :
    plain l = true -> closed ann -> closed (l :: ann)
| closed_block l content e ann :
    opener l = true ->
    Forall (fun x => in_block x = true) content ->
    Py.startswith e "## END" = true ->
    closed ann ->
    closed (l :: content ++ e :: ann).

(** Where a case may end: at the end of the file, or in front of a
    header. *)
Definition at_boundary (rest : list string) : Prop :=
  match rest with
  | [] => True
  | h :: _ => is_header h = true
  end.

(** The lines of one case as the format has them: the header, the lines
    of the script, and annotations with closed blocks, the first of which
    starts with "## ". *)
Definition case_lines (hdr : string) (body ann : list string) : Prop :=
  is_header hdr = true
  /\ Forall (fun l => not_annotation l = true) body
  /\ closed ann
  /\ match ann with
     | [] => False
     | a :: _ => not_annotation a = false
     end.

(** [cs <- m ;; cs' <- m' ;; Ok (cs ++ cs')] *)
Definition both (m m' : res (list case)) : res (list case) :=
  cs <- m ;; cs' <- m' ;; Ok (cs ++ cs')%list.

(** The name that line 21 reads in a header. *)
Definition header_name (hdr : string) : string := Py.strip (Py.drop 5 hdr).

(** A file in the format: cases one after the other, with no header among
    the lines of a script or of annotations. *)
Inductive well_formed : list string -> Prop :=
| wf_end : well_formed []
| wf_case hdr body ann rest :
    case_lines hdr body ann ->
    count_headers (body ++ ann) = 0 ->
    well_formed rest ->
    well_formed (hdr :: body ++ ann ++ rest).

(** The numeral that a line gives to [expect_status], if any: the three
    assignments of lines 104-106, 118-120 and 132-134, the last one
    first. *)
Definition status_argument (ln : string) : option string :=
  match Re.group Pat.ok_status ln with
  | Some g => Some g
  | None =>
      match (if Re.matches Pat.bug ln then Re.group Pat.bug_status ln
             else None) with
      | Some g => Some g
      | None => Re.group Pat.status ln
      end
  end.

(** The numeral of the last status annotation among the lines. *)
Definition last_status_argument (lns : list string) : option string :=
  fold_left
    (fun found ln =>
       match status_argument ln with
       | Some g => Some g
       | None => found
       end)
    lns None.

(** Where the loop over the lines of a block stops: at the end of the
    file, or in front of a line that starts with "## END" or with an
    outcome tag. *)
Definition block_end (tail : list string) : Prop :=
  match tail with
  | [] => True
  | e :: _ => in_block e = false
  end.

(** Every character that the pattern reads is of the class [q]. *)
Fixpoint within (q : ascii -> bool) (r : Re.regex) : Prop :=
  match r with
  | Re.Lit p => Py.all_chars q p = true
  | Re.Cls p => forall c, p c = true -> q c = true
  | Re.Seq r1 r2 | Re.Alt r1 r2 => within q r1 /\ within q r2
  | Re.Star r1 | Re.Cap r1 => within q r1
  | Re.Eol | Re.Wb => True
  end.

(** The characters of the name of the shell in an annotation of dash:
    those of a word, and the slash. *)
Definition dash_char (c : ascii) : bool := Py.is_word c || Ascii.eqb c "/".

(** One round of the loop over the annotations of a case: a line read on
    its own (lines 88-138), or the opening line of a block with the lines
    that the block loop took after it (lines 53-87).  The line is without
    the newline that ends it. *)
Inductive reading : Type :=
| Alone (ln : string)
| Block (ln : string) (content : list string).

(** The rounds of the loop over the annotations on the lines [ls], in
    order, up to the header or the end of the file that stops it. *)
Fixpoint readings (fuel : nat) (ls : list string) : list reading :=
  match fuel with
  | O => []
  | S fuel' =>
      match ls with
      | [] => []
      | l :: rest =>
          let ln := Py.rstrip_nl l in
          if Py.startswith ln "#### " then []
          else if opens_block ln then
            Block ln (fst (read_block rest))
            :: readings fuel' (skip_end (snd (read_block rest)))
          else Alone ln :: readings fuel' rest
      end
  end.

(** The rounds of the loop for the case whose header is followed by the
    lines [ls]: the loop starts at the first line that starts with "## ",
    with fuel for all the lines from there. *)
Definition case_readings (ls : list string) : list reading :=
  let r := snd (span not_annotation ls) in
  readings (S (List.length r)) r.

(** The round marks the case as not implemented by dash: a marker or a
    status annotation for N-I read on its own, or the opening of an N-I
    block of dash. *)
Definition marks (r : reading) : bool :=
  match r with
  | Alone ln => Re.matches Pat.ni_marker ln || Re.matches Pat.ni_status ln
  | Block ln _ => Re.matches Pat.ni_block ln
  end.

(* ================================================================= *)
(** * The expected output of a case, as C6 is amended

    The rule of the amended claim, written from its words: the expected
    output in the making is [expected_stdout] and a fallback, both unset
    at the start of a case. *)







(* ================================================================= *)
(** * Properties *)

(** ** The matcher *)

Section Matcher.
Import Re.

Lemma match_lit_app p : forall prev s pv s',
  match_lit p prev s = Some (pv, s') -> s = p ++ s'.
Proof.
  induction p as [|a p IH]; intros prev s pv s' H; simpl in H.
  - now inversion H.
  - destruct s as [|b s]; [discriminate|].
    destruct (Ascii.eqb a b) eqn:E; [|discriminate].
    apply Ascii.eqb_eq in E; subst b.
    simpl; f_equal; eauto.
Qed.

(** A result of the iterations of a star is a result of the continuation,
    when that holds of the body. *)
Lemma star_iter_cont n : forall body st k res,
  (forall st0 k0 res0, body st0 k0 = Some res0 -> exists st', k0 st' = Some res0) ->
  star_iter n body st k = Some res -> exists st', k st' = Some res.
Proof.
  induction n as [|n IH]; intros body st k res Hb H; simpl in H.
  - eauto.
  - destruct (body st _) as [x|] eqn:E.
    + inversion H; subst x; clear H.
      apply Hb in E. destruct E as [st1 E].
      destruct (_ <? _)%nat; [|discriminate].
      eapply IH; eauto.
    + eauto.
Qed.

(** A match gives what its continuation gives, at some position. *)
Lemma rx_cont r : forall st k res,
  rx r st k = Some res -> exists st', k st' = Some res.
Proof.
  induction r as [p|p|r1 IH1 r2 IH2|r1 IH1 r2 IH2|r IH|r IH| |];
    intros st k res H; simpl in H.
  - destruct (match_lit _ _ _) as [[pv s']|]; [eauto|discriminate].
  - destruct (m_rest st) as [|c s']; [discriminate|].
    destruct (p c); [eauto|discriminate].
  - apply IH1 in H. destruct H as [st1 H]. eauto.
  - destruct (rx r1 st k) as [x|] eqn:E.
    + inversion H; subst x. eauto.
    + eauto.
  - eapply star_iter_cont; eauto.
  - apply IH in H. destruct H as [st1 H]. eauto.
  - destruct (at_eol _); [eauto|discriminate].
  - destruct (xorb _ _); [eauto|discriminate].
Qed.

(** The iterations of a star over a class read characters of the class. *)
Lemma star_iter_cls n p : forall st k res,
  star_iter n (rx (Cls p)) st k = Some res ->
  exists ds st', m_rest st = ds ++ m_rest st'
                 /\ Py.all_chars p ds = true
                 /\ m_group st' = m_group st
                 /\ k st' = Some res.
Proof.
  induction n as [|n IH]; intros st k res H; simpl in H.
  - exists EmptyString, st. auto.
  - destruct (m_rest st) as [|c s'] eqn:Es.
    + exists EmptyString, st. rewrite Es. auto.
    + destruct (p c) eqn:Ep.
      * cbn [m_rest] in H.
        destruct (_ <? _)%nat.
        -- destruct (star_iter n _ _ _) as [x|] eqn:E.
           ++ inversion H; subst x; clear H.
              apply IH in E. destruct E as (ds & st' & E1 & E2 & E3 & E4).
              cbn [m_rest m_group] in E1, E3.
              exists (String c ds), st'. subst s'. simpl. rewrite Ep, E2. auto.
           ++ exists EmptyString, st. rewrite Es. auto.
        -- exists EmptyString, st. rewrite Es. auto.
      * exists EmptyString, st. rewrite Es. auto.
Qed.

Lemma substring_prefix (a b : string) :
  substring 0 (String.length a) (a ++ b) = a.
Proof. induction a as [|c a IH]; simpl; [now destruct b|now rewrite IH]. Qed.

Lemma string_length_app (a b : string) :
  String.length (a ++ b) = String.length a + String.length b.
Proof. induction a; simpl; auto. Qed.

Lemma consumed_app (a b : string) : consumed (a ++ b) b = a.
Proof.
  unfold consumed. rewrite string_length_app.
  replace (String.length a + String.length b - String.length b)
    with (String.length a) by lia.
  apply substring_prefix.
Qed.

(** ["(\d+)$"] at the end of a pattern: the group is a numeral. *)
Lemma digits_tail st res :
  rx (Seq (Cap (Plus digit)) Eol) st Some = Some res ->
  exists g, m_group res = Some g /\ g <> EmptyString
            /\ Py.all_chars Py.is_digit g = true.
Proof.
  intros H. cbn [rx Plus digit] in H.
  destruct (m_rest st) as [|c s'] eqn:Es; [discriminate|].
  destruct (Py.is_digit c) eqn:Ec; [|discriminate].
  apply star_iter_cls in H.
  destruct H as (ds & st' & E1 & E2 & _ & E4).
  cbn [m_rest m_prev] in E1, E4.
  destruct (at_eol _); [|discriminate].
  inversion E4; subst res; clear E4. cbn [m_group].
  exists (String c ds). subst s'.
  change (String c (ds ++ m_rest st')) with (String c ds ++ m_rest st').
  rewrite consumed_app. simpl. rewrite Ec, E2. repeat split; congruence.
Qed.

(** A pattern that starts with a text matches only what starts with it. *)
Lemma lit_prefix p r s res :
  re_match (Seq (Lit p) r) s = Some res -> exists t, s = p ++ t.
Proof.
  unfold re_match. cbn [rx m_prev m_rest].
  destruct (match_lit p None s) as [[pv s']|] eqn:E; [|discriminate].
  intros _. apply match_lit_app in E. eauto.
Qed.

Lemma seq_cont r1 r2 st k res :
  rx (Seq r1 r2) st k = Some res -> exists st1, rx r2 st1 k = Some res.
Proof. cbn [rx]. apply rx_cont. Qed.

End Matcher.

(** ** The parser returns *)

Section Totality.

Variable json_loads : string -> option string.

Lemma int_of_numeral g :
  g <> EmptyString -> Py.all_chars Py.is_digit g = true ->
  String.length g <= Py.int_max_str_digits ->
  exists n, int_of g = Ok n.
Proof.
  intros Hne Hd Hl. unfold int_of, Py.int.
  destruct g as [|c g]; [congruence|].
  rewrite Hd. apply Nat.leb_le in Hl. rewrite Hl. simpl. eauto.
Qed.

(** The three status patterns end with ["(\d+)$"]. *)
Lemma status_group_numeral p ln g :
  In p [Pat.status; Pat.bug_status; Pat.ok_status] ->
  Re.group p ln = Some g ->
  g <> EmptyString /\ Py.all_chars Py.is_digit g = true.
Proof.
  intros Hp Hg. unfold Re.group, Re.re_match in Hg.
  destruct (Re.rx p _ Some) as [res|] eqn:E; [|discriminate].
  assert (exists st, Re.rx (Re.Seq (Re.Cap (Re.Plus Re.digit)) Re.Eol) st Some = Some res)
    as [st Hst].
  { simpl in Hp. destruct Hp as [<-|[<-|[<-|[]]]].
    - apply seq_cont in E. exact E.
    - apply seq_cont in E. destruct E as [s1 E].
      apply seq_cont in E. destruct E as [s2 E].
      apply seq_cont in E. exact E.
    - apply seq_cont in E. destruct E as [s1 E].
      apply seq_cont in E. destruct E as [s2 E].
      apply seq_cont in E. exact E. }
  apply digits_tail in Hst. destruct Hst as (g' & Hg' & Hne & Hd).
  rewrite Hg' in Hg. inversion Hg; subst g'. auto.
Qed.

Lemma on_status_of_ok p ln s :
  In p [Pat.status; Pat.bug_status; Pat.ok_status] ->
  status_ok ln = true ->
  exists s', on_status_of p ln s = Ok s'.
Proof.
  intros Hp Hok. unfold on_status_of.
  destruct (Re.group p ln) as [g|] eqn:Eg; [|eauto].
  destruct (status_group_numeral p ln g Hp Eg) as [Hne Hd].
  assert (String.length g <= Py.int_max_str_digits) as Hl.
  { unfold status_ok in Hok. rewrite forallb_forall in Hok.
    specialize (Hok p Hp). rewrite Eg in Hok. now apply Nat.leb_le. }
  destruct (int_of_numeral g Hne Hd Hl) as [n Hn].
  rewrite Hn. simpl. eauto.
Qed.

Lemma annot_inline_ok ln s :
  status_ok ln = true -> exists s', annot_inline json_loads ln s = Ok s'.
Proof.
  intros Hok. unfold annot_inline.
  destruct (on_status_of_ok Pat.status ln
              (on_stdout_json json_loads ln (on_stdout ln (on_code ln (on_ni_marker ln s)))))
    as [s1 E1]; [simpl; auto|auto|].
  rewrite E1. cbn [bind].
  assert (exists s2, on_bug json_loads ln s1 = Ok s2) as [s2 E2].
  { unfold on_bug. destruct (Re.matches Pat.bug ln); [|eauto].
    apply on_status_of_ok; simpl; auto. }
  rewrite E2. cbn [bind].
  destruct (on_status_of_ok Pat.ok_status ln (on_ok_stdout json_loads ln s2))
    as [s3 E3]; [simpl; auto|auto|].
  rewrite E3. cbn [bind]. eauto.
Qed.

Lemma suffix_refl ls : suffix ls ls.
Proof. now exists []. Qed.

Lemma suffix_cons l rest ls : suffix rest ls -> suffix rest (l :: ls).
Proof. intros [pre ->]. now exists (l :: pre). Qed.

Lemma suffix_trans a b c : suffix a b -> suffix b c -> suffix a c.
Proof. intros [p ->] [q ->]. exists (q ++ p)%list. now rewrite app_assoc. Qed.

Lemma suffix_length rest ls : suffix rest ls -> List.length rest <= List.length ls.
Proof. intros [pre ->]. rewrite length_app. lia. Qed.

Lemma suffix_Forall (P : string -> Prop) rest ls :
  suffix rest ls -> Forall P ls -> Forall P rest.
Proof. intros [pre ->] H. apply Forall_app in H. tauto. Qed.

Lemma span_app {A} (p : A -> bool) l : forall a b,
  span p l = (a, b) -> l = (a ++ b)%list.
Proof.
  induction l as [|x l IH]; intros a b H; simpl in H.
  - now inversion H.
  - destruct (p x).
    + destruct (span p l) as [a' b'] eqn:E. inversion H; subst.
      simpl. f_equal. auto.
    + now inversion H.
Qed.

Lemma span_suffix (p : string -> bool) l a b : span p l = (a, b) -> suffix b l.
Proof. intros H. exists a. now apply (span_app p). Qed.

Lemma skip_end_suffix ls : suffix (skip_end ls) ls.
Proof.
  destruct ls as [|l rest]; simpl; [apply suffix_refl|].
  destruct (Py.startswith l "## END");
    [apply suffix_cons|]; apply suffix_refl.
Qed.

Lemma block_suffix rest a r :
  read_block rest = (a, r) -> suffix (skip_end r) rest.
Proof.
  intros H. eapply suffix_trans; [apply skip_end_suffix|].
  eapply span_suffix; exact H.
Qed.

(** The loop over the annotations returns when its fuel is more than the
    number of lines, and leaves some of them. *)
Lemma annot_loop_ok fuel : forall s ls,
  List.length ls < fuel -> lines_ok ls ->
  exists s' rest, annot_loop json_loads fuel s ls = Ok (s', rest)
                  /\ suffix rest ls.
Proof.
  induction fuel as [|fuel IH]; intros s ls Hf Hok; [lia|].
  destruct ls as [|l rest]; simpl.
  - exists s, []. split; [reflexivity|apply suffix_refl].
  - destruct (Py.startswith (Py.rstrip_nl l) "#### ").
    { exists s, (l :: rest). split; [reflexivity|apply suffix_refl]. }
    assert (Hrest : lines_ok rest) by (now inversion Hok).
    assert (Hblock : forall s0 a r, read_block rest = (a, r) ->
              exists s' rest', annot_loop json_loads fuel s0 (skip_end r) = Ok (s', rest')
                               /\ suffix rest' (l :: rest)).
    { intros s0 a r Hr. pose proof (block_suffix _ _ _ Hr) as Hs.
      destruct (IH s0 (skip_end r)) as (s' & rest' & E & Hs').
      - apply suffix_length in Hs. simpl in Hf. lia.
      - eapply suffix_Forall; eauto.
      - exists s', rest'. split; [exact E|].
        apply suffix_cons. eapply suffix_trans; eauto. }
    destruct (Py.startswith (Py.rstrip_nl l) "## STDOUT:").
    { destruct (read_block rest) as [a r] eqn:Er. eapply Hblock; eauto. }
    destruct (Re.matches Pat.dash_block _).
    { destruct (read_block rest) as [a r] eqn:Er. eapply Hblock; eauto. }
    destruct (Re.matches Pat.ni_block _).
    { destruct (read_block rest) as [a r] eqn:Er. eapply Hblock; eauto. }
    destruct (other_block _).
    { destruct (read_block rest) as [a r] eqn:Er. eapply Hblock; eauto. }
    destruct (annot_inline_ok (Py.rstrip_nl l) s) as [s1 E1].
    { now inversion Hok. }
    rewrite E1. cbn [bind].
    destruct (IH s1 rest) as (s' & rest' & E & Hs').
    + simpl in Hf. lia.
    + exact Hrest.
    + exists s', rest'. split; [exact E|]. now apply suffix_cons.
Qed.

Lemma parse_case_ok fuel line ls :
  List.length ls < fuel -> lines_ok ls ->
  exists c rest, parse_case json_loads fuel line ls = Ok (c, rest)
                 /\ suffix rest ls.
Proof.
  intros Hf Hok. unfold parse_case.
  destruct (span not_annotation ls) as [code_lines r1] eqn:E1.
  destruct (span not_annotation code_lines) as [real_code_lines x].
  pose proof (span_suffix _ _ _ _ E1) as Hs.
  destruct (annot_loop_ok fuel (Var.init (Py.concat real_code_lines)) r1)
    as (s' & rest & E & Hs').
  - apply suffix_length in Hs. lia.
  - eapply suffix_Forall; eauto.
  - rewrite E. cbn [bind]. eexists _, rest. split; [reflexivity|].
    eapply suffix_trans; eauto.
Qed.

Lemma cases_loop_ok fuel : forall cases ls,
  List.length ls < fuel -> lines_ok ls ->
  exists cases', cases_loop json_loads fuel cases ls = Ok cases'.
Proof.
  induction fuel as [|fuel IH]; intros cases ls Hf Hok; [lia|].
  destruct ls as [|line rest]; simpl; [eauto|].
  assert (Hrest : lines_ok rest) by (now inversion Hok).
  simpl in Hf.
  destruct (Py.startswith line "#### ").
  - destruct (parse_case_ok fuel line rest) as (c & r & E & Hs); [lia|auto|].
    rewrite E. cbn [bind].
    apply IH.
    + apply suffix_length in Hs. lia.
    + eapply suffix_Forall; eauto.
  - apply IH; [lia|auto].
Qed.

End Totality.

(** ** Lines that the parser does not know *)

Section Unrecognised.

Variable json_loads : string -> option string.

Lemma matches_false_group p ln : Re.matches p ln = false -> Re.group p ln = None.
Proof.
  unfold Re.matches, Re.group. now destruct (Re.re_match p ln).
Qed.

Lemma unrecognised_inline ln s :
  unrecognised ln = true -> annot_inline json_loads ln s = Ok s.
Proof.
  unfold unrecognised. rewrite !andb_true_iff, forallb_forall.
  intros [_ H].
  assert (Hm : forall p,
    In p [Pat.dash_block; Pat.ni_block; Pat.any_block; Pat.ni_marker;
          Pat.code; Pat.stdout; Pat.stdout_json; Pat.status;
          Pat.bug_stdout; Pat.bug_stdout_json; Pat.bug_status;
          Pat.ok_stdout; Pat.ok_stdout_json; Pat.ok_status; Pat.ni_status] ->
    Re.matches p ln = false).
  { intros p Hp. apply negb_true_iff. auto. }
  assert (Hg : forall p,
    In p [Pat.dash_block; Pat.ni_block; Pat.any_block; Pat.ni_marker;
          Pat.code; Pat.stdout; Pat.stdout_json; Pat.status;
          Pat.bug_stdout; Pat.bug_stdout_json; Pat.bug_status;
          Pat.ok_stdout; Pat.ok_stdout_json; Pat.ok_status; Pat.ni_status] ->
    Re.group p ln = None).
  { intros p Hp. apply matches_false_group. auto. }
  unfold annot_inline, on_ni_marker, on_code, on_stdout, on_stdout_json,
    on_bug, on_ok_stdout, on_ni_status, on_status_of, on_dash_stdout_of,
    on_dash_stdout_json_of.
  rewrite (Hm Pat.ni_marker), (Hg Pat.code), (Hg Pat.stdout),
    (Hg Pat.stdout_json), (Hg Pat.status), (Hg Pat.bug_stdout),
    (Hg Pat.bug_stdout_json), (Hg Pat.bug_status), (Hg Pat.ok_stdout),
    (Hg Pat.ok_stdout_json), (Hg Pat.ok_status), (Hg Pat.ni_status)
    by (simpl; tauto).
  cbn [bind].
  destruct (Re.matches Pat.bug ln), (Re.matches Pat.ok_stdout_any ln);
    reflexivity.
Qed.

Lemma unrecognised_step fuel s l rest :
  unrecognised (Py.rstrip_nl l) = true ->
  annot_loop json_loads (S fuel) s (l :: rest)
  = annot_loop json_loads fuel s rest.
Proof.
  intros H. pose proof (unrecognised_inline _ s H) as Hi.
  unfold unrecognised in H. rewrite !andb_true_iff, forallb_forall in H.
  destruct H as [[H1 H2] H3].
  apply negb_true_iff in H1, H2.
  assert (Hm : forall p, In p [Pat.dash_block; Pat.ni_block; Pat.any_block] ->
                         Re.matches p (Py.rstrip_nl l) = false).
  { intros p Hp. apply negb_true_iff, H3. simpl in Hp. simpl. tauto. }
  cbn [annot_loop]. unfold other_block.
  rewrite H1, H2, (Hm Pat.dash_block), (Hm Pat.ni_block), (Hm Pat.any_block)
    by (simpl; tauto).
  cbn [andb]. rewrite Hi. reflexivity.
Qed.

End Unrecognised.

(** What holds of C9 on the code.  For every list of lines in which no
    line is a status annotation of more digits than [int] reads (4300
    since CPython 3.11), the parser returns a list of cases: it neither
    raises nor runs out of fuel.  And a line that has none of the forms
    the parser knows changes no variable of the case: the loop goes on
    with the next line. *)
Lemma parse_lines_returns (json_loads : string -> option string) :
  (forall lines, lines_ok lines ->
     exists cases, parse_lines json_loads lines = Ok cases)
  /\ (forall fuel s l rest, unrecognised (Py.rstrip_nl l) = true ->
        annot_loop json_loads (S fuel) s (l :: rest)
        = annot_loop json_loads fuel s rest).
Proof.
  split.
  - intros lines Hok. unfold parse_lines. apply cases_loop_ok; [lia|exact Hok].
  - intros. now apply unrecognised_step.
Qed.

(** C9: the parser at a failing input.  The status annotation of the case
    has 4301 digits: the pattern of line 104 matches it, [int] (line 106)
    refuses a numeral of that length with a [ValueError], and nothing in
    the parser catches it, unlike the failure of [json.loads] three lines
    above (lines 100-103).  No list of cases comes out. *)
Theorem parse_lines_raises :
  parse_lines Std.json_loads
    (map Py.line ["#### t"; "## status: " ++ Py.repeat "1" 4301])
  = Raise ValueError.
Proof. vm_compute. reflexivity. Qed.

(** ** The runner *)

Section Runner.

Variable shell : string -> run_result.
Variable decode : string -> string.
Variable repr : string -> string.

Lemma compare_mismatches c stdout status :
  compare repr c stdout status = mismatches repr c stdout status.
Proof.
  unfold compare, mismatches, stdout_error, status_error.
  destruct (expect_stdout c) as [e|];
    [destruct (String.eqb stdout e)|];
    destruct (Z.eqb status (expect_status c)); reflexivity.
Qed.

Lemma mismatches_nil c stdout status :
  mismatches repr c stdout status = []
  <-> ~ (stdout_mismatch c stdout \/ status <> expect_status c).
Proof.
  unfold mismatches, stdout_mismatch.
  destruct (expect_stdout c) as [e|];
    [destruct (String.eqb_spec stdout e) as [He|He]|];
    destruct (Z.eqb_spec status (expect_status c)) as [Hs|Hs]; simpl;
    (split; [intros H; try discriminate H|intros H; try reflexivity]).
  all: try (intros [(e' & E & Hd)|Hd];
            [try discriminate E; inversion E; subst; congruence|congruence]).
  all: exfalso; apply H;
    first [right; assumption
          |left; eexists; split; [reflexivity|assumption]].
Qed.

Lemma mismatches_cons c stdout status :
  mismatches repr c stdout status <> [] ->
  stdout_mismatch c stdout \/ status <> expect_status c.
Proof.
  unfold mismatches, stdout_mismatch.
  destruct (expect_stdout c) as [e|];
    [destruct (String.eqb_spec stdout e) as [He|He]|];
    destruct (Z.eqb_spec status (expect_status c)) as [Hs|Hs]; simpl;
    intros H; try congruence;
    first [right; assumption
          |left; eexists; split; [reflexivity|assumption]].
Qed.

Lemma run_case_completed c out status :
  n_i_dash c = false -> shell (code c) = Completed out status ->
  fst (run_case shell decode repr c)
  = match mismatches repr c (decode out) status with
    | [] => (PASS, EmptyString)
    | errs => (FAIL, Py.join "; " errs)
    end.
Proof.
  intros Hn Hs. unfold run_case. rewrite Hs, Hn, compare_mismatches.
  now destruct (mismatches _ _ _ _).
Qed.

End Runner.

(** C7.  A case that is not marked not-implemented and whose run returns
    in time is compared: the outcome is FAIL exactly when the expected
    output is given and differs from the decoded output, or the exit status
    differs from the expected one, and PASS otherwise (with no expected
    output the output is not looked at).  The diagnostic of a FAIL joins,
    with "; ", one part per field that differs: the name of the field, the
    expected and the actual value. *)
Theorem run_case_compares (shell : string -> run_result)
    (decode repr : string -> string) (c : case) (out : string) (status : Z) :
  n_i_dash c = false ->
  shell (code c) = Completed out status ->
  let result := fst (run_case shell decode repr c) in
  let differs := stdout_mismatch c (decode out) \/ status <> expect_status c in
  (fst result = FAIL <-> differs)
  /\ (fst result = PASS <-> ~ differs)
  /\ (expect_stdout c = None -> (fst result = FAIL <-> status <> expect_status c))
  /\ (fst result = PASS -> snd result = EmptyString)
  /\ (fst result = FAIL ->
      snd result = Py.join "; " (mismatches repr c (decode out) status)).
Proof.
  intros Hn Hs result differs. subst result.
  rewrite (run_case_completed shell decode repr c out status Hn Hs).
  pose proof (mismatches_nil repr c (decode out) status) as Hnil.
  pose proof (mismatches_cons repr c (decode out) status) as Hcons.
  fold differs in Hnil, Hcons.
  destruct (mismatches repr c (decode out) status) as [|m ms] eqn:E;
    cbn [fst snd].
  - assert (~ differs) as Hnd by (apply Hnil; reflexivity).
    repeat split; intros; try discriminate; try tauto.
    exfalso. apply Hnd. now right.
  - assert (differs) as Hd by (apply Hcons; discriminate).
    repeat split; intros; try discriminate; try tauto.
    destruct Hd as [(e & Ee & _)|Hd]; [congruence|exact Hd].
Qed.

Lemma run_case_compares_witness :
  fst (run_case (shell_returning (Py.line "ho") 3) Std.decode Std.repr
         (Case "t" (Py.line "echo ho; exit 3") (Some (Py.line "hi")) 0 false))
  = (FAIL, "stdout: expected 'hi\n', got 'ho\n'; status: expected 0, got 3").
Proof.
  destruct (run_case_compares (shell_returning (Py.line "ho") 3)
              Std.decode Std.repr
              (Case "t" (Py.line "echo ho; exit 3") (Some (Py.line "hi")) 0 false)
              (Py.line "ho") 3 eq_refl eq_refl)
    as (Hfail & _ & _ & _ & Hmsg).
  destruct (fst (run_case _ _ _ _)) as [o m]. cbn [fst snd] in Hfail, Hmsg.
  assert (Hf : o = FAIL) by (apply Hfail; right; discriminate).
  rewrite (Hmsg Hf), Hf. reflexivity.
Defined.

(** C2, as amended.  A case marked not-implemented is run like any other
    case (its script is written, run and removed).  When the run returns
    in time the outcome is N-I, whatever the output and the exit status;
    when it times out the outcome is TIMEOUT, and when the shell cannot be
    started it is ERROR. *)
Theorem run_case_not_implemented (shell : string -> run_result)
    (decode repr : string -> string) (c : case) :
  n_i_dash c = true ->
  snd (run_case shell decode repr c)
  = [WriteScript (code c); RunShell (code c); Unlink]
  /\ fst (run_case shell decode repr c)
     = match shell (code c) with
       | Completed _ _ => (NI, "not implemented in dash")
       | TimeoutExpired => (TIMEOUT, "timed out")
       | Failed e => (ERROR, e)
       end.
Proof.
  intros Hn. unfold run_case. rewrite Hn.
  destruct (shell (code c)); split; reflexivity.
Qed.

Lemma run_case_not_implemented_witness :
  fst (run_case (shell_returning "anything" 7) Std.decode Std.repr
         (Case "t" (Py.line "echo hi") None 0 true))
  = (NI, "not implemented in dash").
Proof.
  exact (proj2 (run_case_not_implemented (shell_returning "anything" 7)
                  Std.decode Std.repr
                  (Case "t" (Py.line "echo hi") None 0 true) eq_refl)).
Defined.

(** C2 as stated fails: the script of a not-implemented case is run, and
    when it hangs the outcome is TIMEOUT. *)
Lemma not_implemented_case_times_out :
  n_i_dash (Case "t" (Py.line "sleep 100") None 0 true) = true
  /\ run_case shell_hanging Std.decode Std.repr
       (Case "t" (Py.line "sleep 100") None 0 true)
     = ((TIMEOUT, "timed out"),
        [WriteScript (Py.line "sleep 100"); RunShell (Py.line "sleep 100");
         Unlink]).
Proof. split; reflexivity. Qed.

(** ** The value [main] returns, and the exit status *)

Section Main.

Variable shell : string -> run_result.
Variable decode : string -> string.
Variable repr : string -> string.
Variable json_loads : string -> option string.
Variable fs : string -> read_result.

Lemma count_nonneg t c : nonneg t -> nonneg (count shell decode repr t c).
Proof.
  unfold nonneg, count. intros (H1 & H2 & H3).
  destruct (fst (run_case shell decode repr c)) as [o m].
  destruct o; cbn; lia.
Qed.

Lemma count_clean t c :
  nonneg t ->
  (clean (count shell decode repr t c) <-> clean t /\ accepted (outcome_of shell decode repr c)).
Proof.
  unfold nonneg, clean, accepted, outcome_of, count. intros (H1 & H2 & H3).
  destruct (fst (run_case shell decode repr c)) as [o m].
  destruct o; cbn; split; intros H; try lia;
    try (destruct H as [_ [H|H]]; discriminate);
    try (split; [lia|auto]).
Qed.

Lemma fold_count_clean cases : forall t,
  nonneg t ->
  (clean (fold_left (count shell decode repr) cases t)
   <-> clean t /\ Forall (fun c => accepted (outcome_of shell decode repr c)) cases).
Proof.
  induction cases as [|c cases IH]; intros t Ht; simpl.
  - split; [intros H; split; [exact H|constructor]|tauto].
  - rewrite IH by (now apply count_nonneg).
    rewrite (count_clean t c Ht). split.
    + intros [[H1 H2] H3]. split; [exact H1|now constructor].
    + intros [H1 H2]. inversion H2; subst. tauto.
Qed.

(** What line 244 computes is what the specification asks of the exit
    status: 0 exactly when every outcome is PASS or N-I. *)
Lemma return_value_accepted cases :
  return_value (tally_of shell decode repr cases) = 0%Z
  <-> Forall (fun c => accepted (outcome_of shell decode repr c)) cases.
Proof.
  unfold tally_of.
  pose proof (fold_count_clean cases (Tally 0 0 0 0 0 [])) as H.
  assert (Hn : nonneg (Tally 0 0 0 0 0 [])) by (unfold nonneg; cbn; lia).
  specialize (H Hn).
  assert (Hc : clean (Tally 0 0 0 0 0 [])) by (unfold clean; cbn; lia).
  unfold return_value.
  set (t := fold_left _ _ _) in *.
  unfold clean in H at 1.
  destruct (Z.eqb_spec (failed t) 0), (Z.eqb_spec (errors t) 0),
    (Z.eqb_spec (timeouts t) 0); cbn; split; intros H0;
    try discriminate; try reflexivity; try tauto;
    exfalso; assert (clean t /\ True) by (split; [apply H; tauto|exact I]);
    unfold clean in *; tauto.
Qed.

(** But the value is dropped: whenever [main] returns, the exit status of
    the process is 0. *)
Lemma exit_status_of_return argv v :
  snd (main shell decode repr json_loads fs argv) = Ok v ->
  exit_status shell decode repr json_loads fs argv = Some 0%Z.
Proof. unfold exit_status. now intros ->. Qed.

End Main.

(** C1: the program at a failing input.  The file has one case, whose
    script exits with status 1 where 0 is expected: the outcome is FAIL and
    [main] returns 1, and the exit status of the process is 0. *)
Theorem exit_status_ignores_failure :
  main (shell_returning EmptyString 1) Std.decode Std.repr Std.json_loads
    (one_file "spec/t.test.sh" (text_of ["#### t"; "false"]))
    ["run_spec.py"; "spec/t.test.sh"]
  = (["t.test.sh: 0/1 passed, 1 failed, 0 N-I, 0 errors, 0 timeouts";
      "  FAIL: t: status: expected 0, got 1"],
     Ok 1%Z)
  /\ exit_status (shell_returning EmptyString 1) Std.decode Std.repr
       Std.json_loads
       (one_file "spec/t.test.sh" (text_of ["#### t"; "false"]))
       ["run_spec.py"; "spec/t.test.sh"]
     = Some 0%Z.
Proof. split; vm_compute; reflexivity. Qed.

(** ** Where a case ends *)

Section Headers.

Variable json_loads : string -> option string.

Lemma count_headers_suffix rest ls :
  suffix rest ls -> count_headers rest <= count_headers ls.
Proof.
  intros [pre ->]. unfold count_headers.
  rewrite filter_app, length_app. lia.
Qed.

Lemma annot_loop_suffix fuel : forall s ls s' rest,
  annot_loop json_loads fuel s ls = Ok (s', rest) -> suffix rest ls.
Proof.
  induction fuel as [|fuel IH]; intros s ls s' rest H; [discriminate|].
  destruct ls as [|l ls]; simpl in H.
  - inversion H. apply suffix_refl.
  - destruct (Py.startswith (Py.rstrip_nl l) "#### ").
    { inversion H. apply suffix_refl. }
    assert (Hblock : forall s0 a r, read_block ls = (a, r) ->
              annot_loop json_loads fuel s0 (skip_end r) = Ok (s', rest) ->
              suffix rest (l :: ls)).
    { intros s0 a r Hr E. apply suffix_cons.
      eapply suffix_trans; [eapply IH; exact E|].
      eapply block_suffix; exact Hr. }
    destruct (Py.startswith (Py.rstrip_nl l) "## STDOUT:").
    { destruct (read_block ls) as [a r] eqn:Er. eapply Hblock; eauto. }
    destruct (Re.matches Pat.dash_block _).
    { destruct (read_block ls) as [a r] eqn:Er. eapply Hblock; eauto. }
    destruct (Re.matches Pat.ni_block _).
    { destruct (read_block ls) as [a r] eqn:Er. eapply Hblock; eauto. }
    destruct (other_block _).
    { destruct (read_block ls) as [a r] eqn:Er. eapply Hblock; eauto. }
    destruct (annot_inline json_loads _ s) as [s1| |]; try discriminate.
    cbn [bind] in H. apply suffix_cons. eapply IH; eauto.
Qed.

Lemma parse_case_suffix fuel line ls c rest :
  parse_case json_loads fuel line ls = Ok (c, rest) -> suffix rest ls.
Proof.
  unfold parse_case.
  destruct (span not_annotation ls) as [code_lines r1] eqn:E1.
  destruct (span not_annotation code_lines) as [real_code_lines x].
  destruct (annot_loop json_loads fuel _ r1) as [[s r2]| |] eqn:E;
    try discriminate.
  cbn [bind]. intros H. inversion H; subst.
  eapply suffix_trans; [eapply annot_loop_suffix; eauto|].
  eapply span_suffix; eauto.
Qed.

(** The parser makes no case without a header: there are at most as many
    cases as header lines. *)
Lemma cases_at_most_headers fuel : forall cases ls cases',
  cases_loop json_loads fuel cases ls = Ok cases' ->
  List.length cases' <= List.length cases + count_headers ls.
Proof.
  induction fuel as [|fuel IH]; intros cases ls cases' H; [discriminate|].
  destruct ls as [|line rest]; simpl in H.
  - inversion H. lia.
  - unfold count_headers. simpl. fold (is_header line).
    unfold is_header at 1.
    destruct (Py.startswith line "#### ").
    + destruct (parse_case json_loads fuel line rest) as [[c r]| |] eqn:E;
        try discriminate.
      cbn [bind] in H. apply IH in H.
      apply parse_case_suffix, count_headers_suffix in E.
      rewrite length_app in H. unfold count_headers in *. simpl in *. lia.
    + apply IH in H. unfold count_headers in H. lia.
Qed.

(** Every case of the list comes from one header line of the file and
    the lines after it. *)
Lemma cases_loop_origin fuel : forall cases ls cases',
  cases_loop json_loads fuel cases ls = Ok cases' ->
  exists new,
    cases' = (cases ++ new)%list
    /\ Forall
         (fun c => exists f line ls' rest,
            is_header line = true /\ suffix (line :: ls') ls
            /\ parse_case json_loads f line ls' = Ok (c, rest))
         new.
Proof.
  induction fuel as [|fuel IH]; intros cases ls cases' H; [discriminate|].
  destruct ls as [|line rest]; simpl in H.
  - inversion H. exists []. split; [now rewrite app_nil_r|constructor].
  - destruct (Py.startswith line "#### ") eqn:Eh.
    + destruct (parse_case json_loads fuel line rest) as [[c r]| |] eqn:E;
        try discriminate.
      cbn [bind] in H. apply IH in H. destruct H as (new & -> & Hnew).
      exists (c :: new). split; [now rewrite <- app_assoc|].
      constructor.
      * exists fuel, line, rest, r. repeat split; auto. apply suffix_refl.
      * eapply Forall_impl; [|exact Hnew].
        intros c' (f & line' & ls' & rest' & H1 & H2 & H3).
        exists f, line', ls', rest'. repeat split; auto.
        apply suffix_cons. eapply suffix_trans; [exact H2|].
        eapply parse_case_suffix; eauto.
    + apply IH in H. destruct H as (new & -> & Hnew).
      exists new. split; [reflexivity|].
      eapply Forall_impl; [|exact Hnew].
      intros c' (f & line' & ls' & rest' & H1 & H2 & H3).
      exists f, line', ls', rest'. repeat split; auto.
      now apply suffix_cons.
Qed.

End Headers.

(** C3: the parser at a failing input.  The file has two header lines and
    no annotation between them: the loop over the body of the first case
    (line 24) stops at a line that starts with "## " only, so it takes the
    second header as a line of the script.  One case comes out, and the
    summary counts one. *)
Theorem header_in_the_body_is_lost :
  count_headers (map Py.line ["#### first"; "echo 1"; "#### second"; "echo 2"]) = 2
  /\ parse_lines Std.json_loads
       (map Py.line ["#### first"; "echo 1"; "#### second"; "echo 2"])
     = Ok [Case "first" (text_of ["echo 1"; "#### second"; "echo 2"])
             None 0 false]
  /\ fst (main (shell_returning EmptyString 0) Std.decode Std.repr
            Std.json_loads
            (one_file "t.test.sh"
               (text_of ["#### first"; "echo 1"; "#### second"; "echo 2"]))
            ["run_spec.py"; "t.test.sh"])
     = ["t.test.sh: 1/1 passed, 0 failed, 0 N-I, 0 errors, 0 timeouts"].
Proof. repeat split; vm_compute; reflexivity. Qed.

(** C5: the parser at a failing input.  The block of the first case has
    no end marker: the loop over its lines (line 56) stops at "## END" or
    at an outcome tag only, so it takes the header of the second case and
    all its lines as expected output.  The second case is lost. *)
Theorem open_block_takes_next_case :
  parse_lines Std.json_loads
    (map Py.line ["#### a"; "echo a"; "## STDOUT:"; "a";
                  "#### b"; "echo b"; "## status: 1"])
  = Ok [Case "a" (Py.line "echo a")
          (Some (text_of ["a"; "#### b"; "echo b"; "## status: 1"]))
          0 false].
Proof. vm_compute. reflexivity. Qed.

(** C4: the parser at two failing inputs.  A STDOUT block without a
    dialect writes [expect_stdout] whether it is set or not (line 59 has
    no test like line 95): it replaces the value of an earlier [stdout:]
    annotation, and the value of an earlier block of the target dialect. *)
Theorem generic_block_overwrites :
  parse_lines Std.json_loads
    (map Py.line ["#### t"; "echo second"; "## stdout: first";
                  "## STDOUT:"; "second"; "## END"])
  = Ok [Case "t" (Py.line "echo second") (Some (Py.line "second")) 0 false]
  /\ parse_lines Std.json_loads
       (map Py.line ["#### t"; "echo x"; "## OK dash STDOUT:"; "for dash";
                     "## END"; "## STDOUT:"; "for all"; "## END"])
     = Ok [Case "t" (Py.line "echo x") (Some (Py.line "for all")) 0 false].
Proof. split; vm_compute; reflexivity. Qed.

(** C8: the parser at a failing input.  The first case has no annotation,
    and is given the status and the output that the second case expects:
    its body takes the second header (as in C3), and the annotations that
    follow are read as its own. *)
Theorem case_without_annotations_takes_the_next :
  parse_lines Std.json_loads
    (map Py.line ["#### a"; "echo a"; "#### b"; "echo x; exit 3";
                  "## status: 3"; "## stdout: x"])
  = Ok [Case "a" (text_of ["echo a"; "#### b"; "echo x; exit 3"])
          (Some (Py.line "x")) 3 false].
Proof. vm_compute. reflexivity. Qed.

(** ** The [code:] annotation *)

Section CodeAnnotation.

Variable json_loads : string -> option string.

Lemma on_status_of_code p ln s s' :
  on_status_of p ln s = Ok s' -> Var.code s' = Var.code s.
Proof.
  unfold on_status_of. destruct (Re.group p ln) as [g|].
  - destruct (int_of g) as [n| |]; cbn [bind]; intros H; inversion H.
    reflexivity.
  - intros H. now inversion H.
Qed.

Lemma on_dash_stdout_of_code p ln s :
  Var.code (on_dash_stdout_of p ln s) = Var.code s.
Proof. unfold on_dash_stdout_of. now destruct (Re.group p ln). Qed.

Lemma on_dash_stdout_json_of_code p ln s :
  Var.code (on_dash_stdout_json_of json_loads p ln s) = Var.code s.
Proof.
  unfold on_dash_stdout_json_of.
  destruct (Re.group p ln) as [g|]; [|reflexivity].
  now destruct (loads_quoted json_loads g).
Qed.

Lemma annot_inline_code ln s s' :
  annot_inline json_loads ln s = Ok s' ->
  Var.code s' = code_step (Var.code s) ln.
Proof.
  unfold annot_inline. intros H.
  destruct (on_status_of Pat.status ln _) as [s1| |] eqn:E1; try discriminate.
  cbn [bind] in H.
  destruct (on_bug json_loads ln s1) as [s2| |] eqn:E2; try discriminate.
  cbn [bind] in H.
  destruct (on_status_of Pat.ok_status ln _) as [s3| |] eqn:E3;
    try discriminate.
  cbn [bind] in H. inversion H; subst s'; clear H.
  apply on_status_of_code in E1, E3.
  assert (Var.code s2 = Var.code s1) as E2'.
  { unfold on_bug in E2. destruct (Re.matches Pat.bug ln).
    - apply on_status_of_code in E2. rewrite E2.
      now rewrite on_dash_stdout_json_of_code, on_dash_stdout_of_code.
    - now inversion E2. }
  assert (Var.code (on_ni_status ln s3) = Var.code s3) as E4.
  { unfold on_ni_status. now destruct (Re.group Pat.ni_status ln). }
  assert (Var.code (on_ok_stdout json_loads ln s2) = Var.code s2) as E5.
  { unfold on_ok_stdout. destruct (Re.matches Pat.ok_stdout_any ln); [|reflexivity].
    now rewrite on_dash_stdout_json_of_code, on_dash_stdout_of_code. }
  rewrite E4, E3, E5, E2', E1.
  unfold on_stdout_json, on_stdout, on_code, on_ni_marker, code_step.
  destruct s as [c0 e0 j0 st0 n0].
  destruct (Re.group Pat.stdout_json ln) as [g1|];
    destruct (Re.group Pat.stdout ln) as [g2|];
    destruct (Re.group Pat.code ln) as [g3|];
    destruct (Re.matches Pat.ni_marker ln);
    destruct e0 as [e|]; cbn;
    try destruct (loads_quoted json_loads g1); reflexivity.
Qed.

Lemma annot_loop_code fuel : forall s ls s' rest,
  annot_loop json_loads fuel s ls = Ok (s', rest) ->
  Var.code s' = fold_left code_step (inline_lines fuel ls) (Var.code s).
Proof.
  induction fuel as [|fuel IH]; intros s ls s' rest H; [discriminate|].
  destruct ls as [|l ls]; cbn [annot_loop inline_lines] in *.
  - now inversion H.
  - destruct (Py.startswith (Py.rstrip_nl l) "#### ").
    { now inversion H. }
    destruct (Py.startswith (Py.rstrip_nl l) "## STDOUT:").
    { destruct (read_block ls) as [a r]. apply IH in H. exact H. }
    destruct (Re.matches Pat.dash_block _).
    { destruct (read_block ls) as [a r]. apply IH in H. exact H. }
    destruct (Re.matches Pat.ni_block _).
    { destruct (read_block ls) as [a r]. apply IH in H. exact H. }
    destruct (other_block _).
    { destruct (read_block ls) as [a r]. apply IH in H. exact H. }
    destruct (annot_inline json_loads _ s) as [s1| |] eqn:E; try discriminate.
    cbn [bind] in H. apply IH in H. apply annot_inline_code in E.
    cbn [fold_left]. now rewrite <- E.
Qed.

(** With more fuel than lines, the fuel does not matter. *)
Lemma inline_lines_enough fuel : forall fuel' ls,
  List.length ls < fuel -> List.length ls < fuel' ->
  inline_lines fuel ls = inline_lines fuel' ls.
Proof.
  induction fuel as [|fuel IH]; intros fuel' ls H H'; [lia|].
  destruct fuel' as [|fuel']; [lia|].
  destruct ls as [|l rest]; cbn [inline_lines]; [reflexivity|].
  simpl in H, H'.
  assert (Hb : inline_lines fuel (skip_end (snd (read_block rest)))
               = inline_lines fuel' (skip_end (snd (read_block rest)))).
  { destruct (read_block rest) as [a r] eqn:Er. cbn [snd].
    pose proof (suffix_length _ _ (block_suffix _ _ _ Er)).
    apply IH; lia. }
  rewrite Hb, (IH fuel' rest) by lia. reflexivity.
Qed.

(** When the loop returns, it has not run out of fuel: more fuel gives the
    same lines. *)
Lemma inline_lines_more fuel : forall fuel' s ls s' rest,
  annot_loop json_loads fuel s ls = Ok (s', rest) -> fuel <= fuel' ->
  inline_lines fuel ls = inline_lines fuel' ls.
Proof.
  induction fuel as [|fuel IH]; intros fuel' s ls s' rest H Hle;
    [discriminate|].
  destruct fuel' as [|fuel']; [lia|].
  destruct ls as [|l ls]; cbn [annot_loop inline_lines] in *; [reflexivity|].
  destruct (Py.startswith (Py.rstrip_nl l) "#### "); [reflexivity|].
  destruct (Py.startswith (Py.rstrip_nl l) "## STDOUT:").
  { destruct (read_block ls) as [a r]. eapply IH; [exact H|lia]. }
  destruct (Re.matches Pat.dash_block _).
  { destruct (read_block ls) as [a r]. eapply IH; [exact H|lia]. }
  destruct (Re.matches Pat.ni_block _).
  { destruct (read_block ls) as [a r]. eapply IH; [exact H|lia]. }
  destruct (other_block _).
  { destruct (read_block ls) as [a r]. eapply IH; [exact H|lia]. }
  destruct (annot_inline json_loads _ s) as [s1| |]; try discriminate.
  cbn [bind] in H. f_equal. eapply IH; [exact H|lia].
Qed.

Lemma inline_lines_any fuel s ls s' rest :
  annot_loop json_loads fuel s ls = Ok (s', rest) ->
  inline_lines fuel ls = inline_lines (S (List.length ls)) ls.
Proof.
  intros H. destruct (Nat.le_gt_cases fuel (S (List.length ls))) as [Hle|Hgt].
  - eapply inline_lines_more; eauto.
  - apply inline_lines_enough; lia.
Qed.
Lemma fold_code_step lns : forall code found body,
  code = match found with Some g => g ++ Py.nl | None => body end ->
  fold_left code_step lns code
  = match fold_left
            (fun found ln =>
               match Re.group Pat.code ln with
               | Some g => Some g
               | None => found
               end) lns found with
    | Some g => g ++ Py.nl
    | None => body
    end.
Proof.
  induction lns as [|ln lns IH]; intros code found body H; cbn [fold_left].
  - exact H.
  - apply IH. unfold code_step. now destruct (Re.group Pat.code ln).
Qed.

End CodeAnnotation.

(** A line made of "## code: " and a text without a newline is a [code:]
    annotation, and the text is its argument. *)
Lemma star_dot_all g : forall n prev grp k (Q : Re.mstate -> Prop),
  Py.has_char Py.nl_char g = false ->
  String.length g <= n ->
  (forall pv, exists res, k (Re.MState pv EmptyString grp) = Some res /\ Q res) ->
  exists res,
    Re.star_iter n (Re.rx Re.dot) (Re.MState prev g grp) k = Some res /\ Q res.
Proof.
  unfold Re.dot.
  induction g as [|c g IH]; intros n prev grp k Q Hnl Hlen Hk.
  - destruct n; cbn; apply Hk.
  - destruct n as [|n]; [simpl in Hlen; lia|].
    cbn [Py.has_char] in Hnl. apply orb_false_iff in Hnl.
    destruct Hnl as [Hc Hg].
    set (body := Re.rx (Re.Cls _)) in *.
    cbn [Re.star_iter]. unfold body at 1.
    cbn [Re.rx Re.m_rest Re.m_group].
    rewrite Ascii.eqb_sym, Hc. cbn [negb].
    assert ((String.length g <? String.length (String c g))%nat = true) as ->
      by (apply Nat.ltb_lt; simpl; lia).
    destruct (IH n (Some c) grp k Q Hg) as (res & E & HQ);
      [simpl in Hlen; lia|exact Hk|].
    rewrite E. eauto.
Qed.

Lemma append_nil_r (s : string) : s ++ EmptyString = s.
Proof. induction s; simpl; congruence. Qed.

Lemma code_annotation_text g :
  Py.has_char Py.nl_char g = false ->
  Re.group Pat.code ("## code: " ++ g) = Some g.
Proof.
  intros Hnl. unfold Re.group, Re.re_match, Pat.code.
  cbn [Re.seq Re.rx Re.m_prev Re.m_rest Re.m_group Re.match_lit append
       Ascii.eqb Bool.eqb].
  match goal with
  | |- match Re.star_iter _ _ _ ?k with _ => _ end = _ =>
      destruct (star_dot_all g (String.length g) (Some " "%char) None k
                  (fun res => Re.m_group res = Some g) Hnl (le_n _))
        as (res & E & HQ)
  end.
  - intros pv. cbn. eexists. split; [reflexivity|]. cbn.
    f_equal. rewrite <- (append_nil_r g) at 1. apply consumed_app.
  - rewrite E. exact HQ.
Qed.

Lemma all_dot_no_newline ds :
  Py.all_chars (fun c => negb (Ascii.eqb c Py.nl_char)) ds = true ->
  Py.has_char Py.nl_char ds = false.
Proof.
  induction ds as [|c ds IH]; cbn [Py.all_chars Py.has_char]; [reflexivity|].
  rewrite andb_true_iff, negb_true_iff. intros [Hc Hd].
  now rewrite Ascii.eqb_sym, Hc, IH.
Qed.

(** The argument of a [code:] annotation has no newline. *)
Lemma code_group_no_newline ln g :
  Re.group Pat.code ln = Some g -> Py.has_char Py.nl_char g = false.
Proof.
  unfold Re.group, Re.re_match.
  destruct (Re.rx Pat.code _ Some) as [res|] eqn:E; [|discriminate].
  intros Hg. unfold Pat.code in E. cbn [Re.seq] in E.
  apply seq_cont in E. destruct E as [st E].
  unfold Re.dot in E. cbn [Re.rx] in E.
  apply star_iter_cls in E. destruct E as (ds & st' & E1 & E2 & _ & E4).
  cbn [Re.m_rest Re.m_prev] in E4.
  destruct (Re.at_eol _); [|discriminate].
  inversion E4; subst res; clear E4. cbn [Re.m_group] in Hg.
  rewrite E1, consumed_app in Hg. inversion Hg; subst g.
  now apply all_dot_no_newline.
Qed.

Lemma last_code_argument_in lns : forall found g,
  fold_left
    (fun found ln =>
       match Re.group Pat.code ln with
       | Some g => Some g
       | None => found
       end) lns found = Some g ->
  found = Some g \/ exists ln, In ln lns /\ Re.group Pat.code ln = Some g.
Proof.
  induction lns as [|ln lns IH]; intros found g H; cbn [fold_left] in H.
  - now left.
  - apply IH in H. destruct H as [H|(ln' & Hin & Hg)].
    + destruct (Re.group Pat.code ln) as [g'|] eqn:E.
      * right. exists ln. split; [now left|congruence].
      * now left.
    + right. exists ln'. split; [now right|exact Hg].
Qed.

(** C10.  When the annotations of a case hold a [code:] annotation, the
    [code] of the case is the argument of that annotation (of the last
    one, when there are several) followed by one newline, wherever the
    annotation stands among the others and whatever the body of the case
    was.  The argument has no newline of its own, and the text, which
    ends in a newline, is the script that [run_case] writes and runs. *)
Theorem code_annotation_replaces_body
    (json_loads : string -> option string) (shell : string -> run_result)
    (decode repr : string -> string)
    (fuel : nat) (line : string) (ls : list string)
    (c : case) (rest : list string) (g : string) :
  parse_case json_loads fuel line ls = Ok (c, rest) ->
  last_code_argument (annotations ls) = Some g ->
  code c = g ++ Py.nl
  /\ Py.has_char Py.nl_char g = false
  /\ snd (run_case shell decode repr c)
     = [WriteScript (g ++ Py.nl); RunShell (g ++ Py.nl); Unlink].
Proof.
  intros Hp Hg.
  assert (Hnl : Py.has_char Py.nl_char g = false).
  { apply last_code_argument_in in Hg.
    destruct Hg as [Hg|(ln & _ & Hg)]; [discriminate|].
    eapply code_group_no_newline; eauto. }
  assert (Hc : code c = g ++ Py.nl).
  { unfold parse_case in Hp. unfold annotations in Hg.
    destruct (span not_annotation ls) as [code_lines r1].
    destruct (span not_annotation code_lines) as [real_code_lines x].
    destruct (annot_loop json_loads fuel _ r1) as [[s r2]| |] eqn:E;
      try discriminate.
    cbn [bind] in Hp. inversion Hp; subst c rest; clear Hp.
    pose proof (inline_lines_any json_loads _ _ _ _ _ E) as Hf.
    apply annot_loop_code in E. cbn [make_case code snd] in *.
    rewrite E, Hf.
    rewrite (fold_code_step (inline_lines (S (List.length r1)) r1) _ None
               (Var.code (Var.init (Py.concat real_code_lines))) eq_refl).
    unfold last_code_argument in Hg. now rewrite Hg. }
  split; [exact Hc|]. split; [exact Hnl|].
  unfold run_case. rewrite Hc. now destruct (shell _) as [o st| |e];
    [destruct (n_i_dash c); [|destruct (compare _ _ _ _)]| |].
Qed.

Lemma code_annotation_replaces_body_witness :
  code (Case "t" (Py.line "echo x") (Some (Py.line "x")) 0 false)
  = "echo x" ++ Py.nl
  /\ Py.has_char Py.nl_char "echo x" = false
  /\ snd (run_case (shell_returning "x" 0) Std.decode Std.repr
            (Case "t" (Py.line "echo x") (Some (Py.line "x")) 0 false))
     = [WriteScript ("echo x" ++ Py.nl); RunShell ("echo x" ++ Py.nl); Unlink].
Proof.
  apply (code_annotation_replaces_body Std.json_loads
           (shell_returning "x" 0) Std.decode Std.repr
           9 (Py.line "#### t")
           (map Py.line ["echo body"; "## stdout: x"; "## code: echo x";
                         "## status: 0"])
           (Case "t" (Py.line "echo x") (Some (Py.line "x")) 0 false)
           [] "echo x").
  - vm_compute. reflexivity.
  - vm_compute. reflexivity.
Defined.

(** ** The [stdout-json:] annotation *)

Section StdoutJson.

Variable json_loads : string -> option string.




End StdoutJson.


(** ** Defaults, and the status annotations *)

Section Defaults.

Variable json_loads : string -> option string.

Lemma span_all {A} (p : A -> bool) (l : list A) :
  Forall (fun x => p x = true) l -> span p l = (l, []).
Proof.
  induction 1 as [|x l Hx _ IH]; simpl; [reflexivity|].
  now rewrite Hx, IH.
Qed.

(** A header followed, up to the end of the file, by lines that do not
    start with "## ": the case has these lines as its code, no expected
    output, and the expected status 0. *)
Lemma case_without_annotations fuel line ls :
  Forall (fun l => not_annotation l = true) ls ->
  parse_case json_loads (S fuel) line ls
  = Ok (Case (Py.strip (Py.drop 5 line)) (Py.concat ls) None 0 false, []).
Proof.
  intros H. unfold parse_case.
  rewrite (span_all not_annotation ls H), (span_all not_annotation ls H).
  reflexivity.
Qed.

(** A status annotation writes [expect_status], whatever it was. *)
Lemma status_annotation_overwrites p ln s g n :
  Re.group p ln = Some g -> Py.int g = Some n ->
  on_status_of p ln s = Ok (Var.set_expect_status n s).
Proof.
  intros Hg Hn. unfold on_status_of, int_of. now rewrite Hg, Hn.
Qed.

End Defaults.

(* ================================================================= *)
(** * Further properties *)

(** ** The counters and the report of [main] *)

Section Counters.

Variable shell : string -> run_result.
Variable decode : string -> string.
Variable repr : string -> string.

Lemma number_of_cons o c cases :
  number_of shell decode repr o (c :: cases)
  = ((if outcome_eqb (outcome_of shell decode repr c) o then 1 else 0)
     + number_of shell decode repr o cases)%Z.
Proof.
  unfold number_of, with_outcome. cbn [filter].
  destruct (outcome_eqb _ o); cbn [List.length]; lia.
Qed.

Lemma fold_count_counters cases : forall t,
  let t' := fold_left (count shell decode repr) cases t in
  (passed t' = passed t + number_of shell decode repr PASS cases
   /\ failed t' = failed t + number_of shell decode repr FAIL cases
   /\ ni t' = ni t + number_of shell decode repr NI cases
   /\ errors t' = errors t + number_of shell decode repr ERROR cases
   /\ timeouts t' = timeouts t + number_of shell decode repr TIMEOUT cases)%Z.
Proof.
  induction cases as [|c cases IH]; intros t; cbn zeta.
  - unfold number_of. cbn. lia.
  - cbn [fold_left]. specialize (IH (count shell decode repr t c)).
    cbn zeta in IH. rewrite !number_of_cons.
    destruct IH as (H1 & H2 & H3 & H4 & H5).
    rewrite H1, H2, H3, H4, H5. clear H1 H2 H3 H4 H5.
    unfold count, outcome_of.
    destruct (fst (run_case shell decode repr c)) as [o m].
    destruct o; cbn [passed failed ni errors timeouts outcome_eqb fst]; lia.
Qed.

Lemma fold_count_failures cases : forall t,
  failures (fold_left (count shell decode repr) cases t)
  = (failures t
     ++ map (report_of shell decode repr)
          (filter (fun c => reported (outcome_of shell decode repr c)) cases))%list.
Proof.
  induction cases as [|c cases IH]; intros t; cbn [fold_left filter map].
  - now rewrite app_nil_r.
  - rewrite IH. unfold count, outcome_of, report_of.
    destruct (fst (run_case shell decode repr c)) as [o m] eqn:E.
    destruct o; cbn [reported fst snd failures map];
      rewrite ?E; cbn [fst snd]; rewrite <- ?app_assoc; reflexivity.
Qed.

Lemma outcome_partition cases :
  (number_of shell decode repr PASS cases
   + number_of shell decode repr FAIL cases
   + number_of shell decode repr NI cases
   + number_of shell decode repr ERROR cases
   + number_of shell decode repr TIMEOUT cases
   = Z.of_nat (List.length cases))%Z.
Proof.
  induction cases as [|c cases IH]; [reflexivity|].
  rewrite !number_of_cons. cbn [List.length].
  destruct (outcome_of shell decode repr c); cbn [outcome_eqb]; lia.
Qed.

End Counters.

(** X1.  Each counter of [main] is the number of cases with its outcome,
    every case is counted once, and the total of the summary is the number
    of cases that the parser returned. *)
Theorem tally_counts_each_case_once (shell : string -> run_result)
    (decode repr : string -> string) (cases : list case) :
  let t := tally_of shell decode repr cases in
  passed t = number_of shell decode repr PASS cases
  /\ failed t = number_of shell decode repr FAIL cases
  /\ ni t = number_of shell decode repr NI cases
  /\ errors t = number_of shell decode repr ERROR cases
  /\ timeouts t = number_of shell decode repr TIMEOUT cases
  /\ total t = Z.of_nat (List.length cases).
Proof.
  cbn zeta. unfold tally_of, total.
  pose proof (fold_count_counters shell decode repr cases (Tally 0 0 0 0 0 []))
    as H.
  cbn zeta in H. cbn [passed failed ni errors timeouts] in H.
  destruct H as (H1 & H2 & H3 & H4 & H5).
  rewrite H1, H2, H3, H4, H5.
  pose proof (outcome_partition shell decode repr cases).
  repeat split; lia.
Qed.

(** X2.  The list [failures] of [main] holds, in the order of the cases,
    the name and the message of every case whose outcome is TIMEOUT, ERROR
    or FAIL, and of no other case. *)
Theorem failures_are_the_reported_cases (shell : string -> run_result)
    (decode repr : string -> string) (cases : list case) :
  failures (tally_of shell decode repr cases)
  = map (report_of shell decode repr)
      (filter (fun c => reported (outcome_of shell decode repr c)) cases).
Proof.
  unfold tally_of. now rewrite fold_count_failures.
Qed.

(** X3.  When the file is parsed, [main] prints the summary and then one
    line per reported case, each once: "--only-failures", given or not,
    changes nothing of what is printed. *)
Theorem only_failures_changes_nothing (shell : string -> run_result)
    (decode repr : string -> string) (json_loads : string -> option string)
    (fs : string -> read_result)
    (prog spec_file : string) (more : list string) (cases : list case) :
  parse_spec_file json_loads fs spec_file = Ok cases ->
  fst (main shell decode repr json_loads fs (prog :: spec_file :: more))
  = summary spec_file (tally_of shell decode repr cases)
    :: map failure_line (failures (tally_of shell decode repr cases)).
Proof.
  intros H. unfold main. rewrite H. cbn [fst].
  destruct (existsb _ _); destruct (failures _); reflexivity.
Qed.

Lemma only_failures_changes_nothing_witness :
  fst (main (shell_returning EmptyString 1) Std.decode Std.repr Std.json_loads
         (one_file "t.test.sh" (text_of ["#### t"; "false"]))
         ["run_spec.py"; "t.test.sh"; "--only-failures"])
  = ["t.test.sh: 0/1 passed, 1 failed, 0 N-I, 0 errors, 0 timeouts";
     "  FAIL: t: status: expected 0, got 1"].
Proof.
  exact (only_failures_changes_nothing (shell_returning EmptyString 1)
           Std.decode Std.repr Std.json_loads
           (one_file "t.test.sh" (text_of ["#### t"; "false"]))
           "run_spec.py" "t.test.sh" ["--only-failures"]
           [Case "t" (Py.line "false") None 0 false] eq_refl).
Defined.

(** X4.  When the file is parsed, [main] returns 0 or 1, and 0 exactly
    when the outcome of every case is PASS or N-I. *)
Theorem main_returns_zero_iff_accepted (shell : string -> run_result)
    (decode repr : string -> string) (json_loads : string -> option string)
    (fs : string -> read_result)
    (prog spec_file : string) (more : list string) (cases : list case) :
  parse_spec_file json_loads fs spec_file = Ok cases ->
  exists v,
    snd (main shell decode repr json_loads fs (prog :: spec_file :: more)) = Ok v
    /\ (v = 0 \/ v = 1)%Z
    /\ (v = 0%Z
        <-> Forall (fun c => accepted (outcome_of shell decode repr c)) cases).
Proof.
  intros H. unfold main. rewrite H. cbn [snd].
  eexists. split; [reflexivity|]. split.
  - unfold return_value. destruct (_ && _); auto.
  - apply return_value_accepted.
Qed.

Lemma main_returns_zero_iff_accepted_witness :
  exists v,
    snd (main (shell_returning EmptyString 1) Std.decode Std.repr
           Std.json_loads
           (one_file "t.test.sh" (text_of ["#### t"; "false"]))
           ["run_spec.py"; "t.test.sh"]) = Ok v
    /\ (v = 0 \/ v = 1)%Z
    /\ (v = 0%Z
        <-> Forall (fun c => accepted (outcome_of (shell_returning EmptyString 1)
                                         Std.decode Std.repr c))
              [Case "t" (Py.line "false") None 0 false]).
Proof.
  exact (main_returns_zero_iff_accepted (shell_returning EmptyString 1)
           Std.decode Std.repr Std.json_loads
           (one_file "t.test.sh" (text_of ["#### t"; "false"]))
           "run_spec.py" "t.test.sh" []
           [Case "t" (Py.line "false") None 0 false] eq_refl).
Defined.

(** ** The outcomes of [run_case] *)

(** X5.  The outcome is PASS for no other reason than this: the case is
    not marked not-implemented, the run of its script returned in time,
    with the expected exit status and, when an output is expected, with
    that output. *)
Theorem pass_is_earned (shell : string -> run_result)
    (decode repr : string -> string) (c : case) :
  fst (fst (run_case shell decode repr c)) = PASS
  <-> n_i_dash c = false
      /\ exists out status,
           shell (code c) = Completed out status
           /\ status = expect_status c
           /\ (forall e, expect_stdout c = Some e -> decode out = e).
Proof.
  unfold run_case.
  destruct (shell (code c)) as [out status| |e] eqn:Es; cbn [fst].
  - destruct (n_i_dash c) eqn:En; cbn [fst].
    + split; [discriminate|]. intros [H _]. discriminate.
    + rewrite compare_mismatches.
      pose proof (mismatches_nil repr c (decode out) status) as Hnil.
      pose proof (mismatches_cons repr c (decode out) status) as Hcons.
      destruct (mismatches repr c (decode out) status) as [|m ms]; cbn [fst].
      * split; [intros _|reflexivity]. split; [reflexivity|].
        exists out, status. split; [reflexivity|].
        assert (Hn : ~ (stdout_mismatch c (decode out)
                        \/ status <> expect_status c))
          by (apply Hnil; reflexivity).
        split.
        -- destruct (Z.eq_dec status (expect_status c)); tauto.
        -- intros e He. destruct (string_dec (decode out) e) as [|Hd];
             [assumption|].
           exfalso. apply Hn. left. exists e. auto.
      * split; [discriminate|].
        intros (_ & out' & status' & E & Hst & Hout). exfalso.
        assert (out' = out /\ status = expect_status c) as [-> Hs]
          by (split; congruence).
        destruct (Hcons ltac:(discriminate)) as [(e & He & Hd)|Hd];
          [apply Hd, Hout, He|contradiction].
  - split; [discriminate|]. intros (_ & out & status & E & _). discriminate.
  - split; [discriminate|]. intros (_ & out & status & E & _). discriminate.
Qed.

(** X6.  The three outcomes that are no result of a comparison: TIMEOUT
    exactly when the run timed out; ERROR exactly when starting it failed,
    with the text of the exception as message; N-I exactly when the run
    returned and the case is marked not-implemented.  The expectations of
    the case play no part in them. *)
Theorem special_outcomes (shell : string -> run_result)
    (decode repr : string -> string) (c : case) :
  let result := fst (run_case shell decode repr c) in
  (fst result = TIMEOUT <-> shell (code c) = TimeoutExpired)
  /\ (fst result = ERROR <-> exists e, shell (code c) = Failed e)
  /\ (forall e, shell (code c) = Failed e -> snd result = e)
  /\ (fst result = NI
      <-> n_i_dash c = true
          /\ exists out status, shell (code c) = Completed out status).
Proof.
  cbn zeta. unfold run_case.
  destruct (shell (code c)) as [out status| |e] eqn:Es; cbn [fst snd].
  - destruct (n_i_dash c) eqn:En; cbn [fst snd].
    + repeat split; try discriminate; eauto.
      intros [e E]. discriminate.
    + destruct (compare repr c (decode out) status); cbn [fst snd];
        repeat split; try discriminate;
        try (intros [e E]; discriminate); try (intros [E _]; discriminate).
  - repeat split; try discriminate.
    + intros [e E]. discriminate.
    + intros (_ & out & status & E). discriminate.
  - repeat split; try discriminate; eauto.
    + intros e' E. now inversion E.
    + intros (_ & out & status & E). discriminate.
Qed.

(** ** What the parser can raise *)

Section Raising.

Variable json_loads : string -> option string.

Lemma on_status_of_result p ln s :
  (exists s', on_status_of p ln s = Ok s')
  \/ on_status_of p ln s = Raise ValueError.
Proof.
  unfold on_status_of, int_of.
  destruct (Re.group p ln) as [g|]; [|eauto].
  destruct (Py.int g); cbn [bind]; eauto.
Qed.

Lemma annot_inline_result ln s :
  (exists s', annot_inline json_loads ln s = Ok s')
  \/ annot_inline json_loads ln s = Raise ValueError.
Proof.
  unfold annot_inline.
  destruct (on_status_of_result Pat.status ln
              (on_stdout_json json_loads ln
                 (on_stdout ln (on_code ln (on_ni_marker ln s)))))
    as [[s1 E1]|E1]; rewrite E1; cbn [bind]; [|now right].
  assert ((exists s2, on_bug json_loads ln s1 = Ok s2)
          \/ on_bug json_loads ln s1 = Raise ValueError) as [[s2 E2]|E2].
  { unfold on_bug. destruct (Re.matches Pat.bug ln); [|eauto].
    apply on_status_of_result. }
  - rewrite E2; cbn [bind].
    destruct (on_status_of_result Pat.ok_status ln
                (on_ok_stdout json_loads ln s2))
      as [[s3 E3]|E3]; rewrite E3; cbn [bind]; eauto.
  - rewrite E2; cbn [bind]. now right.
Qed.

Lemma annot_loop_result fuel : forall s ls,
  List.length ls < fuel ->
  (exists s' rest, annot_loop json_loads fuel s ls = Ok (s', rest))
  \/ annot_loop json_loads fuel s ls = Raise ValueError.
Proof.
  induction fuel as [|fuel IH]; intros s ls Hf; [lia|].
  destruct ls as [|l rest]; cbn [annot_loop]; [eauto|].
  destruct (Py.startswith (Py.rstrip_nl l) "#### "); [eauto|].
  cbn [List.length] in Hf.
  assert (Hblock : forall s0,
            (exists s' rest',
               annot_loop json_loads fuel s0 (skip_end (snd (read_block rest)))
               = Ok (s', rest'))
            \/ annot_loop json_loads fuel s0 (skip_end (snd (read_block rest)))
               = Raise ValueError).
  { intros s0. apply IH. destruct (read_block rest) as [a r] eqn:Er.
    pose proof (suffix_length _ _ (block_suffix _ _ _ Er)). cbn [snd]. lia. }
  destruct (Py.startswith (Py.rstrip_nl l) "## STDOUT:").
  { destruct (read_block rest) as [a r]. apply Hblock. }
  destruct (Re.matches Pat.dash_block _).
  { destruct (read_block rest) as [a r]. apply Hblock. }
  destruct (Re.matches Pat.ni_block _).
  { destruct (read_block rest) as [a r]. apply Hblock. }
  destruct (other_block _).
  { destruct (read_block rest) as [a r]. apply Hblock. }
  destruct (annot_inline_result (Py.rstrip_nl l) s) as [[s1 E1]|E1];
    rewrite E1; cbn [bind]; [|now right].
  apply IH. lia.
Qed.

Lemma cases_loop_result fuel : forall cases ls,
  List.length ls < fuel ->
  (exists cases', cases_loop json_loads fuel cases ls = Ok cases')
  \/ cases_loop json_loads fuel cases ls = Raise ValueError.
Proof.
  induction fuel as [|fuel IH]; intros cases ls Hf; [lia|].
  destruct ls as [|line rest]; cbn [cases_loop]; [eauto|].
  cbn [List.length] in Hf.
  destruct (Py.startswith line "#### "); [|apply IH; lia].
  destruct (parse_case json_loads fuel line rest) as [[c r]|e|] eqn:E;
    cbn [bind].
  - apply IH. apply parse_case_suffix, suffix_length in E. lia.
  - right. unfold parse_case in E.
    destruct (span not_annotation rest) as [code_lines r1] eqn:E1.
    destruct (span not_annotation code_lines) as [real_code_lines x].
    apply (span_suffix not_annotation), suffix_length in E1.
    destruct (annot_loop_result fuel
                (Var.init (Py.concat real_code_lines)) r1)
      as [(s' & r2 & E2)|E2]; [lia| |]; rewrite E2 in E; cbn [bind] in E;
      congruence.
  - exfalso. unfold parse_case in E.
    destruct (span not_annotation rest) as [code_lines r1] eqn:E1.
    destruct (span not_annotation code_lines) as [real_code_lines x].
    apply (span_suffix not_annotation), suffix_length in E1.
    destruct (annot_loop_result fuel
                (Var.init (Py.concat real_code_lines)) r1)
      as [(s' & r2 & E2)|E2]; [lia| |]; rewrite E2 in E; cbn [bind] in E;
      discriminate.
Qed.

Lemma parse_lines_result lines :
  (exists cases, parse_lines json_loads lines = Ok cases)
  \/ (parse_lines json_loads lines = Raise ValueError
      /\ Exists (fun l => status_ok (Py.rstrip_nl l) = false) lines).
Proof.
  destruct (cases_loop_result (S (List.length lines)) [] lines) as [H|H];
    [lia|now left|].
  right. split; [exact H|].
  destruct (Forall_Exists_dec (fun l => status_ok (Py.rstrip_nl l) = true)
              (fun l => bool_dec (status_ok (Py.rstrip_nl l)) true) lines)
    as [Hall|Hex].
  - exfalso. destruct (cases_loop_ok json_loads (S (List.length lines)) [] lines)
      as [cases E]; [lia|exact Hall|].
    unfold parse_lines in H. congruence.
  - eapply Exists_impl; [|exact Hex]. cbn beta. intros l Hl.
    now destruct (status_ok (Py.rstrip_nl l)).
Qed.

End Raising.

(** X7.  Once the file is read, [parse_spec_file] ends, and in one of two
    ways only: it returns a list of cases, or it raises [ValueError], and
    then some line of the file is a status annotation of more digits than
    [int] reads.  The fuel of the loops is never used up. *)
Theorem parse_spec_file_ends (json_loads : string -> option string)
    (fs : string -> read_result) (path text : string) :
  fs path = Text text ->
  (exists cases, parse_spec_file json_loads fs path = Ok cases)
  \/ (parse_spec_file json_loads fs path = Raise ValueError
      /\ Exists (fun l => status_ok (Py.rstrip_nl l) = false)
           (Py.readlines text)).
Proof.
  intros E. unfold parse_spec_file. rewrite E. apply parse_lines_result.
Qed.

Lemma parse_spec_file_ends_witness :
  (exists cases,
     parse_spec_file Std.json_loads
       (one_file "t.test.sh" (text_of ["#### t"; "exit 3"; "## status: 3"]))
       "t.test.sh" = Ok cases)
  \/ (parse_spec_file Std.json_loads
        (one_file "t.test.sh" (text_of ["#### t"; "exit 3"; "## status: 3"]))
        "t.test.sh" = Raise ValueError
      /\ Exists (fun l => status_ok (Py.rstrip_nl l) = false)
           (Py.readlines (text_of ["#### t"; "exit 3"; "## status: 3"]))).
Proof.
  apply (parse_spec_file_ends Std.json_loads
           (one_file "t.test.sh" (text_of ["#### t"; "exit 3"; "## status: 3"]))
           "t.test.sh" (text_of ["#### t"; "exit 3"; "## status: 3"])).
  reflexivity.
Defined.

(** X8.  [main] leaves through [sys.exit(1)] exactly when it is given
    fewer than two arguments; it has then printed the usage line and
    nothing else, and the exit status is 1. *)
Theorem usage_iff_no_file_argument (shell : string -> run_result)
    (decode repr : string -> string) (json_loads : string -> option string)
    (fs : string -> read_result) (argv : list string) :
  (snd (main shell decode repr json_loads fs argv) = Raise (SystemExit 1)
   <-> List.length argv < 2)
  /\ (List.length argv < 2 ->
      fst (main shell decode repr json_loads fs argv)
      = ["Usage: run_spec.py <spec-file> [--only-failures]"]
      /\ exit_status shell decode repr json_loads fs argv = Some 1%Z).
Proof.
  unfold exit_status, main.
  destruct argv as [|prog [|spec_file more]]; cbn [List.length fst snd].
  - split; [split; [lia|reflexivity]|auto].
  - split; [split; [lia|reflexivity]|auto].
  - split; [|lia]. split; [|lia].
    unfold parse_spec_file. destruct (fs spec_file) as [text| |].
    + destruct (parse_lines_result json_loads (Py.readlines text))
        as [[cases E]|[E _]]; rewrite E; cbn [snd]; discriminate.
    + cbn [snd]. discriminate.
    + cbn [snd]. discriminate.
Qed.

(** ** Files in the format *)

Section WellFormed.

Local Open Scope list_scope.

Variable json_loads : string -> option string.

Lemma span_app_stop {A} (p : A -> bool) (a : list A) (x : A) (t : list A) :
  Forall (fun y => p y = true) a -> p x = false ->
  span p (a ++ x :: t) = (a, x :: t).
Proof.
  induction 1 as [|y a Hy _ IH]; intros Hx; cbn [span app].
  - now rewrite Hx.
  - now rewrite Hy, IH.
Qed.

(** Removing characters at the end keeps a prefix that has none of
    them. *)
Lemma rstrip_keeps_prefix (q : ascii -> bool) (p : string) : forall s,
  Py.all_chars (fun c => negb (q c)) p = true ->
  String.prefix p s = true -> String.prefix p (Py.rstrip_by q s) = true.
Proof.
  induction p as [|a p IH]; intros s Hp Hs; [now destruct (Py.rstrip_by q s)|].
  destruct s as [|b s]; [discriminate|].
  cbn [Py.all_chars] in Hp. apply andb_true_iff in Hp. destruct Hp as [Ha Hp].
  cbn [String.prefix] in Hs. destruct (ascii_dec a b) as [<-|]; [|discriminate].
  specialize (IH s Hp Hs). cbn [Py.rstrip_by].
  destruct (Py.rstrip_by q s) as [|c t].
  - apply negb_true_iff in Ha. rewrite Ha. cbn [String.prefix].
    destruct (ascii_dec a a); [exact IH|congruence].
  - cbn [String.prefix]. destruct (ascii_dec a a); [exact IH|congruence].
Qed.

Lemma header_seen l : is_header l = true -> seen_as_header l = true.
Proof.
  unfold is_header, seen_as_header, Py.startswith, Py.rstrip_nl.
  apply rstrip_keeps_prefix. reflexivity.
Qed.

(** With more fuel than lines, the fuel does not matter. *)
Lemma annot_loop_enough fuel : forall fuel' s ls,
  List.length ls < fuel -> List.length ls < fuel' ->
  annot_loop json_loads fuel s ls = annot_loop json_loads fuel' s ls.
Proof.
  induction fuel as [|fuel IH]; intros fuel' s ls H H'; [lia|].
  destruct fuel' as [|fuel']; [lia|].
  destruct ls as [|l rest]; cbn [annot_loop]; [reflexivity|].
  cbn [List.length] in H, H'.
  assert (Hb : forall s0,
            annot_loop json_loads fuel s0 (skip_end (snd (read_block rest)))
            = annot_loop json_loads fuel' s0 (skip_end (snd (read_block rest)))).
  { intros s0. destruct (read_block rest) as [a r] eqn:Er. cbn [snd].
    pose proof (suffix_length _ _ (block_suffix _ _ _ Er)).
    apply IH; lia. }
  destruct (Py.startswith (Py.rstrip_nl l) "#### "); [reflexivity|].
  destruct (Py.startswith (Py.rstrip_nl l) "## STDOUT:").
  { destruct (read_block rest) as [a r]. apply Hb. }
  destruct (Re.matches Pat.dash_block _).
  { destruct (read_block rest) as [a r]. apply Hb. }
  destruct (Re.matches Pat.ni_block _).
  { destruct (read_block rest) as [a r]. apply Hb. }
  destruct (other_block _).
  { destruct (read_block rest) as [a r]. apply Hb. }
  destruct (annot_inline json_loads _ s); cbn [bind]; try reflexivity.
  apply IH; lia.
Qed.

Lemma parse_case_enough fuel fuel' line ls :
  List.length ls < fuel -> List.length ls < fuel' ->
  parse_case json_loads fuel line ls = parse_case json_loads fuel' line ls.
Proof.
  intros H H'. unfold parse_case.
  destruct (span not_annotation ls) as [code_lines r1] eqn:E1.
  destruct (span not_annotation code_lines) as [real_code_lines x].
  apply (span_suffix not_annotation), suffix_length in E1.
  rewrite (annot_loop_enough fuel fuel') by lia. reflexivity.
Qed.

Lemma cases_loop_enough fuel : forall fuel' cases ls,
  List.length ls < fuel -> List.length ls < fuel' ->
  cases_loop json_loads fuel cases ls = cases_loop json_loads fuel' cases ls.
Proof.
  induction fuel as [|fuel IH]; intros fuel' cases ls H H'; [lia|].
  destruct fuel' as [|fuel']; [lia|].
  destruct ls as [|line rest]; cbn [cases_loop]; [reflexivity|].
  cbn [List.length] in H, H'.
  destruct (Py.startswith line "#### "); [|apply IH; lia].
  rewrite (parse_case_enough fuel fuel') by lia.
  destruct (parse_case json_loads fuel' line rest) as [[c r]| |] eqn:E;
    cbn [bind]; try reflexivity.
  apply parse_case_suffix, suffix_length in E. apply IH; lia.
Qed.

(** The cases found so far are kept in front of the others. *)
Lemma cases_loop_acc fuel : forall acc ls,
  cases_loop json_loads fuel acc ls
  = (cs <- cases_loop json_loads fuel [] ls ;; Ok (acc ++ cs)%list).
Proof.
  induction fuel as [|fuel IH]; intros acc ls; [reflexivity|].
  destruct ls as [|line rest]; cbn [cases_loop bind].
  - now rewrite app_nil_r.
  - destruct (Py.startswith line "#### "); [|apply IH].
    destruct (parse_case json_loads fuel line rest) as [[c r]| |];
      cbn [bind]; try reflexivity.
    rewrite (IH (acc ++ [c])%list r), (IH ([] ++ [c])%list r).
    destruct (cases_loop json_loads fuel [] r); cbn [bind]; try reflexivity.
    now rewrite <- app_assoc.
Qed.

(** The loop over closed annotations reads them all and stops where the
    case ends. *)
Lemma closed_loop ann rest :
  closed ann -> at_boundary rest ->
  forall fuel s, List.length ann < fuel ->
    annot_loop json_loads fuel s (ann ++ rest)
    = (r <- annot_loop json_loads fuel s ann ;; Ok (fst r, rest)).
Proof.
  intros Hc Hb. induction Hc as [|l ann Hl Hc IH|l content e ann Hl Hcont He Hc IH];
    intros fuel s Hf.
  - destruct fuel as [|fuel]; [lia|]. cbn [app annot_loop bind fst].
    destruct rest as [|h rest]; [reflexivity|].
    cbn [at_boundary] in Hb. apply header_seen in Hb.
    unfold seen_as_header in Hb. cbn [annot_loop]. now rewrite Hb.
  - destruct fuel as [|fuel]; [lia|]. cbn [List.length] in Hf.
    unfold plain, seen_as_header, opens_block in Hl.
    rewrite andb_true_iff, !negb_true_iff, !orb_false_iff in Hl.
    destruct Hl as (H0 & ((H1 & H2) & H3) & H4).
    cbn [app annot_loop]. rewrite H0, H1, H2, H3, H4.
    destruct (annot_inline json_loads _ s); cbn [bind]; try reflexivity.
    apply IH. lia.
  - destruct fuel as [|fuel]; [lia|].
    cbn [List.length] in Hf. rewrite length_app in Hf. cbn [List.length] in Hf.
    assert (Hin : in_block e = false).
    { unfold in_block. now rewrite He. }
    assert (Hr1 : read_block (content ++ e :: ann ++ rest)
                  = (content, e :: ann ++ rest))
      by (apply span_app_stop; assumption).
    assert (Hr2 : read_block (content ++ e :: ann) = (content, e :: ann))
      by (apply span_app_stop; assumption).
    assert (Hs1 : skip_end (e :: ann ++ rest) = (ann ++ rest)%list)
      by (cbn; now rewrite He).
    assert (Hs2 : skip_end (e :: ann) = ann) by (cbn; now rewrite He).
    unfold opener, seen_as_header in Hl.
    rewrite andb_true_iff, negb_true_iff in Hl. destruct Hl as [H0 Ho].
    replace ((l :: content ++ e :: ann) ++ rest)
      with (l :: content ++ e :: ann ++ rest)
      by (cbn [app]; now rewrite <- app_assoc).
    cbn [annot_loop]. rewrite H0, Hr1, Hr2, Hs1, Hs2.
    unfold opens_block in Ho.
    destruct (Py.startswith (Py.rstrip_nl l) "## STDOUT:"); [apply IH; lia|].
    destruct (Re.matches Pat.dash_block _); [apply IH; lia|].
    destruct (Re.matches Pat.ni_block _); [apply IH; lia|].
    destruct (other_block _); [apply IH; lia|discriminate].
Qed.

Lemma well_formed_boundary lines : well_formed lines -> at_boundary lines.
Proof. destruct 1 as [|hdr body ann rest Hc _ _]; [exact I|apply Hc]. Qed.

(** One case in the format, in front of lines at which a case may end:
    the case is parsed from its own lines, and the rest as if it were a
    file. *)
Lemma case_then_rest hdr body ann rest :
  case_lines hdr body ann -> at_boundary rest ->
  parse_lines json_loads (hdr :: body ++ ann ++ rest)
  = both (parse_lines json_loads (hdr :: body ++ ann))
         (parse_lines json_loads rest)
  /\ forall cs, parse_lines json_loads (hdr :: body ++ ann) = Ok cs ->
       exists c, cs = [c] /\ name c = header_name hdr.
Proof.
  intros (Hh & Hbody & Hc & Ha) Hb.
  destruct ann as [|a ann']; [contradiction|].
  set (ann := a :: ann') in *.
  unfold parse_lines, both.
  set (N := List.length (hdr :: body ++ ann ++ rest)).
  set (n := List.length (hdr :: body ++ ann)).
  assert (HN : List.length (body ++ ann ++ rest) = N - 1)
    by (subst N; cbn [List.length]; lia).
  assert (Hn : List.length (body ++ ann) = n - 1)
    by (subst n; cbn [List.length]; lia).
  assert (Hlen : List.length ann < n /\ n <= N /\ List.length rest < N
                 /\ 0 < List.length ann).
  { subst n N ann. cbn [List.length]. rewrite !length_app.
    cbn [List.length]. lia. }
  unfold is_header in Hh.
  cbn [cases_loop]. rewrite Hh.
  unfold parse_case.
  assert (Hsp1 : span not_annotation (body ++ ann ++ rest)
                 = (body, ann ++ rest))
    by (subst ann; apply span_app_stop; assumption).
  assert (Hsp2 : span not_annotation (body ++ ann) = (body, ann))
    by (subst ann; apply span_app_stop; assumption).
  rewrite Hsp1, Hsp2, (span_all not_annotation body Hbody).
  rewrite (closed_loop ann rest Hc Hb) by lia.
  rewrite (annot_loop_enough N n) by lia.
  pose proof (closed_loop ann [] Hc I n
                (Var.init (Py.concat body)) ltac:(lia)) as Hnil.
  rewrite app_nil_r in Hnil.
  destruct (annot_loop json_loads n (Var.init (Py.concat body)) ann)
    as [[s r]| |] eqn:E; cbn [bind fst] in *.
  - inversion Hnil; subst r.
    rewrite (cases_loop_acc N _ rest).
    rewrite (cases_loop_enough N (S (List.length rest))) by lia.
    assert (Hone : cases_loop json_loads n
                     ([] ++ [make_case (Py.strip (Py.drop 5 hdr)) s])%list []
                   = Ok [make_case (Py.strip (Py.drop 5 hdr)) s]).
    { destruct n; [lia|reflexivity]. }
    rewrite Hone. cbn [bind]. split; [reflexivity|].
    intros cs Hcs. inversion Hcs. eexists. split; reflexivity.
  - split; [reflexivity|discriminate].
  - split; [reflexivity|discriminate].
Qed.

End WellFormed.

Section WellFormedFile.

Local Open Scope list_scope.

Variable json_loads : string -> option string.

Lemma skip_preamble pre : forall fuel acc ls,
  Forall (fun l => is_header l = false) pre ->
  cases_loop json_loads (List.length pre + fuel) acc (pre ++ ls)
  = cases_loop json_loads fuel acc ls.
Proof.
  induction pre as [|l pre IH]; intros fuel acc ls H; [reflexivity|].
  inversion H as [|? ? Hl Hpre]; subst.
  cbn [List.length Nat.add app cases_loop].
  unfold is_header in Hl. rewrite Hl. now apply IH.
Qed.

Lemma parse_lines_preamble pre ls :
  Forall (fun l => is_header l = false) pre ->
  parse_lines json_loads (pre ++ ls) = parse_lines json_loads ls.
Proof.
  intros H. unfold parse_lines. rewrite length_app.
  replace (S (List.length pre + List.length ls))
    with (List.length pre + S (List.length ls)) by lia.
  now apply skip_preamble.
Qed.

Lemma no_headers ls : count_headers ls = 0 -> filter is_header ls = [].
Proof.
  unfold count_headers. now destruct (filter is_header ls).
Qed.

Lemma well_formed_names lines :
  well_formed lines ->
  forall cases, parse_lines json_loads lines = Ok cases ->
    map name cases = map header_name (filter is_header lines).
Proof.
  induction 1 as [|hdr body ann rest Hc H0 Hw IH]; intros cases Hp.
  - inversion Hp. reflexivity.
  - destruct (case_then_rest json_loads hdr body ann rest Hc
                (well_formed_boundary rest Hw)) as [Hboth Hone].
    rewrite Hboth in Hp. unfold both in Hp.
    destruct (parse_lines json_loads (hdr :: body ++ ann)) as [cs1| |];
      try discriminate.
    destruct (parse_lines json_loads rest) as [cs2| |]; try discriminate.
    cbn [bind] in Hp. inversion Hp; subst cases; clear Hp.
    destruct (Hone cs1 eq_refl) as (c & -> & Hn).
    assert (Hf : filter is_header (body ++ ann ++ rest)
                 = filter is_header rest).
    { rewrite app_assoc, filter_app, (no_headers _ H0). reflexivity. }
    cbn [filter]. destruct Hc as (Hh & _). rewrite Hh, Hf.
    cbn [map app]. rewrite Hn. f_equal. now apply IH.
Qed.

End WellFormedFile.

(** X9.  The parser works case by case on a case in the format: when
    the lines of a case (a header, the lines of the script, and
    annotations in which every block ends with a line that starts with
    "## END") stand in front of lines at which a case may end, the file
    gives the case of these lines, which is one case with the name of the
    header, followed by the cases of the lines after it; and it raises if
    one of the two parts does. *)
Theorem case_in_format_is_parsed_alone (json_loads : string -> option string)
    (hdr : string) (body ann rest : list string) :
  case_lines hdr body ann -> at_boundary rest ->
  parse_lines json_loads (hdr :: body ++ ann ++ rest)%list
  = both (parse_lines json_loads (hdr :: body ++ ann)%list)
         (parse_lines json_loads rest)
  /\ forall cs, parse_lines json_loads (hdr :: body ++ ann)%list = Ok cs ->
       exists c, cs = [c] /\ name c = header_name hdr.
Proof. apply case_then_rest. Qed.

Lemma example_closed :
  closed (map Py.line ["## STDOUT:"; "a"; "## END"; "## status: 0"; ""]).
Proof.
  apply (closed_block (Py.line "## STDOUT:") [Py.line "a"] (Py.line "## END")
           (map Py.line ["## status: 0"; ""])).
  - vm_compute. reflexivity.
  - repeat constructor.
  - vm_compute. reflexivity.
  - apply closed_plain; [vm_compute; reflexivity|].
    apply closed_plain; [vm_compute; reflexivity|].
    apply closed_nil.
Qed.

Lemma example_case_lines :
  case_lines (Py.line "#### a") [Py.line "echo a"]
    (map Py.line ["## STDOUT:"; "a"; "## END"; "## status: 0"; ""]).
Proof.
  split; [vm_compute; reflexivity|].
  split; [repeat constructor|].
  split; [apply example_closed|vm_compute; reflexivity].
Qed.

Lemma case_in_format_is_parsed_alone_witness :
  parse_lines Std.json_loads
    (map Py.line ["#### a"; "echo a"; "## STDOUT:"; "a"; "## END";
                  "## status: 0"; ""; "#### b"; "echo b"; "## stdout: b"])
  = both
      (parse_lines Std.json_loads
         (map Py.line ["#### a"; "echo a"; "## STDOUT:"; "a"; "## END";
                       "## status: 0"; ""]))
      (parse_lines Std.json_loads
         (map Py.line ["#### b"; "echo b"; "## stdout: b"])).
Proof.
  exact (proj1 (case_in_format_is_parsed_alone Std.json_loads
                  (Py.line "#### a") [Py.line "echo a"]
                  (map Py.line ["## STDOUT:"; "a"; "## END"; "## status: 0"; ""])
                  (map Py.line ["#### b"; "echo b"; "## stdout: b"])
                  example_case_lines eq_refl)).
Defined.

(** X10.  On a file in the format (lines without a header, then cases
    one after the other, each with an annotation and with its blocks
    closed, and no header among the lines of a script or of annotations)
    the parser returns one case per header line, in the order of the
    file, each with the name of its header. *)
Theorem file_in_format_one_case_per_header
    (json_loads : string -> option string)
    (pre lines : list string) (cases : list case) :
  Forall (fun l => is_header l = false) pre ->
  well_formed lines ->
  parse_lines json_loads (pre ++ lines)%list = Ok cases ->
  map name cases = map header_name (filter is_header (pre ++ lines)%list)
  /\ List.length cases = count_headers (pre ++ lines)%list.
Proof.
  intros Hpre Hw Hp.
  rewrite parse_lines_preamble in Hp by exact Hpre.
  assert (Hf : filter is_header (pre ++ lines)%list = filter is_header lines).
  { rewrite filter_app.
    assert (filter is_header pre = []) as ->; [|reflexivity].
    clear - Hpre. induction Hpre as [|l pre Hl _ IH]; [reflexivity|].
    cbn [filter]. now rewrite Hl. }
  assert (Hn : map name cases = map header_name (filter is_header lines))
    by (now apply (well_formed_names json_loads)).
  unfold count_headers. rewrite Hf. split; [exact Hn|].
  rewrite <- (length_map name), Hn. apply length_map.
Qed.

Lemma example_well_formed :
  well_formed
    (map Py.line ["#### a"; "echo a"; "## STDOUT:"; "a"; "## END";
                  "## status: 0"; ""; "#### b"; "echo b"; "## stdout: b"]).
Proof.
  apply (wf_case (Py.line "#### a") [Py.line "echo a"]
           (map Py.line ["## STDOUT:"; "a"; "## END"; "## status: 0"; ""])
           (map Py.line ["#### b"; "echo b"; "## stdout: b"])).
  - apply example_case_lines.
  - vm_compute. reflexivity.
  - apply (wf_case (Py.line "#### b") [Py.line "echo b"]
             [Py.line "## stdout: b"] []).
    + split; [vm_compute; reflexivity|].
      split; [repeat constructor|].
      split; [|vm_compute; reflexivity].
      apply closed_plain; [vm_compute; reflexivity|apply closed_nil].
    + vm_compute. reflexivity.
    + apply wf_end.
Qed.

Lemma file_in_format_one_case_per_header_witness :
  map name
    [Case "a" (Py.line "echo a") (Some (Py.line "a")) 0 false;
     Case "b" (Py.line "echo b") (Some (Py.line "b")) 0 false]
  = map header_name
      (filter is_header
         (map Py.line ["# a comment"; ""]
          ++ map Py.line ["#### a"; "echo a"; "## STDOUT:"; "a"; "## END";
                          "## status: 0"; ""; "#### b"; "echo b";
                          "## stdout: b"])%list)
  /\ List.length
       [Case "a" (Py.line "echo a") (Some (Py.line "a")) 0 false;
        Case "b" (Py.line "echo b") (Some (Py.line "b")) 0 false]
     = count_headers
         (map Py.line ["# a comment"; ""]
          ++ map Py.line ["#### a"; "echo a"; "## STDOUT:"; "a"; "## END";
                          "## status: 0"; ""; "#### b"; "echo b";
                          "## stdout: b"])%list.
Proof.
  apply (file_in_format_one_case_per_header Std.json_loads
           (map Py.line ["# a comment"; ""])
           (map Py.line ["#### a"; "echo a"; "## STDOUT:"; "a"; "## END";
                         "## status: 0"; ""; "#### b"; "echo b";
                         "## stdout: b"])).
  - repeat constructor.
  - apply example_well_formed.
  - vm_compute. reflexivity.
Defined.

(** ** The fields of a case, over all its annotations *)

Section Fields.

Local Open Scope list_scope.

Variable json_loads : string -> option string.

Lemma span_fst_all {A} (p : A -> bool) (l : list A) :
  Forall (fun x => p x = true) (fst (span p l)).
Proof.
  induction l as [|x l IH]; cbn [span fst]; [constructor|].
  destruct (p x) eqn:E; [|constructor].
  destruct (span p l) as [a b]. cbn [fst] in *. now constructor.
Qed.

Lemma parse_case_inv fuel line ls c rest :
  parse_case json_loads fuel line ls = Ok (c, rest) ->
  exists s,
    annot_loop json_loads fuel
      (Var.init (Py.concat (fst (span not_annotation ls))))
      (snd (span not_annotation ls)) = Ok (s, rest)
    /\ c = make_case (header_name line) s.
Proof.
  unfold parse_case. intros H.
  pose proof (span_fst_all not_annotation ls) as Hall.
  destruct (span not_annotation ls) as [code_lines r1]. cbn [fst snd] in *.
  rewrite (span_all not_annotation code_lines Hall) in H.
  destruct (annot_loop json_loads fuel _ r1) as [[s r2]| |]; try discriminate.
  cbn [bind] in H. inversion H; subst. eauto.
Qed.

(** *** The status *)

Lemma int_of_value g n : int_of g = Ok n -> Py.int g = Some n.
Proof. unfold int_of. destruct (Py.int g); congruence. Qed.

Lemma on_status_of_status p ln s s' :
  on_status_of p ln s = Ok s' ->
  match Re.group p ln with
  | Some g => Py.int g = Some (Var.expect_status s')
  | None => s' = s
  end.
Proof.
  unfold on_status_of. destruct (Re.group p ln) as [g|].
  - destruct (int_of g) as [n| |] eqn:E; cbn [bind]; try discriminate.
    intros H. inversion H; subst. now apply int_of_value.
  - congruence.
Qed.

Lemma annot_inline_status ln s s' :
  annot_inline json_loads ln s = Ok s' ->
  match status_argument ln with
  | Some g => Py.int g = Some (Var.expect_status s')
  | None => Var.expect_status s' = Var.expect_status s
  end.
Proof.
  unfold annot_inline. intros H.
  destruct (on_status_of Pat.status ln _) as [s1| |] eqn:E1; try discriminate.
  cbn [bind] in H.
  destruct (on_bug json_loads ln s1) as [s2| |] eqn:E2; try discriminate.
  cbn [bind] in H.
  destruct (on_status_of Pat.ok_status ln _) as [s3| |] eqn:E3;
    try discriminate.
  cbn [bind] in H. inversion H; subst s'; clear H.
  apply on_status_of_status in E1, E3.
  assert (H0 : Var.expect_status
                 (on_stdout_json json_loads ln
                    (on_stdout ln (on_code ln (on_ni_marker ln s))))
               = Var.expect_status s).
  { unfold on_stdout_json, on_stdout, on_code, on_ni_marker.
    destruct s as [c0 e0 j0 st0 n0].
    destruct (Re.group Pat.stdout_json ln) as [g1|];
      destruct (Re.group Pat.stdout ln) as [g2|];
      destruct (Re.group Pat.code ln) as [g3|];
      destruct (Re.matches Pat.ni_marker ln);
      destruct e0 as [e|]; cbn;
      try destruct (loads_quoted json_loads g1); reflexivity. }
  assert (H4 : Var.expect_status (on_ni_status ln s3) = Var.expect_status s3).
  { unfold on_ni_status. now destruct (Re.group Pat.ni_status ln). }
  assert (H5 : Var.expect_status (on_ok_stdout json_loads ln s2)
               = Var.expect_status s2).
  { unfold on_ok_stdout, on_dash_stdout_of, on_dash_stdout_json_of.
    destruct (Re.matches Pat.ok_stdout_any ln); [|reflexivity].
    destruct (Re.group Pat.ok_stdout_json ln) as [g1|];
      destruct (Re.group Pat.ok_stdout ln) as [g2|];
      try destruct (loads_quoted json_loads g1); reflexivity. }
  assert (H2 : match (if Re.matches Pat.bug ln
                      then Re.group Pat.bug_status ln else None) with
               | Some g => Py.int g = Some (Var.expect_status s2)
               | None => Var.expect_status s2 = Var.expect_status s1
               end).
  { unfold on_bug in E2. destruct (Re.matches Pat.bug ln).
    - apply on_status_of_status in E2.
      destruct (Re.group Pat.bug_status ln) as [g|]; [exact E2|].
      rewrite E2. unfold on_dash_stdout_of, on_dash_stdout_json_of.
      destruct (Re.group Pat.bug_stdout_json ln) as [g1|];
        destruct (Re.group Pat.bug_stdout ln) as [g2|];
        try destruct (loads_quoted json_loads g1); reflexivity.
    - now inversion E2. }
  unfold status_argument. rewrite H4.
  destruct (Re.group Pat.ok_status ln) as [g|]; [exact E3|].
  subst s3. rewrite H5.
  destruct (if Re.matches Pat.bug ln then Re.group Pat.bug_status ln else None)
    as [g|]; [exact H2|].
  rewrite H2.
  destruct (Re.group Pat.status ln) as [g|]; [exact E1|].
  subst s1. exact H0.
Qed.

Lemma annot_loop_status (st0 : Z) fuel : forall s ls s' rest found,
  annot_loop json_loads fuel s ls = Ok (s', rest) ->
  match found with
  | Some g => Py.int g = Some (Var.expect_status s)
  | None => Var.expect_status s = st0
  end ->
  match fold_left
          (fun found ln =>
             match status_argument ln with
             | Some g => Some g
             | None => found
             end) (inline_lines fuel ls) found with
  | Some g => Py.int g = Some (Var.expect_status s')
  | None => Var.expect_status s' = st0
  end.
Proof.
  induction fuel as [|fuel IH]; intros s ls s' rest found H Hinv;
    [discriminate|].
  destruct ls as [|l ls]; cbn [annot_loop inline_lines] in *.
  - inversion H; subst. exact Hinv.
  - destruct (Py.startswith (Py.rstrip_nl l) "#### ").
    { inversion H; subst. exact Hinv. }
    destruct (Py.startswith (Py.rstrip_nl l) "## STDOUT:").
    { destruct (read_block ls) as [a r]. eapply IH; [exact H|exact Hinv]. }
    destruct (Re.matches Pat.dash_block _).
    { destruct (read_block ls) as [a r]. eapply IH; [exact H|exact Hinv]. }
    destruct (Re.matches Pat.ni_block _).
    { destruct (read_block ls) as [a r]. eapply IH; [exact H|exact Hinv]. }
    destruct (other_block _).
    { destruct (read_block ls) as [a r]. eapply IH; [exact H|exact Hinv]. }
    destruct (annot_inline json_loads _ s) as [s1| |] eqn:E; try discriminate.
    cbn [bind] in H. cbn [fold_left].
    eapply IH; [exact H|].
    apply annot_inline_status in E.
    destruct (status_argument (Py.rstrip_nl l)) as [g|]; [exact E|].
    rewrite E. exact Hinv.
Qed.

(** *** The mark of a case that dash does not implement *)

Lemma matches_group_some p ln g :
  Re.group p ln = Some g -> Re.matches p ln = true.
Proof.
  unfold Re.group, Re.matches. now destruct (Re.re_match p ln).
Qed.

Lemma ni_status_group ln st :
  Re.re_match Pat.ni_status ln = Some st -> exists g, Re.m_group st = Some g.
Proof.
  unfold Re.re_match, Pat.ni_status. cbn [Re.seq]. intros E.
  apply seq_cont in E. destruct E as [s1 E].
  apply seq_cont in E. destruct E as [s2 E].
  apply seq_cont in E. destruct E as [s3 E].
  apply digits_tail in E. destruct E as (g & Hg & _). eauto.
Qed.

Lemma annot_inline_ni ln s s' :
  annot_inline json_loads ln s = Ok s' ->
  Var.n_i_dash s'
  = Var.n_i_dash s || Re.matches Pat.ni_marker ln
    || Re.matches Pat.ni_status ln.
Proof.
  unfold annot_inline. intros H.
  destruct (on_status_of Pat.status ln _) as [s1| |] eqn:E1; try discriminate.
  cbn [bind] in H.
  destruct (on_bug json_loads ln s1) as [s2| |] eqn:E2; try discriminate.
  cbn [bind] in H.
  destruct (on_status_of Pat.ok_status ln _) as [s3| |] eqn:E3;
    try discriminate.
  cbn [bind] in H. inversion H; subst s'; clear H.
  assert (Hst : forall p a b, on_status_of p ln a = Ok b ->
                              Var.n_i_dash b = Var.n_i_dash a).
  { intros p a b. unfold on_status_of.
    destruct (Re.group p ln) as [g|]; [|congruence].
    destruct (int_of g); cbn [bind]; try discriminate.
    intros Hb. now inversion Hb. }
  assert (Hd : forall p q a,
            Var.n_i_dash
              (on_dash_stdout_json_of json_loads q ln
                 (on_dash_stdout_of p ln a))
            = Var.n_i_dash a).
  { intros p q a. unfold on_dash_stdout_of, on_dash_stdout_json_of.
    destruct (Re.group q ln) as [g1|]; destruct (Re.group p ln) as [g2|];
      try destruct (loads_quoted json_loads g1); reflexivity. }
  assert (H2 : Var.n_i_dash s2 = Var.n_i_dash s1).
  { unfold on_bug in E2. destruct (Re.matches Pat.bug ln).
    - apply Hst in E2. now rewrite E2, Hd.
    - now inversion E2. }
  assert (H5 : Var.n_i_dash (on_ok_stdout json_loads ln s2) = Var.n_i_dash s2).
  { unfold on_ok_stdout. destruct (Re.matches Pat.ok_stdout_any ln);
      [apply Hd|reflexivity]. }
  apply Hst in E1, E3.
  unfold on_ni_status, Re.matches at 2, Re.group.
  destruct (Re.re_match Pat.ni_status ln) as [st|] eqn:Ens.
  - destruct (ni_status_group ln st Ens) as [g Hg]. rewrite Hg.
    cbn [Var.set_n_i_dash Var.n_i_dash]. now rewrite orb_true_r.
  - rewrite orb_false_r, E3, H5, H2, E1.
    unfold on_stdout_json, on_stdout, on_code, on_ni_marker.
    destruct s as [c0 e0 j0 st0 n0].
    destruct (Re.group Pat.stdout_json ln) as [g1|];
      destruct (Re.group Pat.stdout ln) as [g2|];
      destruct (Re.group Pat.code ln) as [g3|];
      destruct (Re.matches Pat.ni_marker ln);
      destruct e0 as [e|]; cbn;
      try destruct (loads_quoted json_loads g1);
      rewrite ?orb_true_r, ?orb_false_r; reflexivity.
Qed.

(** *** The rounds of the loop *)

(** With more fuel than lines, the fuel does not matter. *)
Lemma readings_enough fuel : forall fuel' ls,
  List.length ls < fuel -> List.length ls < fuel' ->
  readings fuel ls = readings fuel' ls.
Proof.
  induction fuel as [|fuel IH]; intros fuel' ls H H'; [lia|].
  destruct fuel' as [|fuel']; [lia|].
  destruct ls as [|l rest]; cbn [readings]; [reflexivity|].
  simpl in H, H'.
  assert (Hb : readings fuel (skip_end (snd (read_block rest)))
               = readings fuel' (skip_end (snd (read_block rest)))).
  { destruct (read_block rest) as [a r] eqn:Er. cbn [snd].
    pose proof (suffix_length _ _ (block_suffix _ _ _ Er)).
    apply IH; lia. }
  rewrite Hb, (IH fuel' rest) by lia. reflexivity.
Qed.

(** When the loop returns, it has not run out of fuel: more fuel gives the
    same rounds. *)
Lemma readings_more fuel : forall fuel' s ls s' rest,
  annot_loop json_loads fuel s ls = Ok (s', rest) -> fuel <= fuel' ->
  readings fuel ls = readings fuel' ls.
Proof.
  induction fuel as [|fuel IH]; intros fuel' s ls s' rest H Hle;
    [discriminate|].
  destruct fuel' as [|fuel']; [lia|].
  destruct ls as [|l ls]; cbn [annot_loop readings] in *; [reflexivity|].
  unfold opens_block.
  destruct (Py.startswith (Py.rstrip_nl l) "#### "); [reflexivity|].
  destruct (Py.startswith (Py.rstrip_nl l) "## STDOUT:"); cbn [orb].
  { destruct (read_block ls) as [a r]. f_equal. eapply IH; [exact H|lia]. }
  destruct (Re.matches Pat.dash_block _); cbn [orb].
  { destruct (read_block ls) as [a r]. f_equal. eapply IH; [exact H|lia]. }
  destruct (Re.matches Pat.ni_block _); cbn [orb].
  { destruct (read_block ls) as [a r]. f_equal. eapply IH; [exact H|lia]. }
  destruct (other_block _).
  { destruct (read_block ls) as [a r]. f_equal. eapply IH; [exact H|lia]. }
  destruct (annot_inline json_loads _ s) as [s1| |]; try discriminate.
  cbn [bind] in H. f_equal. eapply IH; [exact H|lia].
Qed.

Lemma readings_any fuel s ls s' rest :
  annot_loop json_loads fuel s ls = Ok (s', rest) ->
  readings fuel ls = readings (S (List.length ls)) ls.
Proof.
  intros H. destruct (Nat.le_gt_cases fuel (S (List.length ls))) as [Hle|Hgt].
  - eapply readings_more; eauto.
  - apply readings_enough; lia.
Qed.

(** A line that opens an N-I block of dash passes the two tests before
    that of line 73. *)
Lemma ni_block_not_before ln :
  Py.startswith ln "## STDOUT:" || Re.matches Pat.dash_block ln = true ->
  Re.matches Pat.ni_block ln = false.
Proof.
  intros H. destruct (Re.matches Pat.ni_block ln) eqn:E; [|reflexivity].
  unfold Re.matches in E.
  destruct (Re.re_match Pat.ni_block ln) as [res|] eqn:Er; [|discriminate].
  unfold Pat.ni_block in Er. cbn [Re.seq] in Er.
  apply lit_prefix in Er. destruct Er as [t ->].
  cbn in H. discriminate.
Qed.

(** The mark at the end of the loop: the mark at its start, or a round
    that sets it. *)
Lemma annot_loop_mark fuel : forall s ls s' rest,
  annot_loop json_loads fuel s ls = Ok (s', rest) ->
  Var.n_i_dash s' = Var.n_i_dash s || existsb marks (readings fuel ls).
Proof.
  induction fuel as [|fuel IH]; intros s ls s' rest H; [discriminate|].
  destruct ls as [|l ls]; cbn [annot_loop readings] in *.
  - inversion H; subst. now rewrite orb_false_r.
  - unfold opens_block.
    destruct (Py.startswith (Py.rstrip_nl l) "#### ").
    { inversion H; subst. now rewrite orb_false_r. }
    destruct (Py.startswith (Py.rstrip_nl l) "## STDOUT:") eqn:E1; cbn [orb].
    { destruct (read_block ls) as [a r]. cbn [existsb marks fst snd].
      rewrite (ni_block_not_before (Py.rstrip_nl l)) by now rewrite E1.
      apply IH in H. exact H. }
    destruct (Re.matches Pat.dash_block _) eqn:E2; cbn [orb].
    { destruct (read_block ls) as [a r]. cbn [existsb marks fst snd].
      rewrite (ni_block_not_before (Py.rstrip_nl l))
        by now rewrite E2, orb_true_r.
      apply IH in H. exact H. }
    destruct (Re.matches Pat.ni_block _) eqn:E3; cbn [orb].
    { destruct (read_block ls) as [a r]. cbn [existsb marks fst snd].
      rewrite E3. apply IH in H. rewrite H. cbn. now rewrite orb_true_r. }
    destruct (other_block _).
    { destruct (read_block ls) as [a r]. cbn [existsb marks fst snd].
      rewrite E3. apply IH in H. exact H. }
    destruct (annot_inline json_loads _ s) as [s1| |] eqn:E; try discriminate.
    cbn [bind] in H. apply annot_inline_ni in E. apply IH in H.
    cbn [existsb marks]. rewrite H, E.
    now rewrite <- !orb_assoc.
Qed.

End Fields.

(** X11.  The expected status of a case is the number of the last status
    annotation that the loop read ("## status: N", or the form for BUG or
    OK of dash; a status annotation for N-I changes nothing), and 0 when
    it read none. *)
Theorem status_is_last_wins (json_loads : string -> option string)
    (fuel : nat) (line : string) (ls : list string)
    (c : case) (rest : list string) :
  parse_case json_loads fuel line ls = Ok (c, rest) ->
  match last_status_argument (annotations ls) with
  | Some g => Py.int g = Some (expect_status c)
  | None => expect_status c = 0%Z
  end.
Proof.
  intros H. apply parse_case_inv in H. destruct H as (s & E & ->).
  unfold annotations, last_status_argument. cbn zeta.
  rewrite <- (inline_lines_any json_loads _ _ _ _ _ E).
  cbn [make_case expect_status].
  exact (annot_loop_status json_loads 0%Z fuel _ _ _ _ None E eq_refl).
Qed.

Lemma status_is_last_wins_witness :
  Py.int "7" = Some 7%Z.
Proof.
  exact (status_is_last_wins Std.json_loads 9 (Py.line "#### t")
           (map Py.line ["exit 7"; "## status: 2"; "## N-I dash status: 5";
                         "## OK dash status: 7"; "## stdout: x"])
           (Case "t" (Py.line "exit 7") (Some (Py.line "x")) 7 true) []
           eq_refl).
Defined.

(** X12.  A case is marked not-implemented exactly when one round of the
    loop over its annotations sets the mark: a marker or a status
    annotation for N-I of dash read on its own, or the opening of an N-I
    block of dash.  Nothing that follows takes the mark away, and a line
    that the loop of the case does not read (the lines from the header
    that stops the loop on) plays no part. *)
Theorem not_implemented_mark (json_loads : string -> option string)
    (fuel : nat) (line : string) (ls : list string)
    (c : case) (rest : list string) :
  parse_case json_loads fuel line ls = Ok (c, rest) ->
  n_i_dash c = existsb marks (case_readings ls).
Proof.
  intros H. apply parse_case_inv in H. destruct H as (s & E & ->).
  cbn [make_case n_i_dash]. unfold case_readings. cbn zeta.
  rewrite <- (readings_any json_loads _ _ _ _ _ E).
  exact (annot_loop_mark json_loads _ _ _ _ _ E).
Qed.

Lemma not_implemented_mark_witness :
  n_i_dash (Case "t" (Py.line "echo hi") (Some (Py.line "hi")) 0 true)
  = existsb marks
      (case_readings
         (map Py.line ["echo hi"; "## OK bash STDOUT:"; "x"; "## END";
                       "## N-I dash"; "## stdout: hi"; "#### u"])).
Proof.
  apply (not_implemented_mark Std.json_loads 9 (Py.line "#### t")
           (map Py.line ["echo hi"; "## OK bash STDOUT:"; "x"; "## END";
                         "## N-I dash"; "## stdout: hi"; "#### u"])
           (Case "t" (Py.line "echo hi") (Some (Py.line "hi")) 0 true)
           (map Py.line ["#### u"])).
  vm_compute. reflexivity.
Defined.

(** X13.  Without a [code:] annotation, the script of a case is the text
    of the lines between its header and the first line that starts with
    "## ", as they stand in the file; and the name of the case is the
    text of the header after its five first characters, without blanks
    around it. *)
Theorem body_is_the_script (json_loads : string -> option string)
    (fuel : nat) (line : string) (ls : list string)
    (c : case) (rest : list string) :
  parse_case json_loads fuel line ls = Ok (c, rest) ->
  name c = Py.strip (Py.drop 5 line)
  /\ (last_code_argument (annotations ls) = None ->
      code c = Py.concat (fst (span not_annotation ls))).
Proof.
  intros H. apply parse_case_inv in H. destruct H as (s & E & ->).
  cbn [make_case name code]. split; [reflexivity|].
  intros Hn. unfold annotations, last_code_argument in Hn. cbn zeta in Hn.
  rewrite <- (inline_lines_any json_loads _ _ _ _ _ E) in Hn.
  rewrite (annot_loop_code json_loads _ _ _ _ _ E).
  rewrite (fold_code_step _ _ None
             (Var.code (Var.init (Py.concat (fst (span not_annotation ls)))))
             eq_refl).
  now rewrite Hn.
Qed.

Lemma body_is_the_script_witness :
  name (Case "two lines" (text_of ["echo a"; "echo b"]) (Some (Py.line "a")) 0
          false)
  = Py.strip (Py.drop 5 (Py.line "####   two lines  "))
  /\ (last_code_argument
        (annotations (map Py.line ["echo a"; "echo b"; "## stdout: a"; "rest"]))
      = None ->
      code (Case "two lines" (text_of ["echo a"; "echo b"])
              (Some (Py.line "a")) 0 false)
      = Py.concat
          (fst (span not_annotation
                  (map Py.line ["echo a"; "echo b"; "## stdout: a"; "rest"])))).
Proof.
  exact (body_is_the_script Std.json_loads 9 (Py.line "####   two lines  ")
           (map Py.line ["echo a"; "echo b"; "## stdout: a"; "rest"])
           (Case "two lines" (text_of ["echo a"; "echo b"])
              (Some (Py.line "a")) 0 false) [] eq_refl).
Defined.

(** ** Blocks *)

Section Blocks.

Local Open Scope list_scope.

Variable json_loads : string -> option string.

Lemma prefix_app (p : string) : forall s,
  String.prefix p s = true -> exists t, s = (p ++ t)%string.
Proof.
  induction p as [|a p IH]; intros s H; [now exists s|].
  destruct s as [|b s]; [discriminate|]. cbn [String.prefix] in H.
  destruct (ascii_dec a b) as [<-|]; [|discriminate].
  destruct (IH s H) as [t ->]. now exists t.
Qed.

Lemma matches_lit_prefix p r ln :
  Re.matches (Re.Seq (Re.Lit p) r) ln = true -> exists t, ln = (p ++ t)%string.
Proof.
  unfold Re.matches.
  destruct (Re.re_match (Re.Seq (Re.Lit p) r) ln) as [res|] eqn:E;
    [|discriminate].
  intros _. eapply lit_prefix. exact E.
Qed.

Lemma rx_lit_prefix p st k res :
  Re.rx (Re.Lit p) st k = Some res ->
  exists t, Re.m_rest st = (p ++ t)%string.
Proof.
  cbn [Re.rx].
  destruct (Re.match_lit p (Re.m_prev st) (Re.m_rest st)) as [[pv s']|] eqn:E;
    [|discriminate].
  intros _. apply match_lit_app in E. eauto.
Qed.

Lemma read_block_content content tail :
  Forall (fun x => in_block x = true) content -> block_end tail ->
  read_block (content ++ tail) = (content, tail).
Proof.
  intros Hc Ht. unfold read_block. destruct tail as [|e t].
  - rewrite app_nil_r. now apply span_all.
  - now apply span_app_stop.
Qed.

(** The tag of a line that opens a block with a dialect. *)
Lemma any_block_tag ln :
  Re.matches Pat.any_block ln = true ->
  exists t, ln = ("## OK" ++ t)%string \/ ln = ("## BUG" ++ t)%string
            \/ ln = ("## N-I" ++ t)%string.
Proof.
  unfold Re.matches, Re.re_match, Pat.any_block, Pat.any_tag.
  cbn [Re.seq Re.alt Re.rx Re.m_prev Re.m_rest Re.m_group].
  destruct (Re.match_lit "## " None ln) as [[pv s']|] eqn:E; [|discriminate].
  apply match_lit_app in E. subst ln.
  destruct (Re.match_lit "OK" pv s') as [[pv1 s1]|] eqn:E1.
  { apply match_lit_app in E1. subst s'. intros _. exists s1. now left. }
  destruct (Re.match_lit "BUG" pv s') as [[pv2 s2]|] eqn:E2.
  { apply match_lit_app in E2. subst s'. intros _. exists s2. right. now left. }
  destruct (Re.match_lit "N-I" pv s') as [[pv3 s3]|] eqn:E3.
  { apply match_lit_app in E3. subst s'. intros _. exists s3. right. now right. }
  discriminate.
Qed.

Lemma alt_more a b c r st k res :
  Re.rx (Re.Seq (Re.Alt a b) r) st k = Some res ->
  exists res', Re.rx (Re.Seq (Re.Alt a (Re.Alt b c)) r) st k = Some res'.
Proof.
  cbn [Re.rx].
  destruct (Re.rx a st _) as [x|]; [eauto|].
  destruct (Re.rx b st _) as [x|]; [eauto|discriminate].
Qed.

Lemma lit_seq_mono p r r' st k res :
  Re.rx (Re.Seq (Re.Lit p) r) st k = Some res ->
  (forall st1 res1, Re.rx r st1 k = Some res1 ->
                    exists res', Re.rx r' st1 k = Some res') ->
  exists res', Re.rx (Re.Seq (Re.Lit p) r') st k = Some res'.
Proof.
  cbn [Re.rx].
  destruct (Re.match_lit p (Re.m_prev st) (Re.m_rest st)) as [[pv s']|];
    [|discriminate].
  intros H Hr. eapply Hr. exact H.
Qed.

Lemma dash_block_is_target ln :
  Re.matches Pat.dash_block ln = true -> Re.matches Pat.target_block ln = true.
Proof.
  unfold Re.matches, Re.re_match, Pat.dash_block, Pat.target_block.
  cbn [Re.seq Re.alt].
  match goal with
  | |- match ?m with _ => _ end = true -> _ =>
      destruct m as [res|] eqn:E; [|discriminate]
  end.
  intros _.
  destruct (lit_seq_mono _ _ _ _ _ _ E
              (fun st1 res1 => alt_more _ _ (Re.Lit "N-I") _ st1 Some res1))
    as [res' E'].
  now rewrite E'.
Qed.

Lemma ni_block_is_target ln :
  Re.matches Pat.ni_block ln = true -> Re.matches Pat.target_block ln = true.
Proof.
  intros H. destruct (matches_lit_prefix _ _ _ H) as [t ->].
  etransitivity; [|exact H]. reflexivity.
Qed.

(** The line is read by the fourth test only. *)
Lemma other_block_alone ln :
  other_block ln = true ->
  Py.startswith ln "#### " = false
  /\ Py.startswith ln "## STDOUT:" = false
  /\ Re.matches Pat.dash_block ln = false
  /\ Re.matches Pat.ni_block ln = false.
Proof.
  unfold other_block. rewrite andb_true_iff, negb_true_iff.
  intros [Ha Ht].
  assert (Hd : Re.matches Pat.dash_block ln = false).
  { destruct (Re.matches Pat.dash_block ln) eqn:E; [|reflexivity].
    apply dash_block_is_target in E. congruence. }
  assert (Hn : Re.matches Pat.ni_block ln = false).
  { destruct (Re.matches Pat.ni_block ln) eqn:E; [|reflexivity].
    apply ni_block_is_target in E. congruence. }
  destruct (any_block_tag ln Ha) as [t [-> | [-> | ->]]];
    repeat split; try reflexivity; assumption.
Qed.

Lemma ni_block_alone ln :
  Re.matches Pat.ni_block ln = true ->
  Py.startswith ln "#### " = false
  /\ Py.startswith ln "## STDOUT:" = false
  /\ Re.matches Pat.dash_block ln = false.
Proof.
  intros H. destruct (matches_lit_prefix _ _ _ H) as [t ->].
  repeat split; reflexivity.
Qed.

Lemma block_opener_is_no_header ln :
  Py.startswith ln "## STDOUT:" || Re.matches Pat.dash_block ln = true ->
  Py.startswith ln "#### " = false.
Proof.
  rewrite orb_true_iff. intros [H|H].
  - apply prefix_app in H. destruct H as [t ->]. reflexivity.
  - destruct (matches_lit_prefix _ _ _ H) as [t ->]. reflexivity.
Qed.

End Blocks.

(** X14.  A STDOUT block without a dialect, and an OK or BUG block of
    dash: the lines after the opening line, up to the first line that
    starts with "## END" or with an outcome tag (or to the end of the
    file), joined as they stand, become the expected output, whatever it
    was before; an end marker is skipped, and the loop goes on with the
    line after it, or with the outcome-tag line itself. *)
Theorem expectation_block (json_loads : string -> option string)
    (fuel : nat) (s : Var.t) (l : string) (content tail : list string) :
  Py.startswith (Py.rstrip_nl l) "## STDOUT:"
  || Re.matches Pat.dash_block (Py.rstrip_nl l) = true ->
  Forall (fun x => in_block x = true) content ->
  block_end tail ->
  annot_loop json_loads (S fuel) s (l :: content ++ tail)%list
  = annot_loop json_loads fuel
      (Var.set_expect_stdout (Some (Py.concat content)) s) (skip_end tail).
Proof.
  intros Ho Hc Ht. cbn [annot_loop].
  rewrite (block_opener_is_no_header _ Ho), (read_block_content _ _ Hc Ht).
  destruct (Py.startswith (Py.rstrip_nl l) "## STDOUT:"); [reflexivity|].
  cbn [orb] in Ho. now rewrite Ho.
Qed.

Lemma expectation_block_witness :
  annot_loop Std.json_loads 5 (Var.init "x")
    (map Py.line ["## BUG dash/ash STDOUT:"; "a"; "b"; "## END";
                  "## status: 1"])
  = annot_loop Std.json_loads 4
      (Var.set_expect_stdout (Some (text_of ["a"; "b"])) (Var.init "x"))
      (map Py.line ["## status: 1"]).
Proof.
  apply (expectation_block Std.json_loads 4 (Var.init "x")
           (Py.line "## BUG dash/ash STDOUT:") (map Py.line ["a"; "b"])
           (map Py.line ["## END"; "## status: 1"])).
  - vm_compute. reflexivity.
  - repeat constructor.
  - vm_compute. reflexivity.
Defined.

(** X15.  Blocks that give no expected output.  The lines of an N-I
    block of dash are dropped and the case is marked not-implemented; a
    block of another shell (OK, BUG or N-I) is dropped and changes
    nothing at all.  Both end like the blocks that are kept. *)
Theorem dropped_blocks (json_loads : string -> option string)
    (fuel : nat) (s : Var.t) (l : string) (content tail : list string) :
  Forall (fun x => in_block x = true) content ->
  block_end tail ->
  (Re.matches Pat.ni_block (Py.rstrip_nl l) = true ->
   annot_loop json_loads (S fuel) s (l :: content ++ tail)%list
   = annot_loop json_loads fuel (Var.set_n_i_dash true s) (skip_end tail))
  /\ (other_block (Py.rstrip_nl l) = true ->
      annot_loop json_loads (S fuel) s (l :: content ++ tail)%list
      = annot_loop json_loads fuel s (skip_end tail)).
Proof.
  intros Hc Ht. split; intros Ho; cbn [annot_loop];
    rewrite (read_block_content _ _ Hc Ht).
  - destruct (ni_block_alone _ Ho) as (H1 & H2 & H3).
    now rewrite H1, H2, H3, Ho.
  - destruct (other_block_alone _ Ho) as (H1 & H2 & H3 & H4).
    now rewrite H1, H2, H3, H4, Ho.
Qed.

Lemma dropped_blocks_witness :
  annot_loop Std.json_loads 5 (Var.init "x")
    (map Py.line ["## OK bash/zsh STDOUT:"; "a"; "## END"; "## status: 1"])
  = annot_loop Std.json_loads 4 (Var.init "x")
      (map Py.line ["## status: 1"]).
Proof.
  apply (proj2 (dropped_blocks Std.json_loads 4 (Var.init "x")
                  (Py.line "## OK bash/zsh STDOUT:") (map Py.line ["a"])
                  (map Py.line ["## END"; "## status: 1"])
                  ltac:(repeat constructor) eq_refl)).
  vm_compute. reflexivity.
Defined.

(** ** Annotations on one line *)

Section Inline.

Variable json_loads : string -> option string.

Lemma stdout_prefix ln g :
  Re.group Pat.stdout ln = Some g -> exists t, ln = "## stdout: " ++ t.
Proof.
  unfold Re.group.
  destruct (Re.re_match Pat.stdout ln) as [res|] eqn:E; [|discriminate].
  intros _. unfold Pat.stdout in E. cbn [Re.seq] in E.
  eapply lit_prefix. exact E.
Qed.

(** A [stdout:] line is no other annotation. *)
Lemma stdout_only t :
  let ln := "## stdout: " ++ t in
  Re.matches Pat.ni_marker ln = false
  /\ Re.group Pat.code ln = None
  /\ Re.group Pat.stdout_json ln = None
  /\ Re.group Pat.status ln = None
  /\ Re.matches Pat.bug ln = false
  /\ Re.matches Pat.ok_stdout_any ln = false
  /\ Re.group Pat.ok_status ln = None
  /\ Re.group Pat.ni_status ln = None.
Proof. repeat split; reflexivity. Qed.

Lemma match_lit_none p : forall pv s,
  String.prefix p s = false -> Re.match_lit p pv s = None.
Proof.
  induction p as [|a p IH]; intros pv s H; [destruct s; discriminate|].
  destruct s as [|b s]; [reflexivity|].
  cbn [String.prefix] in H. cbn [Re.match_lit].
  destruct (ascii_dec a b) as [<-|Hne].
  - rewrite Ascii.eqb_refl. now apply IH.
  - apply Ascii.eqb_neq in Hne. now rewrite Hne.
Qed.

Lemma append_inv_head p : forall s t, p ++ s = p ++ t -> s = t.
Proof.
  induction p as [|a p IH]; intros s t H; [exact H|].
  simpl in H. inversion H. auto.
Qed.

(** A pattern of a dash annotation needs "dash" after the tag. *)
Lemma needs_dash p x r t :
  Py.startswith t "dash" = false ->
  Re.re_match (Re.Seq (Re.Lit p) (Re.Seq (Re.Seq (Re.Lit "dash") x) r))
    (p ++ t) = None.
Proof.
  intros H. unfold Re.re_match. cbn [Re.rx Re.m_prev Re.m_rest Re.m_group].
  destruct (Re.match_lit p None (p ++ t)) as [[pv s']|] eqn:E; [|reflexivity].
  apply match_lit_app, append_inv_head in E. subst s'.
  now rewrite (match_lit_none "dash" pv t H).
Qed.

Lemma needs_dash_group p x r t :
  Py.startswith t "dash" = false ->
  Re.group (Re.Seq (Re.Lit p) (Re.Seq (Re.Seq (Re.Lit "dash") x) r))
    (p ++ t) = None.
Proof. intros H. unfold Re.group. now rewrite needs_dash. Qed.

Lemma needs_dash_matches p x r t :
  Py.startswith t "dash" = false ->
  Re.matches (Re.Seq (Re.Lit p) (Re.Seq (Re.Seq (Re.Lit "dash") x) r))
    (p ++ t) = false.
Proof. intros H. unfold Re.matches. now rewrite needs_dash. Qed.

Lemma ok_line_of_other_shell t s :
  Py.startswith t "dash" = false ->
  annot_inline json_loads ("## OK " ++ t) s = Ok s.
Proof.
  intros H.
  assert (E1 : Re.matches Pat.ok_stdout_any ("## OK " ++ t) = false)
    by exact (needs_dash_matches "## OK " _ _ t H).
  assert (E2 : Re.group Pat.ok_status ("## OK " ++ t) = None)
    by exact (needs_dash_group "## OK " _ _ t H).
  unfold annot_inline, on_ok_stdout, on_status_of. rewrite E1.
  change (on_ni_marker ("## OK " ++ t) s) with s.
  cbn [bind]. now rewrite E2.
Qed.

Lemma ni_line_of_other_shell t s :
  Py.startswith t "dash" = false ->
  annot_inline json_loads ("## N-I " ++ t) s = Ok s.
Proof.
  intros H.
  assert (E1 : Re.matches Pat.ni_marker ("## N-I " ++ t) = false).
  { unfold Re.matches, Re.re_match, Pat.ni_marker, Pat.dash.
    cbn [Re.seq Re.rx Re.m_prev Re.m_rest Re.m_group].
    change (Re.match_lit "## N-I " None ("## N-I " ++ t))
      with (Some (Some " "%char, t)).
    cbn [Re.m_prev Re.m_rest]. now rewrite (match_lit_none "dash" _ t H). }
  assert (E2 : Re.group Pat.ni_status ("## N-I " ++ t) = None)
    by exact (needs_dash_group "## N-I " _ _ t H).
  unfold annot_inline, on_ni_marker, on_ni_status. rewrite E1.
  cbn [bind]. now rewrite E2.
Qed.

Lemma bug_line_of_other_shell t s :
  Py.startswith t "dash" = false ->
  annot_inline json_loads ("## BUG " ++ t) s = Ok s.
Proof.
  intros H.
  assert (E1 : Re.group Pat.bug_stdout ("## BUG " ++ t) = None)
    by exact (needs_dash_group "## BUG " _ _ t H).
  assert (E2 : Re.group Pat.bug_stdout_json ("## BUG " ++ t) = None)
    by exact (needs_dash_group "## BUG " _ _ t H).
  assert (E3 : Re.group Pat.bug_status ("## BUG " ++ t) = None)
    by exact (needs_dash_group "## BUG " _ _ t H).
  unfold annot_inline, on_bug, on_dash_stdout_of, on_dash_stdout_json_of,
    on_status_of.
  change (on_ni_marker ("## BUG " ++ t) s) with s.
  cbn [bind]. rewrite E1, E2, E3.
  now destruct (Re.matches Pat.bug ("## BUG " ++ t)).
Qed.

Lemma concat_cons l ls : Py.concat (l :: ls) = l ++ Py.concat ls.
Proof.
  unfold Py.concat. destruct ls as [|l' ls]; cbn [String.concat].
  - now rewrite append_nil_r.
  - reflexivity.
Qed.

(** Joining the lines of a text gives the text. *)
Lemma readlines_concat t : Py.concat (Py.readlines t) = t.
Proof.
  induction t as [|c t IH]; [reflexivity|].
  cbn [Py.readlines]. destruct (Ascii.eqb c Py.nl_char).
  - rewrite concat_cons, IH. reflexivity.
  - destruct (Py.readlines t) as [|l ls].
    + cbn in IH. subst t. reflexivity.
    + rewrite concat_cons in *. simpl. now rewrite IH.
Qed.

Lemma readlines_line h : forall rest,
  Py.has_char Py.nl_char h = false ->
  Py.readlines (Py.line h ++ rest) = Py.line h :: Py.readlines rest.
Proof.
  unfold Py.line.
  induction h as [|c h IH]; intros rest H; [reflexivity|].
  cbn [Py.has_char] in H. apply orb_false_iff in H. destruct H as [Hc Hh].
  cbn [append Py.readlines]. rewrite Ascii.eqb_sym, Hc.
  now rewrite (IH rest Hh).
Qed.

Lemma prefix_append p : forall s x,
  String.prefix p s = true -> String.prefix p (s ++ x) = true.
Proof.
  induction p as [|a p IH]; intros s x H.
  - now destruct (s ++ x).
  - destruct s as [|b s]; [discriminate|].
    cbn [append String.prefix] in *.
    destruct (ascii_dec a b); [now apply IH|discriminate].
Qed.

End Inline.

(** X16.  The annotation [stdout:] on one line gives the expected output
    only when none is set at that point of the case (from an earlier
    [stdout:] line or from a block): the first one counts.  The line sets
    nothing else. *)
Theorem stdout_annotation_first_wins (json_loads : string -> option string)
    (ln g : string) (s : Var.t) :
  Re.group Pat.stdout ln = Some g ->
  annot_inline json_loads ln s
  = Ok match Var.expect_stdout s with
       | None => Var.set_expect_stdout (Some (g ++ Py.nl)) s
       | Some _ => s
       end.
Proof.
  intros Hg. destruct (stdout_prefix ln g Hg) as [t ->].
  destruct (stdout_only t) as (H1 & H2 & H3 & H4 & H5 & H6 & H7 & H8).
  cbv zeta in *.
  unfold annot_inline, on_ni_marker, on_code, on_stdout, on_stdout_json,
    on_bug, on_ok_stdout, on_ni_status, on_status_of.
  rewrite H1, H2, H5, H6, H8, Hg.
  destruct (Var.expect_stdout s) as [e|];
    rewrite H3, H4; cbn [bind]; rewrite H7; reflexivity.
Qed.

Lemma stdout_annotation_first_wins_witness :
  annot_inline Std.json_loads "## stdout: second"
    (Var.set_expect_stdout (Some (Py.line "first")) (Var.init "x"))
  = Ok (Var.set_expect_stdout (Some (Py.line "first")) (Var.init "x")).
Proof.
  apply (stdout_annotation_first_wins Std.json_loads "## stdout: second"
           "second"
           (Var.set_expect_stdout (Some (Py.line "first")) (Var.init "x"))).
  vm_compute. reflexivity.
Defined.

(** X17.  An annotation on one line for another shell than dash (the tag
    [OK], [BUG] or [N-I], a blank, and a text that does not start with
    "dash") changes nothing: not the expected output, not the expected
    status, not the not-implemented mark. *)
Theorem other_shell_annotation_is_ignored
    (json_loads : string -> option string) (tag t : string) (s : Var.t) :
  In tag ["OK"; "BUG"; "N-I"] ->
  Py.startswith t "dash" = false ->
  annot_inline json_loads ("## " ++ tag ++ " " ++ t) s = Ok s.
Proof.
  intros [<- | [<- | [<- | []]]] H.
  - now apply ok_line_of_other_shell.
  - now apply bug_line_of_other_shell.
  - now apply ni_line_of_other_shell.
Qed.

Lemma other_shell_annotation_is_ignored_witness :
  annot_inline Std.json_loads "## BUG bash status: 2" (Var.init "x")
  = Ok (Var.init "x").
Proof.
  apply (other_shell_annotation_is_ignored Std.json_loads "BUG"
           "bash status: 2" (Var.init "x")).
  - simpl. tauto.
  - reflexivity.
Defined.

(** X18.  A file made of a header line and of lines none of which starts
    with "## " is one case whose script is the text of the file after the
    header line, character for character (also without a newline at the
    end), with no expected output, the expected status 0 and no
    not-implemented mark. *)
Theorem script_is_the_text_after_the_header
    (json_loads : string -> option string) (fs : string -> read_result)
    (path hdr body : string) :
  fs path = Text (Py.line hdr ++ body) ->
  Py.startswith hdr "#### " = true ->
  Py.has_char Py.nl_char hdr = false ->
  Forall (fun l => Py.startswith l "## " = false) (Py.readlines body) ->
  parse_spec_file json_loads fs path
  = Ok [Case (Py.strip (Py.drop 5 (Py.line hdr))) body None 0 false].
Proof.
  intros Hfs Hh Hnl Hb. unfold parse_spec_file, parse_lines.
  rewrite Hfs, (readlines_line hdr body Hnl).
  cbn [List.length cases_loop].
  unfold Py.startswith at 1, Py.line at 1.
  rewrite (prefix_append "#### " hdr Py.nl Hh).
  fold (Py.line hdr).
  rewrite (case_without_annotations json_loads).
  - cbn [bind]. now rewrite readlines_concat.
  - eapply Forall_impl; [|exact Hb].
    intros l Hl. unfold not_annotation. now rewrite Hl.
Qed.

Lemma script_is_the_text_after_the_header_witness :
  parse_spec_file Std.json_loads
    (fun _ => Text (Py.line "#### t" ++ Py.line "echo a" ++ "# end"))
    "t.test.sh"
  = Ok [Case "t" (Py.line "echo a" ++ "# end") None 0 false].
Proof.
  apply (script_is_the_text_after_the_header Std.json_loads
           (fun _ => Text (Py.line "#### t" ++ Py.line "echo a" ++ "# end"))
           "t.test.sh" "#### t" (Py.line "echo a" ++ "# end")).
  - reflexivity.
  - reflexivity.
  - reflexivity.
  - vm_compute. repeat constructor.
Defined.

(** ** Annotations of dash on one line *)

Section DashAnnotations.

Variable json_loads : string -> option string.

Lemma all_chars_app q a : forall b,
  Py.all_chars q a = true -> Py.all_chars q b = true ->
  Py.all_chars q (a ++ b) = true.
Proof.
  induction a as [|c a IH]; intros b Ha Hb; [exact Hb|].
  cbn [Py.all_chars append] in *. apply andb_true_iff in Ha.
  destruct Ha as [Hc Ha]. rewrite Hc. now apply IH.
Qed.

Lemma append_assoc (a b c : string) : (a ++ b) ++ c = a ++ b ++ c.
Proof. induction a; simpl; congruence. Qed.

(** What a match hands to its continuation: the text less a part that the
    pattern has read. *)
Lemma star_within q body :
  (forall st k res, body st k = Some res ->
     exists st' w, k st' = Some res /\ Re.m_rest st = w ++ Re.m_rest st'
                   /\ Py.all_chars q w = true) ->
  forall n st k res, Re.star_iter n body st k = Some res ->
    exists st' w, k st' = Some res /\ Re.m_rest st = w ++ Re.m_rest st'
                  /\ Py.all_chars q w = true.
Proof.
  intros Hb. induction n as [|n IH]; intros st k res H; cbn [Re.star_iter] in H.
  - exists st, EmptyString. now repeat split.
  - match type of H with
    | match ?m with _ => _ end = _ => destruct m as [x|] eqn:E
    end.
    + inversion H; subst x; clear H.
      apply Hb in E. destruct E as (st1 & w1 & E & Hr & Hw).
      destruct (_ <? _)%nat; [|discriminate].
      apply IH in E. destruct E as (st2 & w2 & E & Hr2 & Hw2).
      exists st2, (w1 ++ w2). repeat split; [exact E| |now apply all_chars_app].
      now rewrite Hr, Hr2, append_assoc.
    + exists st, EmptyString. now repeat split.
Qed.

Lemma rx_within q r : within q r ->
  forall st k res, Re.rx r st k = Some res ->
    exists st' w, k st' = Some res /\ Re.m_rest st = w ++ Re.m_rest st'
                  /\ Py.all_chars q w = true.
Proof.
  induction r as [p|p|r1 IH1 r2 IH2|r1 IH1 r2 IH2|r IH|r IH| |];
    intros Hq st k res H; cbn [Re.rx within] in *.
  - destruct (Re.match_lit p _ _) as [[pv s']|] eqn:E; [|discriminate].
    apply match_lit_app in E.
    exists (Re.MState pv s' (Re.m_group st)), p. now repeat split.
  - destruct (Re.m_rest st) as [|c s'] eqn:E; [discriminate|].
    destruct (p c) eqn:Ec; [|discriminate].
    exists (Re.MState (Some c) s' (Re.m_group st)), (String c EmptyString).
    repeat split; [exact H|].
    cbn [Py.all_chars]. now rewrite (Hq c Ec).
  - destruct Hq as [Hq1 Hq2].
    apply (IH1 Hq1) in H. destruct H as (st1 & w1 & H & Hr1 & Hw1).
    apply (IH2 Hq2) in H. destruct H as (st2 & w2 & H & Hr2 & Hw2).
    exists st2, (w1 ++ w2). repeat split; [exact H| |now apply all_chars_app].
    now rewrite Hr1, Hr2, append_assoc.
  - destruct Hq as [Hq1 Hq2].
    destruct (Re.rx r1 st k) as [x|] eqn:E.
    + inversion H; subst x. now apply (IH1 Hq1) in E.
    + now apply (IH2 Hq2) in H.
  - eapply star_within; [|exact H]. intros st0 k0 res0. now apply IH.
  - apply (IH Hq) in H. destruct H as (st1 & w & H & Hr & Hw).
    eexists _, w. repeat split; [exact H|exact Hr|exact Hw].
  - destruct (Re.at_eol _); [|discriminate].
    exists st, EmptyString. now repeat split.
  - destruct (xorb _ _); [|discriminate].
    exists st, EmptyString. now repeat split.
Qed.

(** A match stays one under a continuation that accepts more. *)
Lemma star_mono body :
  (forall k k' : Re.mstate -> option Re.mstate,
     (forall st x, k st = Some x -> exists y, k' st = Some y) ->
     forall st x, body st k = Some x -> exists y, body st k' = Some y) ->
  forall n (k k' : Re.mstate -> option Re.mstate),
    (forall st x, k st = Some x -> exists y, k' st = Some y) ->
    forall st x, Re.star_iter n body st k = Some x ->
      exists y, Re.star_iter n body st k' = Some y.
Proof.
  intros Hb n k k' Hk. induction n as [|n IH]; intros st x H;
    cbn [Re.star_iter] in *.
  - eapply Hk. exact H.
  - match type of H with
    | match ?m with _ => _ end = _ => destruct m as [z|] eqn:E
    end.
    + eapply Hb in E.
      * destruct E as [y E]. rewrite E. eauto.
      * intros st1 x1. cbn beta.
        destruct (_ <? _)%nat; [apply IH|discriminate].
    + apply Hk in H. destruct H as [y H].
      match goal with
      | |- exists _, match ?m with _ => _ end = _ => destruct m
      end; eauto.
Qed.

Lemma rx_mono r : forall k k' : Re.mstate -> option Re.mstate,
  (forall st x, k st = Some x -> exists y, k' st = Some y) ->
  forall st x, Re.rx r st k = Some x -> exists y, Re.rx r st k' = Some y.
Proof.
  induction r as [p|p|r1 IH1 r2 IH2|r1 IH1 r2 IH2|r IH|r IH| |];
    intros k k' Hk st x H; cbn [Re.rx] in *.
  - destruct (Re.match_lit p _ _) as [[pv s']|]; [|discriminate].
    eapply Hk. exact H.
  - destruct (Re.m_rest st) as [|c s']; [discriminate|].
    destruct (p c); [|discriminate]. eapply Hk. exact H.
  - eapply IH1; [|exact H]. intros st1 x1. apply IH2. exact Hk.
  - destruct (Re.rx r1 st k) as [z|] eqn:E.
    + eapply IH1 in E; [|exact Hk]. destruct E as [y E]. rewrite E. eauto.
    + eapply IH2 in H; [|exact Hk]. destruct H as [y H].
      destruct (Re.rx r1 st k'); eauto.
  - eapply star_mono; [|exact Hk|exact H]. intros k0 k0' Hk0. now apply IH.
  - eapply IH; [|exact H]. intros st1 x1. apply Hk.
  - destruct (Re.at_eol _); [|discriminate]. eapply Hk. exact H.
  - destruct (xorb _ _); [|discriminate]. eapply Hk. exact H.
Qed.

Lemma within_dash : within dash_char Pat.dash.
Proof.
  unfold Pat.dash, Re.Plus, Re.word. cbn [Re.seq within].
  repeat split; try reflexivity;
    intros c Hc; unfold dash_char; now rewrite Hc.
Qed.

(** Where a text of the characters of [q] ends is decided by the first
    character that is not one of them. *)
Lemma split_unique q c w : forall w' x y,
  Py.all_chars q w = true -> Py.all_chars q w' = true -> q c = false ->
  w ++ String c x = w' ++ String c y -> x = y.
Proof.
  induction w as [|a w IH]; intros w' x y Hw Hw' Hc H.
  - destruct w' as [|b w']; simpl in H.
    + now inversion H.
    + inversion H; subst b. cbn [Py.all_chars] in Hw'.
      rewrite Hc in Hw'. discriminate.
  - cbn [Py.all_chars] in Hw. apply andb_true_iff in Hw.
    destruct Hw as [Ha Hw].
    destruct w' as [|b w']; simpl in H.
    + inversion H; subst a. rewrite Hc in Ha. discriminate.
    + inversion H; subst b. cbn [Py.all_chars] in Hw'.
      apply andb_true_iff in Hw'. destruct Hw' as [_ Hw'].
      eapply IH; eauto.
Qed.

(** The text after the name of the shell, in a line that a pattern of a
    dash annotation matches. *)
Lemma dash_annotation_tail p a r ln res :
  Re.re_match (Re.Seq (Re.Lit p) (Re.Seq Pat.dash (Re.Seq (Re.Lit a) r))) ln
  = Some res ->
  exists w u, ln = p ++ w ++ a ++ u /\ Py.all_chars dash_char w = true.
Proof.
  unfold Re.re_match. intros H.
  change (Re.rx (Re.Seq (Re.Lit p) ?r0) ?st ?k)
    with (Re.rx (Re.Lit p) st (fun st1 => Re.rx r0 st1 k)) in H.
  cbn [Re.rx Re.m_prev Re.m_rest Re.m_group] in H.
  destruct (Re.match_lit p None ln) as [[pv s']|] eqn:E; [|discriminate].
  apply match_lit_app in E. subst ln.
  apply (rx_within dash_char Pat.dash within_dash) in H.
  destruct H as (st1 & w & H & Hr & Hw). cbn [Re.m_rest] in Hr. subst s'.
  destruct (Re.match_lit a _ _) as [[pv2 s2]|] eqn:E2; [|discriminate].
  apply match_lit_app in E2. rewrite E2. eauto.
Qed.

(** Two patterns of dash annotations that match one line go on alike
    after the name of the shell. *)
Lemma dash_annotations_agree p a b r1 r2 ln res1 res2 :
  Re.re_match
    (Re.Seq (Re.Lit p) (Re.Seq Pat.dash (Re.Seq (Re.Lit (String " " a)) r1)))
    ln = Some res1 ->
  Re.re_match
    (Re.Seq (Re.Lit p) (Re.Seq Pat.dash (Re.Seq (Re.Lit (String " " b)) r2)))
    ln = Some res2 ->
  exists u v, a ++ u = b ++ v.
Proof.
  intros H1 H2.
  apply dash_annotation_tail in H1. destruct H1 as (w1 & u & -> & Hw1).
  apply dash_annotation_tail in H2. destruct H2 as (w2 & v & E & Hw2).
  apply append_inv_head in E. cbn [append] in E.
  exists u, v.
  exact (split_unique dash_char " "%char w1 w2 _ _ Hw1 Hw2 eq_refl E).
Qed.

Lemma match_lit_self p : forall pv z,
  exists pv', Re.match_lit p pv (p ++ z) = Some (pv', z).
Proof.
  induction p as [|a p IH]; intros pv z; cbn [Re.match_lit append]; [eauto|].
  rewrite Ascii.eqb_refl. apply IH.
Qed.

Lemma seq2_mono r1 r2 x x' (k k' : Re.mstate -> option Re.mstate) st res :
  Re.rx (Re.Seq r1 (Re.Seq r2 x)) st k = Some res ->
  (forall st2 y, Re.rx x st2 k = Some y -> exists y', Re.rx x' st2 k' = Some y') ->
  exists res', Re.rx (Re.Seq r1 (Re.Seq r2 x')) st k' = Some res'.
Proof.
  cbn [Re.rx]. intros H Hx.
  eapply rx_mono; [|exact H]. intros st1 y. apply rx_mono. exact Hx.
Qed.

(** A line that a pattern of a dash annotation matches is matched by the
    pattern that ends earlier. *)
Lemma dash_annotation_shorter p a z r ln res :
  Re.re_match (Re.Seq (Re.Lit p) (Re.Seq Pat.dash (Re.Seq (Re.Lit (a ++ z)) r)))
    ln = Some res ->
  Re.matches (Re.Seq (Re.Lit p) (Re.Seq Pat.dash (Re.Lit a))) ln = true.
Proof.
  unfold Re.matches, Re.re_match. intros H.
  eapply seq2_mono with (x' := Re.Lit a) (k' := Some) in H.
  - destruct H as [res' H]. now rewrite H.
  - intros st2 y. cbn [Re.rx].
    destruct (Re.match_lit (a ++ z) _ _) as [[pv s']|] eqn:E; [|discriminate].
    intros _. apply match_lit_app in E. rewrite E, append_assoc.
    destruct (match_lit_self a (Re.m_prev st2) (z ++ s')) as [pv' ->]. eauto.
Qed.

Lemma alt_right a b st (k : Re.mstate -> option Re.mstate) y :
  Re.rx b st k = Some y -> exists y', Re.rx (Re.Alt a b) st k = Some y'.
Proof. cbn [Re.rx]. intros H. destruct (Re.rx a st k); eauto. Qed.

Lemma bug_matches x ln res :
  Re.re_match (Re.Seq (Re.Lit "## BUG ") (Re.Seq Pat.dash x)) ln = Some res ->
  Re.matches Pat.bug ln = true.
Proof.
  unfold Re.matches, Re.re_match, Pat.bug. cbn [Re.seq Re.alt]. intros H.
  assert (E : exists y,
    Re.rx (Re.Seq (Re.Lit "## BUG ")
             (Re.Alt (Re.Lit "bash")
                (Re.Alt (Re.Lit "mksh") (Re.Alt (Re.Lit "zsh") Pat.dash))))
      (Re.MState None ln None) Some = Some y).
  { revert H.
    change (Re.rx (Re.Seq (Re.Lit "## BUG ") ?r0) ?st ?k)
      with (Re.rx (Re.Lit "## BUG ") st (fun st1 => Re.rx r0 st1 k)).
    intros H. eapply rx_mono; [|exact H].
    intros st1 y Hy.
    assert (Hd : exists y0, Re.rx Pat.dash st1 Some = Some y0).
    { eapply (rx_mono Pat.dash (fun st2 => Re.rx x st2 Some) Some);
        [intros; eauto|exact Hy]. }
    clear Hy. destruct Hd as [y0 Hy].
    apply (alt_right (Re.Lit "zsh")) in Hy. destruct Hy as [y1 Hy].
    apply (alt_right (Re.Lit "mksh")) in Hy. destruct Hy as [y2 Hy].
    apply (alt_right (Re.Lit "bash")) in Hy. exact Hy. }
  destruct E as [y E]. now rewrite E.
Qed.

(** A line that starts with "## OK " is read by the tests of the OK
    annotations only. *)
Lemma ok_line_only t :
  let ln := "## OK " ++ t in
  Re.matches Pat.ni_marker ln = false
  /\ Re.group Pat.code ln = None
  /\ Re.group Pat.stdout ln = None
  /\ Re.group Pat.stdout_json ln = None
  /\ Re.group Pat.status ln = None
  /\ Re.matches Pat.bug ln = false
  /\ Re.group Pat.ni_status ln = None.
Proof. repeat split; reflexivity. Qed.

(** A line that starts with "## BUG " is read by the tests of the BUG
    annotations only. *)
Lemma bug_line_only t :
  let ln := "## BUG " ++ t in
  Re.matches Pat.ni_marker ln = false
  /\ Re.group Pat.code ln = None
  /\ Re.group Pat.stdout ln = None
  /\ Re.group Pat.stdout_json ln = None
  /\ Re.group Pat.status ln = None
  /\ Re.matches Pat.ok_stdout_any ln = false
  /\ Re.group Pat.ok_status ln = None
  /\ Re.group Pat.ni_status ln = None.
Proof. repeat split; reflexivity. Qed.

Lemma group_some r ln g :
  Re.group r ln = Some g -> exists res, Re.re_match r ln = Some res.
Proof.
  unfold Re.group. destruct (Re.re_match r ln) as [res|]; [eauto|discriminate].
Qed.

(** Of the patterns of dash annotations with one tag, at most one reads a
    line: what follows the name of the shell tells them apart. *)
Lemma dash_annotation_alone p a b r1 r2 ln g :
  Re.group
    (Re.Seq (Re.Lit p) (Re.Seq Pat.dash (Re.Seq (Re.Lit (String " " a)) r1)))
    ln = Some g ->
  (forall u v, a ++ u <> b ++ v) ->
  Re.group
    (Re.Seq (Re.Lit p) (Re.Seq Pat.dash (Re.Seq (Re.Lit (String " " b)) r2)))
    ln = None.
Proof.
  intros Hg Hne. apply group_some in Hg. destruct Hg as [res1 H1].
  unfold Re.group.
  match goal with
  | |- match ?m with _ => _ end = _ => destruct m as [res2|] eqn:H2
  end; [|reflexivity].
  destruct (dash_annotations_agree _ _ _ _ _ _ _ _ H1 H2) as (u & v & E).
  now destruct (Hne u v).
Qed.

Lemma ok_stdout_line ln g s :
  Re.group Pat.ok_stdout ln = Some g ->
  annot_inline json_loads ln s
  = Ok (Var.set_expect_stdout (Some (g ++ Py.nl)) s).
Proof.
  intros Hg.
  assert (E1 : Re.matches Pat.ok_stdout_any ln = true).
  { destruct (group_some _ _ _ Hg) as [res H].
    exact (dash_annotation_shorter "## OK " " stdout" ": " _ ln res H). }
  assert (E2 : Re.group Pat.ok_stdout_json ln = None).
  { apply (dash_annotation_alone "## OK " "stdout: " "stdout-json: " _ _ ln g Hg).
    intros u v E. simpl in E. discriminate. }
  assert (E3 : Re.group Pat.ok_status ln = None).
  { apply (dash_annotation_alone "## OK " "stdout: " "status: " _ _ ln g Hg).
    intros u v E. simpl in E. discriminate. }
  destruct (group_some _ _ _ Hg) as [res H].
  unfold Pat.ok_stdout in H. cbn [Re.seq] in H.
  apply lit_prefix in H. destruct H as [t ->].
  destruct (ok_line_only t) as (H1 & H2 & H3 & H4 & H5 & H6 & H7).
  cbv zeta in *.
  unfold annot_inline, on_ni_marker, on_code, on_stdout, on_stdout_json,
    on_bug, on_ok_stdout, on_ni_status, on_status_of, on_dash_stdout_of,
    on_dash_stdout_json_of.
  rewrite H1, H2, H3, H4, H5, H6. cbn [bind].
  rewrite E1, Hg, E2, E3. cbn [bind]. now rewrite H7.
Qed.

Lemma bug_stdout_line ln g s :
  Re.group Pat.bug_stdout ln = Some g ->
  annot_inline json_loads ln s
  = Ok (Var.set_expect_stdout (Some (g ++ Py.nl)) s).
Proof.
  intros Hg.
  assert (E1 : Re.matches Pat.bug ln = true).
  { destruct (group_some _ _ _ Hg) as [res H].
    exact (bug_matches _ ln res H). }
  assert (E2 : Re.group Pat.bug_stdout_json ln = None).
  { apply (dash_annotation_alone "## BUG " "stdout: " "stdout-json: " _ _ ln g Hg).
    intros u v E. simpl in E. discriminate. }
  assert (E3 : Re.group Pat.bug_status ln = None).
  { apply (dash_annotation_alone "## BUG " "stdout: " "status: " _ _ ln g Hg).
    intros u v E. simpl in E. discriminate. }
  destruct (group_some _ _ _ Hg) as [res H].
  unfold Pat.bug_stdout in H. cbn [Re.seq] in H.
  apply lit_prefix in H. destruct H as [t ->].
  destruct (bug_line_only t) as (H1 & H2 & H3 & H4 & H5 & H6 & H7 & H8).
  cbv zeta in *.
  unfold annot_inline, on_ni_marker, on_code, on_stdout, on_stdout_json,
    on_bug, on_ok_stdout, on_ni_status, on_status_of, on_dash_stdout_of,
    on_dash_stdout_json_of.
  rewrite H1, H2, H3, H4, H5. cbn [bind].
  rewrite E1, Hg, E2, E3. cbn [bind]. now rewrite H6, H7, H8.
Qed.

Lemma ok_stdout_json_line ln g s :
  Re.group Pat.ok_stdout_json ln = Some g ->
  annot_inline json_loads ln s
  = Ok match loads_quoted json_loads g with
       | Some v =>
           Var.set_expect_stdout None (Var.set_expect_stdout_json (Some v) s)
       | None => s
       end.
Proof.
  intros Hg.
  assert (E1 : Re.matches Pat.ok_stdout_any ln = true).
  { destruct (group_some _ _ _ Hg) as [res H].
    exact (dash_annotation_shorter "## OK " " stdout" "-json: " _ ln res H). }
  assert (E2 : Re.group Pat.ok_stdout ln = None).
  { apply (dash_annotation_alone "## OK " "stdout-json: " "stdout: " _ _ ln g Hg).
    intros u v E. simpl in E. discriminate. }
  assert (E3 : Re.group Pat.ok_status ln = None).
  { apply (dash_annotation_alone "## OK " "stdout-json: " "status: " _ _ ln g Hg).
    intros u v E. simpl in E. discriminate. }
  destruct (group_some _ _ _ Hg) as [res H].
  unfold Pat.ok_stdout_json in H. cbn [Re.seq] in H.
  apply lit_prefix in H. destruct H as [t ->].
  destruct (ok_line_only t) as (H1 & H2 & H3 & H4 & H5 & H6 & H7).
  cbv zeta in *.
  unfold annot_inline, on_ni_marker, on_code, on_stdout, on_stdout_json,
    on_bug, on_ok_stdout, on_ni_status, on_status_of, on_dash_stdout_of,
    on_dash_stdout_json_of.
  rewrite H1, H2, H3, H4, H5, H6. cbn [bind].
  rewrite E1, Hg, E2, E3. cbn [bind]. now rewrite H7.
Qed.

Lemma bug_stdout_json_line ln g s :
  Re.group Pat.bug_stdout_json ln = Some g ->
  annot_inline json_loads ln s
  = Ok match loads_quoted json_loads g with
       | Some v =>
           Var.set_expect_stdout None (Var.set_expect_stdout_json (Some v) s)
       | None => s
       end.
Proof.
  intros Hg.
  assert (E1 : Re.matches Pat.bug ln = true).
  { destruct (group_some _ _ _ Hg) as [res H].
    exact (bug_matches _ ln res H). }
  assert (E2 : Re.group Pat.bug_stdout ln = None).
  { apply (dash_annotation_alone "## BUG " "stdout-json: " "stdout: " _ _ ln g Hg).
    intros u v E. simpl in E. discriminate. }
  assert (E3 : Re.group Pat.bug_status ln = None).
  { apply (dash_annotation_alone "## BUG " "stdout-json: " "status: " _ _ ln g Hg).
    intros u v E. simpl in E. discriminate. }
  destruct (group_some _ _ _ Hg) as [res H].
  unfold Pat.bug_stdout_json in H. cbn [Re.seq] in H.
  apply lit_prefix in H. destruct H as [t ->].
  destruct (bug_line_only t) as (H1 & H2 & H3 & H4 & H5 & H6 & H7 & H8).
  cbv zeta in *.
  unfold annot_inline, on_ni_marker, on_code, on_stdout, on_stdout_json,
    on_bug, on_ok_stdout, on_ni_status, on_status_of, on_dash_stdout_of,
    on_dash_stdout_json_of.
  rewrite H1, H2, H3, H4, H5. cbn [bind].
  rewrite E1, E2, Hg, E3.
  destruct (loads_quoted json_loads g); cbn [bind]; now rewrite H6, H7, H8.
Qed.

End DashAnnotations.

(** X19.  An annotation [stdout:] of dash on one line, with the tag [OK]
    or [BUG], gives the expected output whatever it was before: unlike the
    plain [stdout:] annotation, the last one counts.  The line sets
    nothing else. *)
Theorem dash_stdout_annotation_overwrites
    (json_loads : string -> option string) (ln g : string) (s : Var.t) :
  Re.group Pat.ok_stdout ln = Some g \/ Re.group Pat.bug_stdout ln = Some g ->
  annot_inline json_loads ln s
  = Ok (Var.set_expect_stdout (Some (g ++ Py.nl)) s).
Proof.
  intros [H|H].
  - now apply ok_stdout_line.
  - now apply bug_stdout_line.
Qed.

Lemma dash_stdout_annotation_overwrites_witness :
  annot_inline Std.json_loads "## OK dash/ash stdout: second"
    (Var.set_expect_stdout (Some (Py.line "first")) (Var.init "x"))
  = Ok (Var.set_expect_stdout (Some (Py.line "second")) (Var.init "x")).
Proof.
  apply (dash_stdout_annotation_overwrites Std.json_loads
           "## OK dash/ash stdout: second" "second"
           (Var.set_expect_stdout (Some (Py.line "first")) (Var.init "x"))).
  left. vm_compute. reflexivity.
Defined.

(** X20.  An annotation [stdout-json:] of dash on one line, with the tag
    [OK] or [BUG]: when its string is decoded, the text is kept for the end
    of the case and the expected output set so far is erased, so that the
    decoded text will count unless a later line sets the expected output
    again; when decoding fails the line changes nothing.  (The plain
    [stdout-json:] annotation gives way to an expected output that is
    set.) *)
Theorem dash_stdout_json_annotation_erases
    (json_loads : string -> option string) (ln g : string) (s : Var.t) :
  Re.group Pat.ok_stdout_json ln = Some g
  \/ Re.group Pat.bug_stdout_json ln = Some g ->
  annot_inline json_loads ln s
  = Ok match loads_quoted json_loads g with
       | Some v =>
           Var.set_expect_stdout None (Var.set_expect_stdout_json (Some v) s)
       | None => s
       end.
Proof.
  intros [H|H].
  - now apply ok_stdout_json_line.
  - now apply bug_stdout_json_line.
Qed.

Lemma dash_stdout_json_annotation_erases_witness :
  annot_inline Std.json_loads
    ("## BUG dash stdout-json: " ++ Py.dquote ++ "ab" ++ Py.dquote)
    (Var.set_expect_stdout (Some (Py.line "first")) (Var.init "x"))
  = Ok (Var.set_expect_stdout None
          (Var.set_expect_stdout_json (Some "ab")
             (Var.set_expect_stdout (Some (Py.line "first")) (Var.init "x")))).
Proof.
  apply (dash_stdout_json_annotation_erases Std.json_loads
           ("## BUG dash stdout-json: " ++ Py.dquote ++ "ab" ++ Py.dquote) "ab"
           (Var.set_expect_stdout (Some (Py.line "first")) (Var.init "x"))).
  right. vm_compute. reflexivity.
Defined.

(** ** The expected output of a case *)

Section ExpectedOutput.

Local Open Scope list_scope.

Variable json_loads : string -> option string.






End ExpectedOutput.


